(** * grain-price-analyzer: the price builder and the CSV sanitizer

    A shallow embedding of [04_build_prices_csv.py] and [05_sanitize_csv.py].

    - Python [float]s are IEEE 754 binary64 numbers: Rocq's primitive [float].
    - Python [dict]s with string keys are [gmap string _].
    - A Python exception is an explicit result [Raise e]; [try]/[except]
      is [except_ValueError_TypeError].
    - The builtins that read text ([float] on a [str], [datetime.strptime])
      are parameters of the sections that use them, so every theorem holds
      for the real builtins; [float_of_decimal] and [strptime_ymd] model
      them on ASCII text to run the code on examples. *)

From Stdlib Require Import ZArith Ascii Floats Lia.
From stdpp Require Import gmap strings list sorting.

(** ** Python values and exceptions *)

Inductive exn := ValueError | TypeError | KeyError | IndexError | ZeroDivisionError.

Inductive res (A : Type) : Type :=
| Ok (a : A)
| Raise (e : exn).
Arguments Ok {A} a.
Arguments Raise {A} e.

#[global] Instance res_ret : MRet res := fun A a => Ok a.
#[global] Instance res_bind : MBind res :=
  fun A B f m => match m with Ok a => f a | Raise e => Raise e end.

(** [try: body except (ValueError, TypeError): handler]. Any other
    exception passes through. *)
Definition except_ValueError_TypeError {A} (body : res A) (handler : res A) : res A :=
  match body with
  | Raise ValueError | Raise TypeError => handler
  | other => other
  end.

Ltac res_simpl :=
  cbn [mbind res_bind mret res_ret except_ValueError_TypeError] in *.

(** [d[k]] on a dict. *)
Definition getitem {V} (d : gmap string V) (k : string) : res V :=
  match d !! k with
  | Some v => Ok v
  | None => Raise KeyError
  end.

(** [l[i]] on a list, for [i >= 0]. *)
Definition index {A} (l : list A) (i : nat) : res A :=
  match l !! i with
  | Some x => Ok x
  | None => Raise IndexError
  end.

(** Comparisons of Python floats. [a > b] is [b < a] in IEEE 754, also on
    NaN, where both are false. *)
Definition float_gt (a b : float) : bool := PrimFloat.ltb b a.
Definition float_le (a b : float) : bool := PrimFloat.leb a b.
Definition float_eq (a b : float) : bool := PrimFloat.eqb a b.

(** ** A reader for plain decimal numerals

    [float_of_decimal] reads [-]digits[.digits] with at most 15 digits, as
    Python's [float] does: the digits as an integer and the power of ten
    are both exact binary64 numbers, and one IEEE division rounds their
    quotient correctly. It answers [None] on every other string; the real
    [float] accepts more (exponents, [inf], [nan], blanks), so the
    sections below take the reader as a parameter and this one serves the
    examples. *)

Definition digit_of_ascii (c : ascii) : option Z :=
  let n := Z.of_N (N_of_ascii c) in
  if (48 <=? n)%Z && (n <=? 57)%Z then Some (n - 48)%Z else None.

(** The digits of [s] appended to [acc]; [None] when [s] has another
    character. *)
Fixpoint digits_value (s : string) (acc : Z) : option Z :=
  match s with
  | EmptyString => Some acc
  | String c s' =>
      match digit_of_ascii c with
      | Some d => digits_value s' (10 * acc + d)%Z
      | None => None
      end
  end.

(** [s] cut at its first ['.']. *)
Fixpoint split_point (s : string) : string * option string :=
  match s with
  | EmptyString => (EmptyString, None)
  | String c s' =>
      if Ascii.eqb c "."%char then (EmptyString, Some s')
      else let '(a, b) := split_point s' in (String c a, b)
  end.

Definition float_of_Z15 (n : Z) : float := of_uint63 (Uint63.of_Z n).

Definition unsigned_decimal (s : string) : option float :=
  let '(ip, fp) := split_point s in
  let fp' := match fp with Some f => f | None => EmptyString end in
  if (String.length ip =? 0)%nat then None
  else if match fp with Some f => (String.length f =? 0)%nat | None => false end then None
  else if (15 <? String.length ip + String.length fp')%nat then None
  else
    match digits_value (ip +:+ fp') 0 with
    | Some n => Some (float_of_Z15 n / float_of_Z15 (10 ^ Z.of_nat (String.length fp')))%float
    | None => None
    end.

Definition float_of_decimal (s : string) : option float :=
  match s with
  | String "-"%char s' => PrimFloat.opp <$> unsigned_decimal s'
  | _ => unsigned_decimal s
  end.

(** ** Sanitizer: 05_sanitize_csv.py *)

Module Sanitize.

(** What [csv.DictReader] puts in a row under a column of the header: a
    string, or [None] where the line was short ([restval]). A line longer
    than the header gets one more key, [None], which [csv.DictWriter]
    refuses when the row is written; rows are taken without it. *)
Definition cell := option string.
Abbreviation row := (gmap string cell).

Definition OUTLIER_THRESHOLD_PERCENTAGE : float := 50%float.

Definition is_numeric_column (column_name : string) : bool :=
  negb (String.eqb column_name "fecha").

Definition calculate_percentage_difference (current previous : float) : float :=
  if float_eq previous 0
  then (if negb (float_eq current 0) then infinity else 0%float)
  else (PrimFloat.abs ((current - previous) / previous) * 100)%float.

Section WithFloat.

(** [float(s)] on a [str]: [None] stands for [ValueError]. *)
Variable float_of_str : string -> option float.

(** [float(c)] on a cell. *)
Definition float_of_cell (c : cell) : res float :=
  match c with
  | None => Raise TypeError
  | Some s =>
      match float_of_str s with
      | Some f => Ok f
      | None => Raise ValueError
      end
  end.

(** [float(r[col])]. *)
Definition float_at (r : row) (col : string) : res float :=
  getitem r col ≫= float_of_cell.

Section WithRows.

Variable all_rows : list row.

(** The [try] block of the look-ahead (lines 81-99), for the row
    [next_row] found ahead: [true] when the loop is to [break] with
    [is_sustained_change = True], [false] when it goes on, by falling
    through or by the [continue] of the handler. *)
Definition stays_near_current (next_row : row) (col : string)
    (current_value previous_value : float) : res bool :=
  except_ValueError_TypeError
    (next_value ← float_at next_row col;
     let diff_current_to_next := PrimFloat.abs (current_value - next_value)%float in
     let diff_previous_to_next := PrimFloat.abs (previous_value - next_value)%float in
     Ok (float_le diff_current_to_next diff_previous_to_next))
    (Ok false).

(** The loop [for j in range(1, 3)] (lines 79-99), over the offsets [js]
    still to visit; the result is [is_sustained_change]. *)
Fixpoint sustained_change (i : nat) (col : string)
    (current_value previous_value : float) (js : list nat) : res bool :=
  match js with
  | [] => Ok false
  | j :: js' =>
      match all_rows !! (i + j) with
      | Some next_row =>
          found ← stays_near_current next_row col current_value previous_value;
          if (found : bool)
          then Ok true
          else sustained_change i col current_value previous_value js'
      | None => sustained_change i col current_value previous_value js'
      end
  end.

(** One turn of [for col in numeric_columns] (lines 68-108): does [col]
    mark row [i] as an isolated outlier? *)
Definition column_is_outlier (i : nat) (r previous_row : row) (col : string) : res bool :=
  except_ValueError_TypeError
    (current_value ← float_at r col;
     previous_value ← float_at previous_row col;
     let diff_percentage := calculate_percentage_difference current_value previous_value in
     if float_gt diff_percentage OUTLIER_THRESHOLD_PERCENTAGE
     then
       is_sustained_change ← sustained_change i col current_value previous_value [1; 2];
       Ok (negb is_sustained_change)
     else Ok false)
    (Ok false).

(** The loop over the numeric columns; [is_outlier] is the flag so far. No
    column is skipped once the flag is set. *)
Fixpoint row_is_outlier (i : nat) (r previous_row : row)
    (numeric_columns : list string) (is_outlier : bool) : res bool :=
  match numeric_columns with
  | [] => Ok is_outlier
  | col :: cols =>
      o ← column_is_outlier i r previous_row col;
      row_is_outlier i r previous_row cols (o || is_outlier)
  end.

(** The body of [for i, row in enumerate(all_rows)] (lines 53-118): is
    [rows_to_keep.append(row)] reached for row [i]? The row before it is
    read from [all_rows], the input. The warning printed for a discarded
    row reads [row['fecha']]. *)
Definition row_is_kept (numeric_columns : list string) (i : nat) (r : row) : res bool :=
  if decide (i = 0)
  then Ok true
  else
    previous_row ← index all_rows (i - 1);
    is_outlier ← row_is_outlier i r previous_row numeric_columns false;
    if (is_outlier : bool)
    then _ ← getitem r "fecha"; Ok false
    else Ok true.

(** The loop itself, from index [i] on, [todo] being the rows from [i]
    on. *)
Fixpoint sanitize_loop (numeric_columns : list string) (i : nat)
    (todo : list row) (rows_to_keep : list row) : res (list row) :=
  match todo with
  | [] => Ok rows_to_keep
  | r :: todo' =>
      keep ← row_is_kept numeric_columns i r;
      sanitize_loop numeric_columns (S i) todo'
        (if (keep : bool) then rows_to_keep ++ [r] else rows_to_keep)
  end.

End WithRows.

(** [sanitize_csv]: the header and the rows handed to [csv.DictWriter].
    [fieldnames] is [None] when the input file is empty. Of what the
    function prints only the reads that can raise are kept. *)
Definition sanitize_csv (fieldnames : option (list string)) (all_rows : list row)
    : res (list string * list row) :=
  match fieldnames with
  | None => Raise TypeError
  | Some fieldnames =>
      let numeric_columns := List.filter is_numeric_column fieldnames in
      rows_to_keep ← sanitize_loop all_rows numeric_columns 0 all_rows [];
      Ok (fieldnames, rows_to_keep)
  end.

(** *** Notions used to state the properties *)

(** Every row has a cell for each of [cols], as rows read by
    [csv.DictReader] under the header have. *)
Definition has_columns (cols : list string) (rows : list row) : Prop :=
  Forall (fun r : row => Forall (fun c => is_Some (r !! c)) cols) rows.

(** The row [csv.DictReader] makes of the cells of a line no longer than
    the header: [dict(zip(fieldnames, cells))], the columns left over set
    to [None]. Of two columns of one name the later wins. *)
Definition dict_row (fieldnames : list string) (cells : list string) : row :=
  list_to_map
    (reverse (zip fieldnames
                (map Some cells ++ replicate (length fieldnames - length cells) None))).

(** The rows [csv.DictReader] yields: lines without cells are skipped. *)
Definition dict_rows (fieldnames : list string) (lines : list (list string)) : list row :=
  map (dict_row fieldnames) (List.filter (fun cells => negb (Nat.eqb (length cells) 0)) lines).

(** The columns the run reads: the date, for the warnings, and the
    numeric columns of the header. *)
Definition columns_read (fieldnames : list string) : list string :=
  "fecha" :: List.filter is_numeric_column fieldnames.

(** A cell [float] does not read: [None], or text that is no number. *)
Definition not_a_number (c : cell) : Prop :=
  match c with
  | None => True
  | Some s => float_of_str s = None
  end.

(** The row at offset [j] after row [i] holds a number in [col] that is
    no farther from the current value than from the previous one. *)
Definition sustains_at (all_rows : list row) (i : nat) (col : string)
    (cur prev : float) (j : nat) : Prop :=
  exists next_row next,
    all_rows !! (i + j) = Some next_row
    /\ float_at next_row col = Ok next
    /\ float_le (PrimFloat.abs (cur - next)%float) (PrimFloat.abs (prev - next)%float) = true.

(** The decision of the loop for each row of [todo], which starts at
    index [i]. *)
Fixpoint keep_flags_from (all_rows : list row) (numeric_columns : list string)
    (i : nat) (todo : list row) : res (list bool) :=
  match todo with
  | [] => Ok []
  | r :: todo' =>
      keep ← row_is_kept all_rows numeric_columns i r;
      flags ← keep_flags_from all_rows numeric_columns (S i) todo';
      Ok (keep :: flags)
  end.

(** The rows whose flag is set. *)
Fixpoint select (flags : list bool) (rows : list row) : list row :=
  match flags, rows with
  | keep :: flags', r :: rows' =>
      if keep then r :: select flags' rows' else select flags' rows'
  | _, _ => []
  end.

End WithFloat.

(** *** Example series *)

(** A row of a table with the header [fecha, precio]. *)
Definition price_row (fecha precio : string) : row :=
  {[ "fecha" := Some fecha; "precio" := Some precio ]}.

Definition fecha_precio : list string := ["fecha"; "precio"].

Definition jump_at_end : list row :=
  [price_row "2024-03-01" "100"; price_row "2024-03-04" "200"].

(** A spike followed by a partial fall: row 1 is an isolated outlier, and
    row 2 is 50% below the discarded row 1 but 100% above row 0. *)
Definition spike_then_step : list row :=
  [price_row "2024-03-01" "100"; price_row "2024-03-04" "400";
   price_row "2024-03-05" "200"; price_row "2024-03-06" "100";
   price_row "2024-03-07" "100"].

(** The series 100, 100, 100, 200, 100, 100. *)
Definition spike_series : list row :=
  [price_row "2024-03-01" "100"; price_row "2024-03-04" "100";
   price_row "2024-03-05" "100"; price_row "2024-03-06" "200";
   price_row "2024-03-07" "100"; price_row "2024-03-08" "100"].

(** The spike series with another start: the same rows from index 2 on. *)
Definition spike_series_other_start : list row :=
  [price_row "2024-02-28" "7"; price_row "2024-02-29" "900";
   price_row "2024-03-05" "100"; price_row "2024-03-06" "200";
   price_row "2024-03-07" "100"; price_row "2024-03-08" "100"].

(** A step up that stays. *)
Definition step_series : list row :=
  [price_row "2024-03-01" "100"; price_row "2024-03-04" "200";
   price_row "2024-03-05" "200"; price_row "2024-03-06" "200"].

(** Rows with cells that are no numbers: text, and a short row. *)
Definition series_with_gaps : list row :=
  [price_row "2024-03-01" "100"; price_row "2024-03-04" "n/a";
   {[ "fecha" := Some "2024-03-05"; "precio" := None ]};
   price_row "2024-03-06" "100"].

(** Two readers give the same answer on every text cell of the columns
    [cols]. *)
Definition agree_on (float1 float2 : string -> option float)
    (cols : list string) (rows : list row) : Prop :=
  forall (r : row) col s,
    r ∈ rows -> col ∈ cols -> r !! col = Some (Some s) -> float1 s = float2 s.

(** *** The counters of the run *)

Section Counters.

Variable float_of_str : string -> option float.

(** The loop with its two counters (lines 38-39, 53 and 111) beside the
    rows kept. *)
Fixpoint sanitize_loop_counting (all_rows : list row) (numeric_columns : list string)
    (i : nat) (todo : list row) (total_rows discarded_count : nat)
    (rows_to_keep : list row) : res (nat * nat * list row) :=
  match todo with
  | [] => Ok (total_rows, discarded_count, rows_to_keep)
  | r :: todo' =>
      let total_rows := S total_rows in
      keep ← row_is_kept float_of_str all_rows numeric_columns i r;
      if (keep : bool)
      then sanitize_loop_counting all_rows numeric_columns (S i) todo'
             total_rows discarded_count (rows_to_keep ++ [r])
      else sanitize_loop_counting all_rows numeric_columns (S i) todo'
             total_rows (S discarded_count) rows_to_keep
  end.

(** The three numbers of the summary (lines 127-131): rows processed,
    rows kept, rows discarded. *)
Definition sanitize_summary (fieldnames : option (list string)) (all_rows : list row)
    : res (nat * nat * nat) :=
  match fieldnames with
  | None => Raise TypeError
  | Some fieldnames =>
      let numeric_columns := List.filter is_numeric_column fieldnames in
      counted ← sanitize_loop_counting all_rows numeric_columns 0 all_rows 0 0 [];
      let '(total_rows, discarded_count, rows_to_keep) := counted in
      let kept_rows := length rows_to_keep in
      Ok (total_rows, kept_rows, discarded_count)
  end.

(** Row [i] jumps in some numeric column by more than the threshold from
    the row before it, and neither of the two rows after it sustains the
    jump. *)
Definition isolated_jump (all_rows : list row) (numeric_columns : list string)
    (i : nat) : Prop :=
  exists r previous_row col cur prev,
    0 < i /\ all_rows !! i = Some r /\ all_rows !! (i - 1) = Some previous_row
    /\ col ∈ numeric_columns
    /\ float_at float_of_str r col = Ok cur
    /\ float_at float_of_str previous_row col = Ok prev
    /\ float_gt (calculate_percentage_difference cur prev)
                OUTLIER_THRESHOLD_PERCENTAGE = true
    /\ ~ sustains_at float_of_str all_rows i col cur prev 1
    /\ ~ sustains_at float_of_str all_rows i col cur prev 2.

End Counters.

(** Two rows with the same cells but for the date, which both have or
    both lack. *)
Definition same_but_dates (r1 r2 : row) : Prop :=
  (forall c, c <> "fecha" -> r1 !! c = r2 !! c)
  /\ (is_Some (r1 !! "fecha") <-> is_Some (r2 !! "fecha")).

(** The spike series under dates written another way. *)
Definition spike_series_other_dates : list row :=
  [price_row "01/03/2024" "100"; price_row "04/03/2024" "100";
   price_row "" "100"; price_row "06/03/2024" "200";
   price_row "07/03/2024" "100"; price_row "07/03/2024" "100"].

(** A table without a date column, with a jump at the end. *)
Definition undated_jump : list row :=
  [{[ "precio" := Some "100" ]}; {[ "precio" := Some "200" ]}].

(** A reader of decimals and of the text [nan]. *)
Definition float_of_text (s : string) : option float :=
  if String.eqb s "nan" then Some nan else float_of_decimal s.

(** A series with a cell that reads as not-a-number. *)
Definition nan_series : list row :=
  [price_row "2024-03-01" "100"; price_row "2024-03-04" "nan";
   price_row "2024-03-05" "100"].

(** A table without a jump above the threshold. *)
Definition calm_series : list row :=
  [price_row "2024-03-01" "100"; price_row "2024-03-04" "140";
   price_row "2024-03-05" "90"].

End Sanitize.

(** ** Price table: 04_build_prices_csv.py *)

Module BuildPrices.

(** *** Python builtins *)

(** The order of [str]: by code point, a proper prefix first; on the
    UTF-8 bytes of a [string] that is the order of the bytes. *)
Definition str_le (a b : string) : Prop := String.leb a b = true.

#[global] Instance str_le_dec (a b : string) : Decision (str_le a b).
Proof. unfold str_le. apply _. Defined.

(** [sorted(d.keys())]. *)
Definition sorted_keys {V} (d : gmap string V) : list string :=
  merge_sort str_le (map_to_list d).*1.

(** [round(x, 2)] on a float: the binary value of [x] is rounded to the
    nearest multiple of 1/100, a tie to the even one, and the result is
    the binary64 number nearest to that decimal. NaN, the infinities and
    the zeros round to themselves. *)
Definition round_half_even (n d : Z) : Z :=
  let q := (n / d)%Z in
  let r := (n mod d)%Z in
  match (2 * r ?= d)%Z with
  | Lt => q
  | Gt => (q + 1)%Z
  | Eq => if Z.even q then q else (q + 1)%Z
  end.

Definition round2 (x : float) : float :=
  match Prim2SF x with
  | S754_finite s m e =>
      let n := (100 * Zpos m)%Z in
      let k := match e with
               | Zneg p => round_half_even n (Zpos (Pos.pow 2 p))
               | _ => (n * 2 ^ e)%Z
               end in
      match k with
      | Zpos kp => SF2Prim (SFdiv prec emax (S754_finite s kp 0) (S754_finite false 100 0))
      | _ => SF2Prim (S754_zero s)
      end
  | _ => x
  end.

(** [a / b] on floats. *)
Definition float_div (a b : float) : res float :=
  if float_eq b 0 then Raise ZeroDivisionError else Ok (a / b)%float.

(** [round(a / b, 2)]. *)
Definition round2_div (a b : float) : res float :=
  q ← float_div a b; Ok (round2 q).

(** A [datetime] at midnight, as [strptime] with ['%Y-%m-%d'] gives. *)
Record datetime := mk_date { year : Z; month : Z; day : Z }.

(** [a <= b] on datetimes. *)
Definition datetime_le (a b : datetime) : bool :=
  (year a <? year b)%Z
  || ((year a =? year b)%Z
      && ((month a <? month b)%Z
          || ((month a =? month b)%Z && (day a <=? day b)%Z))).

Definition is_leap (y : Z) : bool :=
  ((y mod 4 =? 0)%Z && negb (y mod 100 =? 0)%Z) || (y mod 400 =? 0)%Z.

Definition days_in_month (y m : Z) : Z :=
  if (m =? 2)%Z then (if is_leap y then 29 else 28)%Z
  else if (m =? 4)%Z || (m =? 6)%Z || (m =? 9)%Z || (m =? 11)%Z then 30%Z
  else 31%Z.

(** The date a zero-padded [YYYY-MM-DD] string names, when it names one:
    ten characters, digits around two hyphens, a year from 1 on, a month
    of the year and a day of the month. *)
Definition parse_iso (s : string) : option datetime :=
  match s with
  | String y1 (String y2 (String y3 (String y4 (String h1
    (String m1 (String m2 (String h2 (String d1 (String d2 EmptyString))))))))) =>
      if Ascii.eqb h1 "-"%char && Ascii.eqb h2 "-"%char then
        match digit_of_ascii y1, digit_of_ascii y2, digit_of_ascii y3, digit_of_ascii y4,
              digit_of_ascii m1, digit_of_ascii m2, digit_of_ascii d1, digit_of_ascii d2 with
        | Some a, Some b, Some c, Some d, Some e, Some f, Some g, Some h =>
            let y := (1000 * a + 100 * b + 10 * c + d)%Z in
            let m := (10 * e + f)%Z in
            let dd := (10 * g + h)%Z in
            if (1 <=? y)%Z && (1 <=? m)%Z && (m <=? 12)%Z
               && (1 <=? dd)%Z && (dd <=? days_in_month y m)%Z
            then Some (mk_date y m dd)
            else None
        | _, _, _, _, _, _, _, _ => None
        end
      else None
  | _ => None
  end.

(** A digit of [c] between [lo] and [hi]. *)
Definition digit_in (lo hi : Z) (c : ascii) : option Z :=
  match digit_of_ascii c with
  | Some v => if (lo <=? v)%Z && (v <=? hi)%Z then Some v else None
  | None => None
  end.

(** The month of ['%m'], one digit, with the hyphen after it. *)
Definition read_month_short (s : string) : option (Z * string) :=
  match s with
  | String a (String c rest) =>
      match digit_in 1 9 a with
      | Some e => if Ascii.eqb c "-"%char then Some (e, rest) else None
      | None => None
      end
  | _ => None
  end.

(** The month of ['%m'], as [1[0-2]], [0[1-9]] or [[1-9]] in this order,
    with the hyphen after it. *)
Definition read_month (s : string) : option (Z * string) :=
  match s with
  | String a (String b (String c rest)) =>
      if Ascii.eqb c "-"%char then
        match digit_in 1 1 a, digit_in 0 2 b with
        | Some _, Some f => Some (10 + f, rest)%Z
        | _, _ =>
            match digit_in 0 0 a, digit_in 1 9 b with
            | Some _, Some f => Some (f, rest)
            | _, _ => read_month_short s
            end
        end
      else read_month_short s
  | _ => read_month_short s
  end.

(** The day of ['%d'], as [3[01]], [[12]\d], [0[1-9]], [[1-9]] or a blank
    and [[1-9]] in this order, and the text after it. *)
Definition read_day (s : string) : option (Z * string) :=
  match s with
  | String a (String b rest) =>
      match digit_in 3 3 a, digit_in 0 1 b with
      | Some _, Some h => Some (30 + h, rest)%Z
      | _, _ =>
          match digit_in 1 2 a, digit_in 0 9 b with
          | Some g, Some h => Some (10 * g + h, rest)%Z
          | _, _ =>
              match digit_in 0 0 a, digit_in 1 9 b with
              | Some _, Some h => Some (h, rest)
              | _, _ =>
                  match digit_in 1 9 a with
                  | Some g => Some (g, String b rest)
                  | None =>
                      if Ascii.eqb a " "%char
                      then match digit_in 1 9 b with
                           | Some h => Some (h, rest)
                           | None => None
                           end
                      else None
                  end
              end
          end
      end
  | String a EmptyString =>
      match digit_in 1 9 a with
      | Some g => Some (g, EmptyString)
      | None => None
      end
  | EmptyString => None
  end.

(** [datetime.strptime(s, '%Y-%m-%d')] on ASCII text: [None] stands for
    [ValueError]. The pattern of the format is matched from the left, the
    first alternative that fits taken; text left over is refused, and so
    is a date that does not exist. *)
Definition strptime_ymd (s : string) : option datetime :=
  match s with
  | String y1 (String y2 (String y3 (String y4 (String h rest)))) =>
      match digit_of_ascii y1, digit_of_ascii y2, digit_of_ascii y3, digit_of_ascii y4 with
      | Some a, Some b, Some c, Some d =>
          if Ascii.eqb h "-"%char then
            match read_month rest with
            | Some (m, rest') =>
                match read_day rest' with
                | Some (dd, EmptyString) =>
                    let y := (1000 * a + 100 * b + 10 * c + d)%Z in
                    if (1 <=? y)%Z && (dd <=? days_in_month y m)%Z
                    then Some (mk_date y m dd)
                    else None
                | _ => None
                end
            | None => None
            end
          else None
      | _, _, _, _ => None
      end
  | _ => None
  end.

(** *** JSON input *)

(** A value of the JSON files where the code expects a number: [null], a
    boolean, a number (by its float value), a string, or an array or
    object. *)
Inductive json_value :=
| JNull
| JBool (b : bool)
| JNumber (f : float)
| JString (s : string)
| JOther.

(** [v == '0.00']. *)
Definition is_text_0_00 (v : json_value) : bool :=
  match v with
  | JString s => String.eqb s "0.00"
  | _ => false
  end.

(** A row of the output table. *)
Record price_row := mk_row {
  fecha : string;
  maiz_ars : float;
  trigo_ars : float;
  soja_ars : float;
  tipo_cambio_usd : float;
  maiz_usd : float;
  trigo_usd : float;
  soja_usd : float
}.

(** What a run leaves behind: no output file when it raises before
    opening it, else the header and the rows written, and the exception
    that cut the loop short if one did. *)
Inductive run :=
| NoFile (e : exn)
| File (header : list string) (rows : list price_row) (raised : option exn).

Definition START_DATE : string := "2018-07-01".

Definition HEADER : list string :=
  ["fecha"; "maiz_ars"; "trigo_ars"; "soja_ars"; "tipo_cambio_usd";
   "maiz_usd"; "trigo_usd"; "soja_usd"].

Definition CEREALS : list string := ["maiz"; "trigo"; "soja"].

Section WithBuiltins.

(** [float(s)] on a [str]: [None] stands for [ValueError]. *)
Variable float_of_str : string -> option float.

(** [datetime.strptime(s, '%Y-%m-%d')]: [None] stands for [ValueError]. *)
Variable strptime : string -> option datetime.

Definition py_strptime (s : string) : res datetime :=
  match strptime s with
  | Some d => Ok d
  | None => Raise ValueError
  end.

(** [float(v)]. *)
Definition float_of_json (v : json_value) : res float :=
  match v with
  | JNull | JOther => Raise TypeError
  | JBool b => Ok (if b then 1 else 0)%float
  | JNumber f => Ok f
  | JString s =>
      match float_of_str s with
      | Some f => Ok f
      | None => Raise ValueError
      end
  end.

(** [load_exchange_rates], from the pairs under ['data']. *)
Fixpoint load_exchange_rates_loop (data : list (string * json_value))
    (exchange_rates : gmap string float) : res (gmap string float) :=
  match data with
  | [] => Ok exchange_rates
  | (date_str, rate) :: data' =>
      f ← float_of_json rate;
      load_exchange_rates_loop data' (<[date_str := f]> exchange_rates)
  end.

Definition load_exchange_rates (data : list (string * json_value)) : res (gmap string float) :=
  load_exchange_rates_loop data ∅.

(** The text or number [float] is called on for one cereal of one date:
    ['precio'], or ['estimativo'] when the price is the text ['0.00']. *)
Definition price_str (cereal_data : gmap string json_value) : json_value :=
  let price_str := default (JString "0.00") (cereal_data !! "precio") in
  if is_text_0_00 price_str
  then default (JString "0.00") (cereal_data !! "estimativo")
  else price_str.

(** The loop [for cereal in cereals] of [extract_cereal_prices_by_date].
    [float] raises nothing but [ValueError] and [TypeError] here, and both
    are caught. *)
Fixpoint date_prices_loop (date_data : gmap string (gmap string json_value))
    (cereals : list string) (date_prices : gmap string float) : gmap string float :=
  match cereals with
  | [] => date_prices
  | cereal :: cereals' =>
      match date_data !! cereal with
      | Some cereal_data =>
          match float_of_json (price_str cereal_data) with
          | Ok price_ars =>
              if float_gt price_ars 0
              then date_prices_loop date_data cereals' (<[cereal := price_ars]> date_prices)
              else date_prices_loop date_data cereals' date_prices
          | Raise _ => date_prices_loop date_data cereals' date_prices
          end
      | None => date_prices_loop date_data cereals' date_prices
      end
  end.

(** [extract_cereal_prices_by_date]: the dates with at least one price.
    [pizarra] is [prices_data.get('pizarra')]. *)
Definition extract_cereal_prices_by_date
    (pizarra : option (gmap string (gmap string (gmap string json_value))))
    (cereals : list string) : gmap string (gmap string float) :=
  let pizarra_data := default ∅ pizarra in
  omap (fun date_data =>
          let date_prices := date_prices_loop date_data cereals ∅ in
          if decide (date_prices = ∅) then None else Some date_prices)
       pizarra_data.

(** The loop [for exchange_date_str in reversed(sorted_dates)] of
    [find_exchange_rate]. *)
Fixpoint closest_previous (exchange_rates : gmap string float)
    (target_date : datetime) (dates : list string) : res (option float) :=
  match dates with
  | [] => Ok None
  | exchange_date_str :: dates' =>
      exchange_date ← py_strptime exchange_date_str;
      if datetime_le exchange_date target_date
      then rate ← getitem exchange_rates exchange_date_str; Ok (Some rate)
      else closest_previous exchange_rates target_date dates'
  end.

Definition find_exchange_rate (date_str : string) (exchange_rates : gmap string float)
    : res (option float) :=
  match exchange_rates !! date_str with
  | Some rate => Ok (Some rate)
  | None =>
      target_date ← py_strptime date_str;
      closest_previous exchange_rates target_date (reverse (sorted_keys exchange_rates))
  end.

(** The row written for a date (lines 134-150), [None] when the date is
    skipped for a missing price. *)
Definition row_for (date_str : string) (date_prices : gmap string float)
    (exchange_rate : float) : res (option price_row) :=
  let maiz_ars := default 0%float (date_prices !! "maiz") in
  let trigo_ars := default 0%float (date_prices !! "trigo") in
  let soja_ars := default 0%float (date_prices !! "soja") in
  if float_eq maiz_ars 0 || float_eq trigo_ars 0 || float_eq soja_ars 0
  then Ok None
  else
    maiz_usd ← round2_div maiz_ars exchange_rate;
    trigo_usd ← round2_div trigo_ars exchange_rate;
    soja_usd ← round2_div soja_ars exchange_rate;
    Ok (Some (mk_row date_str maiz_ars trigo_ars soja_ars exchange_rate
                maiz_usd trigo_usd soja_usd)).

(** The loop [for date_str in sorted_dates] (lines 126-153); [written]
    are the rows written so far. *)
Fixpoint write_rows (prices_by_date : gmap string (gmap string float))
    (exchange_rates : gmap string float) (sorted_dates : list string)
    (written : list price_row) : list price_row * option exn :=
  match sorted_dates with
  | [] => (written, None)
  | date_str :: dates' =>
      if String.ltb date_str START_DATE
      then write_rows prices_by_date exchange_rates dates' written
      else
        match find_exchange_rate date_str exchange_rates with
        | Raise e => (written, Some e)
        | Ok None => write_rows prices_by_date exchange_rates dates' written
        | Ok (Some exchange_rate) =>
            match date_prices ← getitem prices_by_date date_str;
                  row_for date_str date_prices exchange_rate with
            | Raise e => (written, Some e)
            | Ok None => write_rows prices_by_date exchange_rates dates' written
            | Ok (Some r) =>
                write_rows prices_by_date exchange_rates dates' (written ++ [r])
            end
        end
  end.

(** [build_prices_csv], from the two JSON files as loaded. *)
Definition build_prices_csv
    (pizarra : option (gmap string (gmap string (gmap string json_value))))
    (exchange_data : list (string * json_value)) : run :=
  match load_exchange_rates exchange_data with
  | Raise e => NoFile e
  | Ok exchange_rates =>
      let prices_by_date := extract_cereal_prices_by_date pizarra CEREALS in
      let sorted_dates := sorted_keys prices_by_date in
      let '(rows, raised) := write_rows prices_by_date exchange_rates sorted_dates [] in
      File HEADER rows raised
  end.

(** *** Notions used to state the properties *)

(** [a] and [b] are zero-padded dates and [a] is the earlier day. *)
Definition earlier (a b : string) : Prop :=
  exists da db,
    parse_iso a = Some da /\ parse_iso b = Some db /\ datetime_le db da = false.

(** [strptime] reads a zero-padded date as the date it names. *)
Definition reads_iso_dates : Prop :=
  forall s d, parse_iso s = Some d -> strptime s = Some d.

(** The input has the price [x] for [cereal] on a date: [float] reads it
    from ['precio'] (or ['estimativo']) and it is above zero. *)
Definition priced (date_data : gmap string (gmap string json_value))
    (cereal : string) (x : float) : Prop :=
  exists cereal_data,
    date_data !! cereal = Some cereal_data
    /\ float_of_json (price_str cereal_data) = Ok x
    /\ float_gt x 0 = true.

(** What the loop of [build_prices_csv] guarantees of a row it writes. *)
Definition row_from (prices_by_date : gmap string (gmap string float))
    (exchange_rates : gmap string float) (r : price_row) : Prop :=
  String.ltb (fecha r) START_DATE = false
  /\ find_exchange_rate (fecha r) exchange_rates = Ok (Some (tipo_cambio_usd r))
  /\ float_eq (tipo_cambio_usd r) 0 = false
  /\ (exists date_prices,
        prices_by_date !! fecha r = Some date_prices
        /\ date_prices !! "maiz" = Some (maiz_ars r)
        /\ date_prices !! "trigo" = Some (trigo_ars r)
        /\ date_prices !! "soja" = Some (soja_ars r))
  /\ maiz_usd r = round2 (maiz_ars r / tipo_cambio_usd r)%float
  /\ trigo_usd r = round2 (trigo_ars r / tipo_cambio_usd r)%float
  /\ soja_usd r = round2 (soja_ars r / tipo_cambio_usd r)%float.

End WithBuiltins.

(** [round(x, 2) == x]: the float is unchanged by rounding to two
    decimals. *)
Definition is_rounded2 (x : float) : bool := float_eq (round2 x) x.

(** *** Example input *)

Definition precio (text : string) : gmap string json_value :=
  {[ "precio" := JString text ]}.

(** One date with three prices, the maize price with three decimals, and
    one date without a wheat price. *)
Definition pizarra_example : gmap string (gmap string (gmap string json_value)) :=
  {[ "2020-01-02" := {[ "maiz" := precio "100.123";
                        "trigo" := precio "200";
                        "soja" := precio "300" ]};
     "2020-01-03" := {[ "maiz" := precio "101";
                        "trigo" := precio "0.00";
                        "soja" := precio "301" ]} ]}.

Definition exchange_example : list (string * json_value) :=
  [("2019-12-30", JNumber 7.125%float)].

Definition rates_example : gmap string float :=
  {[ "2020-01-02" := 60%float; "2020-01-06" := 61%float; "2020-01-07" := 62%float ]}.

#[local] Set Warnings "-inexact-float".

(** The row the example input gives. *)
Definition row_example : price_row :=
  mk_row "2020-01-02" 100.123 200 300 7.125 14.05 28.07 42.11.

Definition table_example : list price_row := [row_example].

(** *** Notions on whole runs *)

(** The order of the rows of the table: by date, as strings, strictly. *)
Definition fecha_lt (a b : price_row) : Prop :=
  String.ltb (fecha a) (fecha b) = true.


(** Exchange data with a rate of zero. *)
Definition exchange_zero_example : list (string * json_value) :=
  [("2019-12-30", JNumber 0%float)].

(** Exchange data with two rates for one date. *)
Definition exchange_twice_example : list (string * json_value) :=
  [("2020-01-02", JNumber 60%float); ("2020-01-03", JString "61.5");
   ("2020-01-02", JNumber 62%float)].

(** A maize price written [0] beside an estimate, and a maize estimate
    alone. *)
Definition pizarra_estimate_example : gmap string (gmap string (gmap string json_value)) :=
  {[ "2020-01-02" := {[ "maiz" := {[ "precio" := JString "0";
                                     "estimativo" := JString "150" ]};
                        "trigo" := precio "200";
                        "soja" := precio "300" ]};
     "2020-01-03" := {[ "maiz" := {[ "estimativo" := JString "150" ]};
                        "trigo" := precio "200";
                        "soja" := precio "300" ]} ]}.

(** Two dates with three prices each. *)
Definition pizarra_two_example : gmap string (gmap string (gmap string json_value)) :=
  {[ "2020-01-03" := {[ "maiz" := precio "101";
                        "trigo" := precio "201";
                        "soja" := precio "301" ]};
     "2020-01-02" := {[ "maiz" := precio "100";
                        "trigo" := precio "200";
                        "soja" := precio "300" ]} ]}.

End BuildPrices.

(** ** Properties of the sanitizer *)

Module SanitizeFacts.

Import Sanitize.

(** The run reads the numeric cells of the table through [float] and
    nothing else: two readers that agree on those cells give the same
    run. *)
Section TwoReaders.

Variables float1 float2 : string -> option float.

Lemma float_at_agree (cols : list string) (rows : list row) (r : row) (col : string) :
  agree_on float1 float2 cols rows -> r ∈ rows -> col ∈ cols ->
  float_at float1 r col = float_at float2 r col.
Proof.
  intros Hagree Hr Hcol. unfold float_at, getitem.
  destruct (r !! col) as [[s|]|] eqn:Hcell; res_simpl; simpl; [|done..].
  by rewrite (Hagree r col s).
Qed.

Lemma sustained_change_agree (cols : list string) (rows : list row) (i : nat)
    (col : string) (cur prev : float) (js : list nat) :
  agree_on float1 float2 cols rows -> col ∈ cols ->
  sustained_change float1 rows i col cur prev js
  = sustained_change float2 rows i col cur prev js.
Proof.
  intros Hagree Hcol. induction js as [|j js IH]; simpl; [done|].
  destruct (rows !! (i + j)) as [next_row|] eqn:Hrow; [|done].
  rewrite IH. unfold stays_near_current.
  rewrite (float_at_agree cols rows next_row col Hagree);
    [done|by eapply list_elem_of_lookup_2|done].
Qed.

Lemma column_is_outlier_agree (cols : list string) (rows : list row) (i : nat)
    (r previous_row : row) (col : string) :
  agree_on float1 float2 cols rows -> col ∈ cols -> r ∈ rows -> previous_row ∈ rows ->
  column_is_outlier float1 rows i r previous_row col
  = column_is_outlier float2 rows i r previous_row col.
Proof.
  intros Hagree Hcol Hr Hp. unfold column_is_outlier.
  rewrite (float_at_agree cols rows r), (float_at_agree cols rows previous_row) by done.
  destruct (float_at float2 r col) as [cur|e]; res_simpl; [|done].
  destruct (float_at float2 previous_row col) as [prev|e]; res_simpl; [|done].
  by rewrite (sustained_change_agree cols rows).
Qed.

Lemma row_is_outlier_agree (cols : list string) (rows : list row) (i : nat)
    (r previous_row : row) (cols' : list string) (flag : bool) :
  agree_on float1 float2 cols rows -> cols' ⊆ cols -> r ∈ rows -> previous_row ∈ rows ->
  row_is_outlier float1 rows i r previous_row cols' flag
  = row_is_outlier float2 rows i r previous_row cols' flag.
Proof.
  intros Hagree Hsub Hr Hp. revert flag.
  induction cols' as [|col cols' IH]; intros flag; simpl; [done|].
  rewrite (column_is_outlier_agree cols rows) by (try done; apply Hsub, list_elem_of_here).
  destruct (column_is_outlier float2 _ _ _ _ _); res_simpl; [|done].
  apply IH. intros c Hc. by apply Hsub, list_elem_of_further.
Qed.

Lemma row_is_kept_agree (cols : list string) (rows : list row) (i : nat) (r : row) :
  agree_on float1 float2 cols rows -> r ∈ rows ->
  row_is_kept float1 rows cols i r = row_is_kept float2 rows cols i r.
Proof.
  intros Hagree Hr. unfold row_is_kept, index. case_decide; [done|].
  destruct (rows !! (i - 1)) as [previous_row|] eqn:Hp; res_simpl; [|done].
  rewrite (row_is_outlier_agree cols rows i r previous_row cols false Hagree);
    [done|done|done|by eapply list_elem_of_lookup_2].
Qed.

Lemma sanitize_loop_agree (cols : list string) (rows : list row) (i : nat)
    (todo rows_to_keep : list row) :
  agree_on float1 float2 cols rows -> todo ⊆ rows ->
  sanitize_loop float1 rows cols i todo rows_to_keep
  = sanitize_loop float2 rows cols i todo rows_to_keep.
Proof.
  intros Hagree. revert i rows_to_keep.
  induction todo as [|r todo IH]; intros i rows_to_keep Hsub; simpl; [done|].
  rewrite (row_is_kept_agree cols rows) by (try done; apply Hsub, list_elem_of_here).
  destruct (row_is_kept float2 _ _ _ _); res_simpl; [|done].
  apply IH. intros r' Hr'. by apply Hsub, list_elem_of_further.
Qed.

Lemma sanitize_csv_agree (fieldnames : list string) (rows : list row) :
  agree_on float1 float2 (List.filter is_numeric_column fieldnames) rows ->
  sanitize_csv float1 (Some fieldnames) rows = sanitize_csv float2 (Some fieldnames) rows.
Proof.
  intros Hagree. unfold sanitize_csv.
  by rewrite (sanitize_loop_agree _ rows 0 rows [] Hagree).
Qed.

End TwoReaders.

Section Properties.

Variable float_of_str : string -> option float.

Lemma float_at_lookup (r : row) (col : string) (c : cell) :
  r !! col = Some c -> float_at float_of_str r col = float_of_cell float_of_str c.
Proof. intros H. unfold float_at, getitem. rewrite H. reflexivity. Qed.

(** With the cell present, [float(r[col])] gives a number or one of the
    two exceptions the loops catch. *)
Lemma float_at_caught (r : row) (col : string) :
  is_Some (r !! col) ->
  (exists f, float_at float_of_str r col = Ok f)
  \/ float_at float_of_str r col = Raise ValueError
  \/ float_at float_of_str r col = Raise TypeError.
Proof.
  intros [c Hc]. rewrite (float_at_lookup _ _ _ Hc).
  destruct c as [s|]; simpl; [|auto].
  destruct (float_of_str s); eauto.
Qed.

Lemma sustained_change_total (all_rows : list row) (i : nat) (col : string)
    (cur prev : float) (js : list nat) :
  (forall j r, j ∈ js -> all_rows !! (i + j) = Some r -> is_Some (r !! col)) ->
  exists b, sustained_change float_of_str all_rows i col cur prev js = Ok b.
Proof.
  induction js as [|j js IH]; intros Hcols; simpl; [eauto|].
  destruct IH as [b Hb]; [intros; eapply Hcols; [apply elem_of_cons; by right|done]|].
  destruct (all_rows !! (i + j)) as [next_row|] eqn:Hnext; [|eauto].
  unfold stays_near_current.
  destruct (float_at_caught next_row col) as [[f Hf]|[Hf|Hf]];
    [eapply Hcols; [apply elem_of_cons; by left|done]| | |]; rewrite Hf; res_simpl;
    [|eauto..].
  destruct (float_le _ _); eauto.
Qed.

Lemma column_is_outlier_total (all_rows : list row) (i : nat)
    (r previous_row : row) (col : string) :
  is_Some (r !! col) -> is_Some (previous_row !! col) ->
  (forall j nr, all_rows !! (i + j) = Some nr -> is_Some (nr !! col)) ->
  exists b, column_is_outlier float_of_str all_rows i r previous_row col = Ok b.
Proof.
  intros Hr Hp Hnext. unfold column_is_outlier.
  destruct (float_at_caught r col Hr) as [[cur Hcur]|[Hcur|Hcur]];
    rewrite Hcur; res_simpl; [|eauto..].
  destruct (float_at_caught previous_row col Hp) as [[prev Hprev]|[Hprev|Hprev]];
    rewrite Hprev; res_simpl; [|eauto..].
  destruct (float_gt _ _); res_simpl; [|eauto].
  destruct (sustained_change_total all_rows i col cur prev [1; 2]) as [b Hb];
    [intros; eapply Hnext; done|].
  rewrite Hb. res_simpl. eauto.
Qed.

(** The flag of a row is the disjunction of its columns' answers. *)
Lemma row_is_outlier_flag (all_rows : list row) (i : nat) (r previous_row : row)
    (cols : list string) (flag : bool) :
  row_is_outlier float_of_str all_rows i r previous_row cols flag
  = (o ← row_is_outlier float_of_str all_rows i r previous_row cols false;
     Ok (o || flag)).
Proof.
  revert flag. induction cols as [|col cols IH]; intros flag; simpl; [done|].
  destruct (column_is_outlier _ _ _ _ _ _) as [o|e]; simpl; [|done].
  rewrite (IH (o || flag)), (IH (o || false)).
  destruct (row_is_outlier _ _ _ _ _ _ false) as [o'|e]; simpl; [|done].
  f_equal. destruct o, o', flag; reflexivity.
Qed.

Lemma row_is_outlier_total (all_rows : list row) (i : nat) (r previous_row : row)
    (cols : list string) (flag : bool) :
  Forall (fun c => is_Some (r !! c)) cols ->
  Forall (fun c => is_Some (previous_row !! c)) cols ->
  has_columns cols all_rows ->
  exists b, row_is_outlier float_of_str all_rows i r previous_row cols flag = Ok b.
Proof.
  intros Hr Hp Hall. revert flag.
  assert (Hsub : forall c, c ∈ cols ->
    exists b, column_is_outlier float_of_str all_rows i r previous_row c = Ok b).
  { intros c Hc. apply column_is_outlier_total.
    - by eapply Forall_forall in Hr.
    - by eapply Forall_forall in Hp.
    - intros j nr Hnr. apply list_elem_of_lookup_2 in Hnr.
      unfold has_columns in Hall. rewrite Forall_forall in Hall.
      specialize (Hall _ Hnr). by eapply Forall_forall in Hall. }
  clear Hr Hp Hall.
  induction cols as [|col cols IH]; intros flag; simpl; [eauto|].
  destruct (Hsub col) as [o Ho]; [apply elem_of_cons; by left|]. rewrite Ho. simpl.
  apply IH. intros c Hc. apply Hsub. apply elem_of_cons; by right.
Qed.

(** Rows read under a header have a cell for each of its columns. *)
Lemma dict_row_has_columns (fieldnames : list string) (cells : list string) :
  Forall (fun c => is_Some (dict_row fieldnames cells !! c)) fieldnames.
Proof.
  apply Forall_forall. intros c Hc. unfold dict_row.
  apply not_eq_None_Some. rewrite <- not_elem_of_list_to_map.
  rewrite fmap_reverse, elem_of_reverse, fst_zip.
  - by intros Hnot.
  - rewrite length_app, length_map, length_replicate. lia.
Qed.

Lemma dict_rows_have_columns (fieldnames cols : list string) (lines : list (list string)) :
  cols ⊆ fieldnames -> has_columns cols (dict_rows fieldnames lines).
Proof.
  intros Hsub. unfold has_columns, dict_rows. apply Forall_forall. intros r Hr.
  apply list_elem_of_fmap in Hr as (cells & -> & _).
  apply Forall_forall. intros c Hc.
  pose proof (dict_row_has_columns fieldnames cells) as Hall.
  rewrite Forall_forall in Hall. apply Hall, Hsub, Hc.
Qed.

Lemma has_columns_tail (c : string) (cols : list string) (rows : list row) :
  has_columns (c :: cols) rows -> has_columns cols rows.
Proof.
  unfold has_columns. intros Hall. eapply Forall_impl; [exact Hall|].
  intros r Hr. by apply Forall_cons in Hr as [_ Hr].
Qed.

Lemma has_columns_lookup (cols : list string) (rows : list row) (i : nat) (r : row) :
  has_columns cols rows -> rows !! i = Some r -> Forall (fun c => is_Some (r !! c)) cols.
Proof.
  unfold has_columns. rewrite Forall_forall. intros Hall Hi.
  apply Hall. by eapply list_elem_of_lookup_2.
Qed.

Lemma row_is_kept_total (all_rows : list row) (cols : list string) (i : nat) (r : row) :
  has_columns ("fecha" :: cols) all_rows -> all_rows !! i = Some r ->
  exists b, row_is_kept float_of_str all_rows cols i r = Ok b.
Proof.
  intros Hall Hi. unfold row_is_kept. case_decide; [eauto|].
  destruct (all_rows !! (i - 1)) as [previous_row|] eqn:Hprev.
  - unfold index. rewrite Hprev. res_simpl.
    pose proof (has_columns_lookup _ _ _ _ Hall Hi) as Hr.
    pose proof (has_columns_lookup _ _ _ _ Hall Hprev) as Hp.
    apply Forall_cons in Hr as [[fecha Hfecha] Hr]. apply Forall_cons in Hp as [_ Hp].
    destruct (row_is_outlier_total all_rows i r previous_row cols false) as [b Hb];
      [done|done|by eapply has_columns_tail|].
    rewrite Hb. res_simpl. destruct b; [|eauto].
    unfold getitem. rewrite Hfecha. res_simpl. eauto.
  - apply lookup_lt_Some in Hi. apply lookup_ge_None in Hprev. lia.
Qed.

(** The loop computes the flags and keeps the flagged rows, after what it
    had kept before. *)
Lemma sanitize_loop_flags (all_rows : list row) (cols : list string) (i : nat)
    (todo rows_to_keep : list row) :
  sanitize_loop float_of_str all_rows cols i todo rows_to_keep
  = (flags ← keep_flags_from float_of_str all_rows cols i todo;
     Ok (rows_to_keep ++ select flags todo)).
Proof.
  revert i rows_to_keep.
  induction todo as [|r todo IH]; intros i rows_to_keep; simpl.
  - by rewrite app_nil_r.
  - destruct (row_is_kept _ _ _ _ _) as [keep|e]; res_simpl; [|done].
    rewrite IH.
    destruct (keep_flags_from _ _ _ _ _) as [flags|e]; res_simpl; [|done].
    destruct keep; simpl; [|done]. by rewrite <- app_assoc.
Qed.

Lemma sanitize_csv_flags (fieldnames : list string) (all_rows : list row) :
  sanitize_csv float_of_str (Some fieldnames) all_rows
  = (flags ← keep_flags_from float_of_str all_rows
                (List.filter is_numeric_column fieldnames) 0 all_rows;
     Ok (fieldnames, select flags all_rows)).
Proof.
  unfold sanitize_csv. rewrite sanitize_loop_flags.
  by destruct (keep_flags_from _ _ _ _ _).
Qed.

Lemma keep_flags_from_total (all_rows : list row) (cols : list string)
    (i : nat) (todo : list row) :
  has_columns ("fecha" :: cols) all_rows -> todo = drop i all_rows ->
  exists flags, keep_flags_from float_of_str all_rows cols i todo = Ok flags.
Proof.
  intros Hall. revert i.
  induction todo as [|r todo IH]; intros i Hdrop; simpl; [eauto|].
  assert (Hi : all_rows !! i = Some r).
  { rewrite <- (Nat.add_0_r i), <- lookup_drop, <- Hdrop. done. }
  destruct (row_is_kept_total all_rows cols i r Hall Hi) as [keep Hkeep].
  rewrite Hkeep. res_simpl.
  destruct (IH (S i)) as [flags Hflags].
  { rewrite (drop_S _ _ _ Hi) in Hdrop. congruence. }
  rewrite Hflags. res_simpl. eauto.
Qed.

Lemma kept_rows_exist (fieldnames : list string) (all_rows : list row) :
  has_columns (columns_read fieldnames) all_rows ->
  exists flags,
    sanitize_csv float_of_str (Some fieldnames) all_rows
    = Ok (fieldnames, select flags all_rows).
Proof.
  intros Hall. rewrite sanitize_csv_flags.
  destruct (keep_flags_from_total all_rows _ 0 all_rows Hall eq_refl) as [flags Hflags].
  rewrite Hflags. eauto.
Qed.

Lemma keep_flags_from_lookup (all_rows : list row) (cols : list string)
    (i : nat) (todo : list row) (flags : list bool) (k : nat) (r : row) :
  keep_flags_from float_of_str all_rows cols i todo = Ok flags ->
  todo !! k = Some r ->
  exists b, flags !! k = Some b
            /\ row_is_kept float_of_str all_rows cols (i + k) r = Ok b.
Proof.
  revert i flags k.
  induction todo as [|r0 todo IH]; intros i flags k Hflags Hk; [done|].
  simpl in Hflags.
  destruct (row_is_kept _ _ _ _ r0) as [keep|e] eqn:Hkeep; res_simpl; [|done].
  destruct (keep_flags_from _ _ _ _ _) as [flags'|e] eqn:Hrest; res_simpl; [|done].
  injection Hflags as <-.
  destruct k as [|k]; simpl in *.
  - injection Hk as <-. rewrite Nat.add_0_r. eauto.
  - rewrite <- Nat.add_succ_comm. eapply IH; done.
Qed.

Lemma keep_flags_from_length (all_rows : list row) (cols : list string)
    (i : nat) (todo : list row) (flags : list bool) :
  keep_flags_from float_of_str all_rows cols i todo = Ok flags ->
  length flags = length todo.
Proof.
  revert i flags.
  induction todo as [|r0 todo IH]; intros i flags Hflags; simpl in Hflags.
  - by injection Hflags as <-.
  - destruct (row_is_kept _ _ _ _ r0) as [keep|e]; res_simpl; [|done].
    destruct (keep_flags_from _ _ _ _ _) as [flags'|e] eqn:Hrest; res_simpl; [|done].
    injection Hflags as <-. simpl. f_equal. by eapply IH.
Qed.

Lemma select_sublist (flags : list bool) (rows : list row) :
  select flags rows `sublist_of` rows.
Proof.
  revert flags. induction rows as [|r rows IH]; intros [|keep flags]; simpl.
  - constructor.
  - constructor.
  - apply sublist_nil_l.
  - destruct keep; [by apply sublist_skip | by apply sublist_cons].
Qed.

(** A column flags a row exactly when both values are numbers, they
    differ by more than the threshold, and the look-ahead finds the change
    not sustained. *)
Lemma column_is_outlier_true_iff (all_rows : list row) (i : nat)
    (r previous_row : row) (col : string) :
  column_is_outlier float_of_str all_rows i r previous_row col = Ok true
  <-> exists cur prev,
        float_at float_of_str r col = Ok cur
        /\ float_at float_of_str previous_row col = Ok prev
        /\ float_gt (calculate_percentage_difference cur prev)
                    OUTLIER_THRESHOLD_PERCENTAGE = true
        /\ sustained_change float_of_str all_rows i col cur prev [1; 2] = Ok false.
Proof.
  unfold column_is_outlier. split.
  - destruct (float_at float_of_str r col) as [cur|e] eqn:Hcur; res_simpl;
      [|by destruct e].
    destruct (float_at float_of_str previous_row col) as [prev|e] eqn:Hprev; res_simpl;
      [|by destruct e].
    destruct (float_gt _ _) eqn:Hgt; res_simpl; [|done].
    destruct (sustained_change _ _ _ _ _ _ _) as [[|]|e] eqn:Hs; res_simpl;
      [done| |by destruct e].
    intros _. exists cur, prev. done.
  - intros (cur & prev & -> & -> & Hgt & Hs). res_simpl.
    rewrite Hgt, Hs. done.
Qed.

Lemma row_is_outlier_true_iff (all_rows : list row) (i : nat) (r previous_row : row)
    (cols : list string) (b : bool) :
  row_is_outlier float_of_str all_rows i r previous_row cols false = Ok b ->
  b = true
  <-> exists col, col ∈ cols
        /\ column_is_outlier float_of_str all_rows i r previous_row col = Ok true.
Proof.
  revert b. induction cols as [|col cols IH]; intros b; simpl.
  - intros [= <-]. split; [done|]. intros (c & Hc & _). by apply elem_of_nil in Hc.
  - destruct (column_is_outlier _ _ _ _ _ col) as [o|e] eqn:Hcol; res_simpl; [|done].
    rewrite row_is_outlier_flag.
    destruct (row_is_outlier _ _ _ _ _ cols false) as [o'|e] eqn:Hrest; res_simpl; [|done].
    intros [= <-]. specialize (IH o' eq_refl). split.
    + intros Hor. apply orb_true_iff in Hor as [->|Hor].
      * destruct IH as [IH _]. destruct (IH eq_refl) as (c & Hc & Hout).
        exists c. split; [apply elem_of_cons; by right|done].
      * apply orb_true_iff in Hor as [->|Hor]; [|done].
        exists col. split; [apply elem_of_cons; by left|done].
    + intros (c & Hc & Hout). apply elem_of_cons in Hc as [->|Hc].
      * rewrite Hcol in Hout. injection Hout as ->. by destruct o'.
      * destruct IH as [_ IH]. rewrite IH; [done|]. eauto.
Qed.

(** The look-ahead of row [i] reads only the rows at the offsets it
    visits. *)
Lemma sustained_change_ext (rows1 rows2 : list row) (i : nat) (col : string)
    (cur prev : float) (js : list nat) :
  (forall j, j ∈ js -> rows1 !! (i + j) = rows2 !! (i + j)) ->
  sustained_change float_of_str rows1 i col cur prev js
  = sustained_change float_of_str rows2 i col cur prev js.
Proof.
  induction js as [|j js IH]; intros Hagree; simpl; [done|].
  rewrite <- (Hagree j) by (apply elem_of_cons; by left).
  rewrite IH by (intros; apply Hagree, elem_of_cons; by right).
  done.
Qed.

Lemma column_is_outlier_ext (rows1 rows2 : list row) (i : nat)
    (r previous_row : row) (col : string) :
  rows1 !! (i + 1) = rows2 !! (i + 1) -> rows1 !! (i + 2) = rows2 !! (i + 2) ->
  column_is_outlier float_of_str rows1 i r previous_row col
  = column_is_outlier float_of_str rows2 i r previous_row col.
Proof.
  intros H1 H2. unfold column_is_outlier.
  destruct (float_at float_of_str r col) as [cur|e]; res_simpl; [|done].
  destruct (float_at float_of_str previous_row col) as [prev|e]; res_simpl; [|done].
  rewrite (sustained_change_ext rows1 rows2); [done|].
  intros j Hj. repeat (apply elem_of_cons in Hj as [->|Hj]; [done|]).
  by apply elem_of_nil in Hj.
Qed.

Lemma row_is_outlier_ext (rows1 rows2 : list row) (i : nat) (r previous_row : row)
    (cols : list string) (flag : bool) :
  rows1 !! (i + 1) = rows2 !! (i + 1) -> rows1 !! (i + 2) = rows2 !! (i + 2) ->
  row_is_outlier float_of_str rows1 i r previous_row cols flag
  = row_is_outlier float_of_str rows2 i r previous_row cols flag.
Proof.
  intros H1 H2. revert flag. induction cols as [|col cols IH]; intros flag; simpl; [done|].
  rewrite (column_is_outlier_ext rows1 rows2) by done.
  destruct (column_is_outlier _ _ _ _ _ _); res_simpl; [apply IH|done].
Qed.

Lemma row_is_kept_ext (rows1 rows2 : list row) (cols : list string) (i : nat) (r : row) :
  rows1 !! (i - 1) = rows2 !! (i - 1) ->
  rows1 !! (i + 1) = rows2 !! (i + 1) -> rows1 !! (i + 2) = rows2 !! (i + 2) ->
  row_is_kept float_of_str rows1 cols i r = row_is_kept float_of_str rows2 cols i r.
Proof.
  intros H0 H1 H2. unfold row_is_kept, index. case_decide; [done|].
  rewrite H0. destruct (rows2 !! (i - 1)); res_simpl; [|done].
  by rewrite (row_is_outlier_ext rows1 rows2).
Qed.

(** [C9] Two series that agree on the rows [i-1], [i], [i+1] and [i+2]
    (the same row, or no row, at each of the four places) get the same
    decision for row [i]: the body of the loop answers alike, exception or
    not, and so do the flags of two complete runs, whose kept rows are the
    rows the flags select ([sanitize_csv_flags]). Nothing kept or
    discarded before enters the decision. *)
Theorem decision_depends_on_four_rows (cols : list string)
    (rows1 rows2 : list row) (i : nat) :
  rows1 !! (i - 1) = rows2 !! (i - 1) ->
  rows1 !! i = rows2 !! i ->
  rows1 !! (i + 1) = rows2 !! (i + 1) ->
  rows1 !! (i + 2) = rows2 !! (i + 2) ->
  (forall r, rows1 !! i = Some r ->
     row_is_kept float_of_str rows1 cols i r = row_is_kept float_of_str rows2 cols i r)
  /\ (forall flags1 flags2,
        keep_flags_from float_of_str rows1 cols 0 rows1 = Ok flags1 ->
        keep_flags_from float_of_str rows2 cols 0 rows2 = Ok flags2 ->
        flags1 !! i = flags2 !! i).
Proof.
  intros H0 Hi H1 H2. split.
  - intros r _. by apply row_is_kept_ext.
  - intros flags1 flags2 Hf1 Hf2.
    destruct (rows1 !! i) as [r|] eqn:Hr.
    + symmetry in Hi.
      destruct (keep_flags_from_lookup _ _ _ _ _ _ _ Hf1 Hr) as (b1 & -> & Hk1).
      destruct (keep_flags_from_lookup _ _ _ _ _ _ _ Hf2 Hi) as (b2 & -> & Hk2).
      simpl in Hk1, Hk2. rewrite (row_is_kept_ext rows1 rows2) in Hk1 by done.
      congruence.
    + symmetry in Hi. apply keep_flags_from_length in Hf1, Hf2.
      apply lookup_ge_None in Hr, Hi.
      rewrite !(proj2 (lookup_ge_None _ _)); [done|lia|lia].
Qed.

(** The flag of a row after the first is the negation of what
    [row_is_outlier] answers for it and the row before it in the input. *)
Lemma previous_row_is_the_original_flags (fieldnames : list string) (all_rows : list row) :
  has_columns (columns_read fieldnames) all_rows ->
  exists flags,
    sanitize_csv float_of_str (Some fieldnames) all_rows
    = Ok (fieldnames, select flags all_rows)
    /\ length flags = length all_rows
    /\ forall i r previous_row,
         i <> 0 -> all_rows !! i = Some r -> all_rows !! (i - 1) = Some previous_row ->
         exists is_outlier,
           flags !! i = Some (negb is_outlier)
           /\ row_is_outlier float_of_str all_rows i r previous_row
                 (List.filter is_numeric_column fieldnames) false = Ok is_outlier.
Proof.
  intros Hall. rewrite sanitize_csv_flags.
  destruct (keep_flags_from_total all_rows _ 0 all_rows Hall eq_refl) as [flags Hflags].
  rewrite Hflags. res_simpl. exists flags. split; [done|].
  split; [by eapply keep_flags_from_length|].
  intros i r previous_row Hi Hr Hprev.
  destruct (keep_flags_from_lookup _ _ _ _ _ _ _ Hflags Hr) as (b & Hb & Hkept).
  simpl in Hkept. unfold row_is_kept, index in Hkept.
  case_decide; [done|]. rewrite Hprev in Hkept. res_simpl.
  destruct (row_is_outlier _ _ _ _ _ _ _) as [is_outlier|e] eqn:Hrow; res_simpl; [|done].
  exists is_outlier. split; [|done]. rewrite Hb. f_equal.
  destruct is_outlier; [|by injection Hkept].
  destruct (getitem r "fecha"); res_simpl; [by injection Hkept|done].
Qed.

(** [C5] The run keeps the rows its flags select, and the flag of row
    [i >= 1] is computed from row [i] and row [i-1] of the input, whether
    or not row [i-1] was kept: row [i] is discarded exactly when one of
    its numeric columns differs from the same column of input row [i-1]
    by more than the threshold and the change is not sustained. *)
Theorem previous_row_is_the_original (fieldnames : list string) (all_rows : list row) :
  has_columns (columns_read fieldnames) all_rows ->
  exists flags,
    sanitize_csv float_of_str (Some fieldnames) all_rows
    = Ok (fieldnames, select flags all_rows)
    /\ length flags = length all_rows
    /\ forall i r previous_row,
         i <> 0 -> all_rows !! i = Some r -> all_rows !! (i - 1) = Some previous_row ->
         exists is_outlier,
           flags !! i = Some (negb is_outlier)
           /\ row_is_outlier float_of_str all_rows i r previous_row
                 (List.filter is_numeric_column fieldnames) false = Ok is_outlier
           /\ (is_outlier = true <->
                exists col cur prev,
                  col ∈ List.filter is_numeric_column fieldnames
                  /\ float_at float_of_str r col = Ok cur
                  /\ float_at float_of_str previous_row col = Ok prev
                  /\ float_gt (calculate_percentage_difference cur prev)
                              OUTLIER_THRESHOLD_PERCENTAGE = true
                  /\ sustained_change float_of_str all_rows i col cur prev [1; 2]
                     = Ok false).
Proof.
  intros Hall.
  destruct (previous_row_is_the_original_flags fieldnames all_rows Hall)
    as (flags & Hrun & Hlen & Hflags).
  exists flags. split; [done|]. split; [done|].
  intros i r previous_row Hi Hr Hprev.
  destruct (Hflags i r previous_row Hi Hr Hprev) as (is_outlier & Hflag & Hrow).
  exists is_outlier. split; [done|]. split; [done|].
  rewrite (row_is_outlier_true_iff _ _ _ _ _ _ Hrow). split.
  - intros (col & Hcol & Hout). apply column_is_outlier_true_iff in Hout.
    destruct Hout as (cur & prev & ?). exists col, cur, prev. done.
  - intros (col & cur & prev & Hcol & Hrest). exists col. split; [done|].
    apply column_is_outlier_true_iff. eauto.
Qed.

Lemma float_of_cell_not_a_number (c : cell) :
  not_a_number float_of_str c ->
  float_of_cell float_of_str c = Raise ValueError
  \/ float_of_cell float_of_str c = Raise TypeError.
Proof.
  destruct c as [s|]; simpl; [|auto]. intros ->. auto.
Qed.

Lemma sustains_at_dec (all_rows : list row) (i : nat) (col : string)
    (cur prev : float) (j : nat) :
  sustains_at float_of_str all_rows i col cur prev j
  \/ ~ sustains_at float_of_str all_rows i col cur prev j.
Proof.
  unfold sustains_at.
  destruct (all_rows !! (i + j)) as [next_row|]; [|right; by intros (? & ? & ? & _)].
  destruct (float_at float_of_str next_row col) as [next|e] eqn:Hnext;
    [|right; intros (? & ? & [= <-] & ? & _); congruence].
  destruct (float_le (PrimFloat.abs (cur - next)%float) (PrimFloat.abs (prev - next)%float))
    eqn:Hle; [left; eauto|].
  right. intros (? & ? & [= <-] & ? & ?). congruence.
Qed.

Lemma sustained_change_found (all_rows : list row) (i : nat) (col : string)
    (cur prev : float) (j : nat) (js : list nat) :
  sustains_at float_of_str all_rows i col cur prev j ->
  sustained_change float_of_str all_rows i col cur prev (j :: js) = Ok true.
Proof.
  intros (next_row & next & Hrow & Hnext & Hle). simpl.
  unfold stays_near_current. rewrite Hrow, Hnext. res_simpl. by rewrite Hle.
Qed.

Lemma sustained_change_next (all_rows : list row) (i : nat) (col : string)
    (cur prev : float) (j : nat) (js : list nat) :
  ~ sustains_at float_of_str all_rows i col cur prev j ->
  (forall next_row, all_rows !! (i + j) = Some next_row -> is_Some (next_row !! col)) ->
  sustained_change float_of_str all_rows i col cur prev (j :: js)
  = sustained_change float_of_str all_rows i col cur prev js.
Proof.
  intros Hno Hcol. simpl.
  destruct (all_rows !! (i + j)) as [next_row|] eqn:Hrow; [|done].
  unfold stays_near_current.
  destruct (float_at_caught next_row col (Hcol _ eq_refl)) as [[next Hnext]|[Hnext|Hnext]];
    rewrite Hnext; res_simpl; [|done..].
  destruct (float_le _ _) eqn:Hle; [|done].
  destruct Hno. exists next_row, next. done.
Qed.

Lemma sustains_at_ext (rows1 rows2 : list row) (i : nat) (col : string)
    (cur prev : float) (j : nat) :
  rows1 !! (i + j) = rows2 !! (i + j) ->
  sustains_at float_of_str rows1 i col cur prev j ->
  sustains_at float_of_str rows2 i col cur prev j.
Proof. intros Heq (next_row & next & Hrow & H). exists next_row, next. by rewrite <- Heq. Qed.

Lemma float_at_raises (r : row) (col : string) (e : exn) :
  float_at float_of_str r col = Raise e ->
  e = KeyError \/ e = ValueError \/ e = TypeError.
Proof.
  unfold float_at, getitem. destruct (r !! col) as [[s|]|]; res_simpl; simpl.
  - destruct (float_of_str s); intros [= <-]; auto.
  - intros [= <-]; auto.
  - intros [= <-]; auto.
Qed.

(** The look-ahead lets out no exception but [KeyError]. *)
Lemma sustained_change_raises (all_rows : list row) (i : nat) (col : string)
    (cur prev : float) (js : list nat) (e : exn) :
  sustained_change float_of_str all_rows i col cur prev js = Raise e -> e = KeyError.
Proof.
  induction js as [|j js IH]; simpl; [done|].
  destruct (all_rows !! (i + j)) as [next_row|]; [|done].
  unfold stays_near_current.
  destruct (float_at float_of_str next_row col) as [next|e'] eqn:Hnext; res_simpl.
  - by destruct (float_le _ _).
  - destruct (float_at_raises _ _ _ Hnext) as [->|[->| ->]]; [by intros [= <-]|done..].
Qed.

(** With both values read and the difference above the threshold, the
    column's answer is the negation of the look-ahead's. *)
Lemma column_is_outlier_jump (all_rows : list row) (i : nat)
    (r previous_row : row) (col : string) (cur prev : float) :
  float_at float_of_str r col = Ok cur ->
  float_at float_of_str previous_row col = Ok prev ->
  float_gt (calculate_percentage_difference cur prev) OUTLIER_THRESHOLD_PERCENTAGE = true ->
  column_is_outlier float_of_str all_rows i r previous_row col
  = (is_sustained_change ← sustained_change float_of_str all_rows i col cur prev [1; 2];
     Ok (negb is_sustained_change)).
Proof.
  intros Hcur Hprev Hgt. unfold column_is_outlier. rewrite Hcur, Hprev. res_simpl.
  rewrite Hgt.
  destruct (sustained_change _ _ _ _ _ _ _) as [b|e] eqn:Hs; [done|].
  by rewrite (sustained_change_raises _ _ _ _ _ _ _ Hs).
Qed.

(** [C4] When the value of a column jumps by more than the threshold and
    a row one or two places ahead holds a number no farther from the
    current value than from the previous one, the column does not flag the
    row. The scan stops at the first such offset [j0]: the answer is the
    same on every series that agrees with this one up to row [i + j0],
    whatever comes after. *)
Theorem sustained_change_keeps_the_field (all_rows : list row) (i : nat)
    (r previous_row : row) (col : string) (cur prev : float) (j : nat) :
  float_at float_of_str r col = Ok cur ->
  float_at float_of_str previous_row col = Ok prev ->
  float_gt (calculate_percentage_difference cur prev) OUTLIER_THRESHOLD_PERCENTAGE = true ->
  j = 1 \/ j = 2 ->
  sustains_at float_of_str all_rows i col cur prev j ->
  (forall next_row, all_rows !! (i + 1) = Some next_row -> is_Some (next_row !! col)) ->
  column_is_outlier float_of_str all_rows i r previous_row col = Ok false
  /\ exists j0,
       1 <= j0 <= j
       /\ sustains_at float_of_str all_rows i col cur prev j0
       /\ (forall j', 1 <= j' < j0 -> ~ sustains_at float_of_str all_rows i col cur prev j')
       /\ forall rows',
            (forall k, k <= i + j0 -> rows' !! k = all_rows !! k) ->
            column_is_outlier float_of_str rows' i r previous_row col = Ok false.
Proof.
  intros Hcur Hprev Hgt Hj Hsus Hcol.
  assert (Hfirst : exists j0,
    1 <= j0 <= j
    /\ sustains_at float_of_str all_rows i col cur prev j0
    /\ (forall j', 1 <= j' < j0 -> ~ sustains_at float_of_str all_rows i col cur prev j')).
  { destruct (sustains_at_dec all_rows i col cur prev 1) as [H1|H1].
    - exists 1. split; [lia|]. split; [done|]. intros; lia.
    - destruct Hj as [-> | ->]; [done|]. exists 2. split; [lia|]. split; [done|].
      intros j' Hj'. by replace j' with 1 by lia. }
  destruct Hfirst as (j0 & Hj0 & Hsus0 & Hbefore).
  assert (Hscan : forall rows',
    (forall k, k <= i + j0 -> rows' !! k = all_rows !! k) ->
    column_is_outlier float_of_str rows' i r previous_row col = Ok false).
  { intros rows' Hagree.
    rewrite (column_is_outlier_jump _ _ _ _ _ _ _ Hcur Hprev Hgt).
    assert (Hsus' : sustains_at float_of_str rows' i col cur prev j0).
    { eapply sustains_at_ext; [|exact Hsus0]. symmetry. apply Hagree. lia. }
    assert (j0 = 1 \/ j0 = 2) as [->| ->] by lia.
    - by rewrite sustained_change_found.
    - rewrite sustained_change_next.
      + by rewrite sustained_change_found.
      + intros Hone. apply (Hbefore 1); [lia|].
        eapply sustains_at_ext; [|exact Hone]. apply Hagree. lia.
      + intros next_row Hrow. apply Hcol. rewrite <- Hagree by lia. done. }
  split; [by apply Hscan|]. exists j0. done.
Qed.

(** The answer of a column that says no can be left out. *)
Lemma row_is_outlier_skip (all_rows : list row) (i : nat) (r previous_row : row)
    (col : string) (cols : list string) (flag : bool) :
  column_is_outlier float_of_str all_rows i r previous_row col = Ok false ->
  row_is_outlier float_of_str all_rows i r previous_row cols flag
  = row_is_outlier float_of_str all_rows i r previous_row
      (filter (fun c => c <> col) cols) flag.
Proof.
  intros Hcol. revert flag. induction cols as [|c cols IH]; intros flag; [done|].
  rewrite filter_cons. case_decide as Hc; simpl.
  - destruct (column_is_outlier _ _ _ _ _ c); res_simpl; [apply IH|done].
  - subst c. rewrite Hcol. res_simpl. apply IH.
Qed.

(** [C8] A cell that is no number is no signal. On rows that have a cell
    for the date and for every numeric column the run ends without an
    exception, whatever the cells hold. A column whose cell in the row, or in the row before
    it, is no number does not flag the row, and the row is judged by its
    other columns alone. In the look-ahead such a cell is passed over and
    the scan goes on with the next offset. *)
Theorem bad_value_is_no_signal (fieldnames : list string) (all_rows : list row) :
  has_columns (columns_read fieldnames) all_rows ->
  (exists rows_to_keep,
     sanitize_csv float_of_str (Some fieldnames) all_rows = Ok (fieldnames, rows_to_keep))
  /\ (forall i r previous_row col c,
        (r !! col = Some c \/ (is_Some (r !! col) /\ previous_row !! col = Some c)) ->
        not_a_number float_of_str c ->
        column_is_outlier float_of_str all_rows i r previous_row col = Ok false
        /\ forall cols flag,
             row_is_outlier float_of_str all_rows i r previous_row cols flag
             = row_is_outlier float_of_str all_rows i r previous_row
                 (filter (fun c' => c' <> col) cols) flag)
  /\ (forall i col cur prev j js next_row c,
        all_rows !! (i + j) = Some next_row -> next_row !! col = Some c ->
        not_a_number float_of_str c ->
        sustained_change float_of_str all_rows i col cur prev (j :: js)
        = sustained_change float_of_str all_rows i col cur prev js).
Proof.
  intros Hall. split; [|split].
  - destruct (kept_rows_exist fieldnames all_rows Hall) as [kept Hkept]. eauto.
  - intros i r previous_row col c Hcell Hbad.
    assert (Hno : column_is_outlier float_of_str all_rows i r previous_row col = Ok false).
    { unfold column_is_outlier. apply float_of_cell_not_a_number in Hbad.
      destruct Hcell as [Hr|[Hr Hp]].
      - rewrite (float_at_lookup _ _ _ Hr). by destruct Hbad as [-> | ->].
      - destruct (float_at_caught r col Hr) as [[cur Hcur]|[Hcur|Hcur]];
          rewrite Hcur; res_simpl; [|done..].
        rewrite (float_at_lookup _ _ _ Hp). by destruct Hbad as [-> | ->]. }
    split; [done|]. intros cols flag. by apply row_is_outlier_skip.
  - intros i col cur prev j js next_row c Hrow Hcell Hbad. simpl. rewrite Hrow.
    unfold stays_near_current. rewrite (float_at_lookup _ _ _ Hcell).
    apply float_of_cell_not_a_number in Hbad. by destruct Hbad as [-> | ->].
Qed.

(** A row whose flag is off is not in the output: the output is a sublist
    of the input without that row. *)
Lemma select_discards (flags : list bool) (rows : list row) (i : nat) :
  flags !! i = Some false -> select flags rows `sublist_of` delete i rows.
Proof.
  revert flags i. induction rows as [|r rows IH]; intros [|keep flags] i Hi; simpl;
    try apply sublist_nil_l.
  destruct i as [|i]; simpl in *.
  - injection Hi as ->. apply select_sublist.
  - destruct keep; [apply sublist_skip | apply sublist_cons]; by apply IH.
Qed.

Lemma sustained_change_no_rows (all_rows : list row) (i : nat) (col : string)
    (cur prev : float) (js : list nat) :
  (forall j, j ∈ js -> all_rows !! (i + j) = None) ->
  sustained_change float_of_str all_rows i col cur prev js = Ok false.
Proof.
  induction js as [|j js IH]; intros Hnone; simpl; [done|].
  rewrite Hnone by (apply elem_of_cons; by left).
  apply IH. intros; apply Hnone, elem_of_cons; by right.
Qed.

(** [C1], as the code has it. A jump above the threshold in the last row,
    with no row after it to look at, is not sustained: the column flags
    the row, and the output is a sublist of the series without its last
    row. *)
Theorem jump_at_the_end_is_discarded (fieldnames : list string)
    (rows : list row) (previous_row r : row) (col : string) (cur prev : float) :
  col ∈ List.filter is_numeric_column fieldnames ->
  has_columns (columns_read fieldnames) (rows ++ [previous_row; r]) ->
  float_at float_of_str r col = Ok cur ->
  float_at float_of_str previous_row col = Ok prev ->
  float_gt (calculate_percentage_difference cur prev) OUTLIER_THRESHOLD_PERCENTAGE = true ->
  column_is_outlier float_of_str (rows ++ [previous_row; r]) (S (length rows))
    r previous_row col = Ok true
  /\ exists rows_to_keep,
       sanitize_csv float_of_str (Some fieldnames) (rows ++ [previous_row; r])
       = Ok (fieldnames, rows_to_keep)
       /\ rows_to_keep `sublist_of` (rows ++ [previous_row]).
Proof.
  intros Hcol Hall Hcur Hprev Hgt.
  set (all_rows := rows ++ [previous_row; r]) in *.
  set (i := S (length rows)).
  assert (Hr : all_rows !! i = Some r).
  { subst all_rows i. rewrite lookup_app_r by lia.
    by replace (S (length rows) - length rows) with 1 by lia. }
  assert (Hp : all_rows !! (i - 1) = Some previous_row).
  { subst all_rows i. rewrite lookup_app_r by lia.
    by replace (S (length rows) - 1 - length rows) with 0 by lia. }
  assert (Hflag : column_is_outlier float_of_str all_rows i r previous_row col = Ok true).
  { apply column_is_outlier_true_iff. exists cur, prev. repeat split; try done.
    apply sustained_change_no_rows. intros j Hj. apply lookup_ge_None.
    subst all_rows i. rewrite length_app. simpl.
    repeat (apply elem_of_cons in Hj as [->|Hj]; [lia|]). by apply elem_of_nil in Hj. }
  split; [done|].
  destruct (previous_row_is_the_original_flags fieldnames all_rows Hall)
    as (flags & Hrun & Hlen & Hflags).
  exists (select flags all_rows). split; [done|].
  destruct (Hflags i r previous_row) as (is_outlier & Hi & Hrow); [done..|].
  assert (is_outlier = true) as ->.
  { apply (row_is_outlier_true_iff _ _ _ _ _ _ Hrow). eauto. }
  replace (rows ++ [previous_row]) with (delete i all_rows).
  - by apply select_discards.
  - subst all_rows i.
    replace (rows ++ [previous_row; r]) with ((rows ++ [previous_row]) ++ [r])
      by (by rewrite <- app_assoc).
    replace (S (length rows)) with (length (rows ++ [previous_row]))
      by (rewrite length_app; simpl; lia).
    rewrite delete_middle. by rewrite app_nil_r.
Qed.

(** [C10] The output has the header of the input, and the rows kept are
    rows of the input, unchanged and in their order (a sublist of the
    input), starting with the first row of the input. On rows that have a
    cell for the date and for every numeric column the run ends without an
    exception. *)
Theorem kept_rows_are_input_rows (fieldnames : list string) (all_rows : list row) :
  has_columns (columns_read fieldnames) all_rows ->
  exists rows_to_keep,
    sanitize_csv float_of_str (Some fieldnames) all_rows = Ok (fieldnames, rows_to_keep)
    /\ rows_to_keep `sublist_of` all_rows
    /\ head rows_to_keep = head all_rows.
Proof.
  intros Hall. rewrite sanitize_csv_flags.
  destruct (keep_flags_from_total all_rows _ 0 all_rows Hall eq_refl) as [flags Hflags].
  rewrite Hflags. res_simpl. eexists. split; [done|]. split; [apply select_sublist|].
  destruct all_rows as [|r rows]; [by destruct flags|].
  destruct (keep_flags_from_lookup _ _ _ _ _ 0 r Hflags eq_refl) as (b & Hb & Hkept).
  unfold row_is_kept in Hkept. simpl in Hkept. injection Hkept as <-.
  destruct flags as [|b flags]; [done|]. simpl in Hb. injection Hb as ->. done.
Qed.

(** [C2] On the series 100, 100, 100, 200, 100, 100 the run discards the
    row at index 3 and keeps the other five as they are, dates included.
    The row at index 4 is compared with the discarded row at index 3: the
    difference between 100 and 200 is 50.0 percent of 200, which is not
    above the threshold. *)
Theorem spike_series_loses_the_spike :
  float_of_str "100" = Some 100%float ->
  float_of_str "200" = Some 200%float ->
  sanitize_csv float_of_str (Some fecha_precio) spike_series
  = Ok (fecha_precio,
        [price_row "2024-03-01" "100"; price_row "2024-03-04" "100";
         price_row "2024-03-05" "100"; price_row "2024-03-07" "100";
         price_row "2024-03-08" "100"])
  /\ row_is_kept float_of_str spike_series ["precio"] 3 (price_row "2024-03-06" "200")
     = Ok false
  /\ index spike_series (4 - 1) = Ok (price_row "2024-03-06" "200")
  /\ float_at float_of_str (price_row "2024-03-06" "200") "precio" = Ok 200%float
  /\ float_at float_of_str (price_row "2024-03-07" "100") "precio" = Ok 100%float
  /\ calculate_percentage_difference 100 200 = 50%float
  /\ float_gt 50 OUTLIER_THRESHOLD_PERCENTAGE = false
  /\ column_is_outlier float_of_str spike_series 4
       (price_row "2024-03-07" "100") (price_row "2024-03-06" "200") "precio"
     = Ok false.
Proof.
  intros H100 H200.
  assert (Hagree : agree_on float_of_str float_of_decimal ["precio"] spike_series).
  { intros r col s Hr Hcol Hcell.
    apply list_elem_of_singleton in Hcol as ->.
    unfold spike_series in Hr.
    repeat (apply elem_of_cons in Hr as [->|Hr];
            [vm_compute in Hcell; injection Hcell as <-;
             rewrite ?H100, ?H200; reflexivity|]).
    by apply elem_of_nil in Hr. }
  split; [by rewrite (sanitize_csv_agree _ _ fecha_precio spike_series Hagree)|].
  split.
  { rewrite (row_is_kept_agree _ _ _ _ _ _ Hagree); [done|].
    unfold spike_series. do 3 apply list_elem_of_further. apply list_elem_of_here. }
  split; [done|].
  split; [rewrite (float_at_lookup _ "precio" (Some "200")) by done; simpl; by rewrite H200|].
  split; [rewrite (float_at_lookup _ "precio" (Some "100")) by done; simpl; by rewrite H100|].
  split; [done|]. split; [done|].
  rewrite (column_is_outlier_agree _ _ _ _ _ _ _ "precio" Hagree); [done|..].
  - apply list_elem_of_here.
  - unfold spike_series. do 4 apply list_elem_of_further. apply list_elem_of_here.
  - unfold spike_series. do 3 apply list_elem_of_further. apply list_elem_of_here.
Qed.

End Properties.

(** *** The example series *)

(** [C1], as stated, fails on 100, 200: the last row jumps by 100 percent,
    no row follows it, and yet the column flags it and the run drops
    it. *)
Lemma jump_at_end_is_dropped :
  float_at float_of_decimal (price_row "2024-03-04" "200") "precio" = Ok 200%float
  /\ float_at float_of_decimal (price_row "2024-03-01" "100") "precio" = Ok 100%float
  /\ float_gt (calculate_percentage_difference 200 100) OUTLIER_THRESHOLD_PERCENTAGE = true
  /\ jump_at_end !! 2 = None
  /\ column_is_outlier float_of_decimal jump_at_end 1
       (price_row "2024-03-04" "200") (price_row "2024-03-01" "100") "precio" = Ok true
  /\ sanitize_csv float_of_decimal (Some fecha_precio) jump_at_end
     = Ok (fecha_precio, [price_row "2024-03-01" "100"]).
Proof. repeat split; vm_compute; reflexivity. Qed.

Lemma jump_at_the_end_is_discarded_witness :
  column_is_outlier float_of_decimal jump_at_end 1
    (price_row "2024-03-04" "200") (price_row "2024-03-01" "100") "precio" = Ok true
  /\ exists rows_to_keep,
       sanitize_csv float_of_decimal (Some fecha_precio) jump_at_end
       = Ok (fecha_precio, rows_to_keep)
       /\ rows_to_keep `sublist_of` [price_row "2024-03-01" "100"].
Proof.
  apply (jump_at_the_end_is_discarded float_of_decimal fecha_precio []
           (price_row "2024-03-01" "100") (price_row "2024-03-04" "200") "precio"
           200%float 100%float).
  - vm_compute. apply list_elem_of_here.
  - repeat (apply Forall_cons; split); try apply Forall_nil; by eexists.
  - vm_compute. reflexivity.
  - vm_compute. reflexivity.
  - vm_compute. reflexivity.
Defined.

Lemma spike_series_loses_the_spike_witness :
  sanitize_csv float_of_decimal (Some fecha_precio) spike_series
  = Ok (fecha_precio,
        [price_row "2024-03-01" "100"; price_row "2024-03-04" "100";
         price_row "2024-03-05" "100"; price_row "2024-03-07" "100";
         price_row "2024-03-08" "100"]).
Proof.
  apply (spike_series_loses_the_spike float_of_decimal); vm_compute; reflexivity.
Defined.

Lemma sustained_change_keeps_the_field_witness :
  column_is_outlier float_of_decimal step_series 1
    (price_row "2024-03-04" "200") (price_row "2024-03-01" "100") "precio" = Ok false.
Proof.
  apply (sustained_change_keeps_the_field float_of_decimal step_series 1
           (price_row "2024-03-04" "200") (price_row "2024-03-01" "100") "precio"
           200%float 100%float 1).
  - vm_compute. reflexivity.
  - vm_compute. reflexivity.
  - vm_compute. reflexivity.
  - by left.
  - exists (price_row "2024-03-05" "200"), 200%float. repeat split; vm_compute; reflexivity.
  - intros next_row [= <-]. by eexists.
Defined.

Lemma previous_row_is_the_original_witness :
  exists flags,
    sanitize_csv float_of_decimal (Some fecha_precio) spike_then_step
    = Ok (fecha_precio, select flags spike_then_step)
    /\ length flags = length spike_then_step.
Proof.
  destruct (previous_row_is_the_original float_of_decimal fecha_precio spike_then_step)
    as (flags & Hrun & Hlen & _).
  - repeat (apply Forall_cons; split); try apply Forall_nil; by eexists.
  - exists flags. by split.
Defined.

Lemma bad_value_is_no_signal_witness :
  exists rows_to_keep,
    sanitize_csv float_of_decimal (Some fecha_precio) series_with_gaps
    = Ok (fecha_precio, rows_to_keep).
Proof.
  apply (bad_value_is_no_signal float_of_decimal fecha_precio series_with_gaps).
  repeat (apply Forall_cons; split); try apply Forall_nil; by eexists.
Defined.

Lemma decision_depends_on_four_rows_witness :
  row_is_kept float_of_decimal spike_series ["precio"] 3 (price_row "2024-03-06" "200")
  = row_is_kept float_of_decimal spike_series_other_start ["precio"] 3
      (price_row "2024-03-06" "200").
Proof.
  apply (decision_depends_on_four_rows float_of_decimal ["precio"]
           spike_series spike_series_other_start 3); reflexivity.
Defined.

Lemma kept_rows_are_input_rows_witness :
  exists rows_to_keep,
    sanitize_csv float_of_decimal (Some fecha_precio) spike_series
    = Ok (fecha_precio, rows_to_keep)
    /\ rows_to_keep `sublist_of` spike_series
    /\ head rows_to_keep = head spike_series.
Proof.
  apply (kept_rows_are_input_rows float_of_decimal fecha_precio spike_series).
  repeat (apply Forall_cons; split); try apply Forall_nil; by eexists.
Defined.

(** The example rows are rows of [csv.DictReader]. *)
Example series_with_gaps_read :
  series_with_gaps
  = dict_rows fecha_precio
      [["2024-03-01"; "100"]; ["2024-03-04"; "n/a"]; []; ["2024-03-05"];
       ["2024-03-06"; "100"]].
Proof. vm_compute. reflexivity. Qed.

(** Discards do not cascade. In 100, 400, 200, 100, 100 the row 400 is
    dropped; the next row, 200, is 50 percent below 400 and kept, though
    against the last kept row, 100, it would be flagged. *)
Example discards_do_not_cascade :
  sanitize_csv float_of_decimal (Some fecha_precio) spike_then_step
  = Ok (fecha_precio,
        [price_row "2024-03-01" "100"; price_row "2024-03-05" "200";
         price_row "2024-03-06" "100"; price_row "2024-03-07" "100"])
  /\ column_is_outlier float_of_decimal spike_then_step 2
       (price_row "2024-03-05" "200") (price_row "2024-03-04" "400") "precio" = Ok false
  /\ column_is_outlier float_of_decimal spike_then_step 2
       (price_row "2024-03-05" "200") (price_row "2024-03-01" "100") "precio" = Ok true.
Proof. repeat split; vm_compute; reflexivity. Qed.

(** The cells that are no numbers stay in the output: neither the text
    nor the short row is dropped. *)
Example gaps_are_kept :
  sanitize_csv float_of_decimal (Some fecha_precio) series_with_gaps
  = Ok (fecha_precio, series_with_gaps).
Proof. vm_compute. reflexivity. Qed.

(** *** Whole runs *)

Section Runs.

Variable float_of_str : string -> option float.

Lemma sanitize_loop_counting_spec (all_rows : list row) (cols : list string) (i : nat)
    (todo : list row) (total_rows discarded_count : nat) (rows_to_keep : list row) :
  match sanitize_loop float_of_str all_rows cols i todo rows_to_keep with
  | Ok kept =>
      exists discarded,
        sanitize_loop_counting float_of_str all_rows cols i todo
          total_rows discarded_count rows_to_keep
        = Ok (total_rows + length todo, discarded, kept)
        /\ length kept + discarded
           = length rows_to_keep + discarded_count + length todo
  | Raise e =>
      sanitize_loop_counting float_of_str all_rows cols i todo
        total_rows discarded_count rows_to_keep
      = Raise e
  end.
Proof.
  revert i total_rows discarded_count rows_to_keep.
  induction todo as [|r todo IH]; intros i total_rows discarded_count rows_to_keep; simpl.
  - exists discarded_count. rewrite Nat.add_0_r. split; [done|lia].
  - destruct (row_is_kept float_of_str all_rows cols i r) as [[|]|e]; res_simpl; [| |done].
    + specialize (IH (S i) (S total_rows) discarded_count (rows_to_keep ++ [r])).
      destruct (sanitize_loop _ _ _ _ _ _) as [kept|e]; [|done].
      destruct IH as (discarded & -> & Hlen). exists discarded.
      rewrite length_app in Hlen. simpl in Hlen. split; [f_equal; f_equal; f_equal; lia|lia].
    + specialize (IH (S i) (S total_rows) (S discarded_count) rows_to_keep).
      destruct (sanitize_loop _ _ _ _ _ _) as [kept|e]; [|done].
      destruct IH as (discarded & -> & Hlen). exists discarded.
      split; [f_equal; f_equal; f_equal; lia|lia].
Qed.

(** [X9] The summary adds up: the run reports every row of the input as
    processed, the rows it wrote as kept, and the rest as discarded; and
    it reports nothing exactly when no table is written. *)
Theorem sanitize_summary_adds_up (fieldnames : option (list string)) (all_rows : list row) :
  match sanitize_csv float_of_str fieldnames all_rows with
  | Ok (_, rows_to_keep) =>
      length rows_to_keep <= length all_rows
      /\ sanitize_summary float_of_str fieldnames all_rows
         = Ok (length all_rows, length rows_to_keep,
               length all_rows - length rows_to_keep)
  | Raise e => sanitize_summary float_of_str fieldnames all_rows = Raise e
  end.
Proof.
  unfold sanitize_csv, sanitize_summary. destruct fieldnames as [fieldnames|]; [|done].
  pose proof (sanitize_loop_counting_spec all_rows
                (List.filter is_numeric_column fieldnames) 0 all_rows 0 0 []) as Hspec.
  destruct (sanitize_loop _ _ _ _ _ _) as [kept|e]; res_simpl; [|by rewrite Hspec].
  destruct Hspec as (discarded & -> & Hlen). res_simpl. simpl in Hlen.
  split; [lia|]. do 2 f_equal. lia.
Qed.

(** The look-ahead over both offsets says no exactly when neither row
    sustains the jump. *)
Lemma sustained_change_false_iff (all_rows : list row) (i : nat) (col : string)
    (cur prev : float) :
  (forall j next_row, all_rows !! (i + j) = Some next_row -> is_Some (next_row !! col)) ->
  sustained_change float_of_str all_rows i col cur prev [1; 2] = Ok false
  <-> ~ sustains_at float_of_str all_rows i col cur prev 1
      /\ ~ sustains_at float_of_str all_rows i col cur prev 2.
Proof.
  intros Hcol. split.
  - intros Hno. split; intros Hs.
    + by rewrite (sustained_change_found _ _ _ _ _ _ _ _ Hs) in Hno.
    + destruct (sustains_at_dec float_of_str all_rows i col cur prev 1) as [H1|H1].
      * by rewrite (sustained_change_found _ _ _ _ _ _ _ _ H1) in Hno.
      * rewrite (sustained_change_next _ _ _ _ _ _ _ _ H1 (Hcol 1)) in Hno.
        by rewrite (sustained_change_found _ _ _ _ _ _ _ _ Hs) in Hno.
  - intros [H1 H2].
    rewrite (sustained_change_next _ _ _ _ _ _ _ _ H1 (Hcol 1)).
    by rewrite (sustained_change_next _ _ _ _ _ _ _ _ H2 (Hcol 2)).
Qed.

Lemma has_columns_ahead (cols : list string) (all_rows : list row) (col : string) :
  has_columns cols all_rows -> col ∈ cols ->
  forall k (r : row), all_rows !! k = Some r -> is_Some (r !! col).
Proof.
  intros Hall Hcol k r Hr. pose proof (has_columns_lookup _ _ _ _ Hall Hr) as Hcols.
  rewrite Forall_forall in Hcols. by apply Hcols.
Qed.

Lemma previous_row_exists (all_rows : list row) (i : nat) (r : row) :
  all_rows !! i = Some r -> is_Some (all_rows !! (i - 1)).
Proof. intros Hi. apply lookup_lt_Some in Hi. apply lookup_lt_is_Some. lia. Qed.

(** A row is discarded exactly for an isolated jump. *)
Lemma row_is_kept_false_iff (all_rows : list row) (cols : list string) (i : nat) (r : row) :
  has_columns ("fecha" :: cols) all_rows -> all_rows !! i = Some r ->
  row_is_kept float_of_str all_rows cols i r = Ok false
  <-> isolated_jump float_of_str all_rows cols i.
Proof.
  intros Hall Hi. unfold row_is_kept. case_decide as Hzero.
  { split; [done|]. intros (? & ? & ? & ? & ? & Hpos & _). lia. }
  destruct (previous_row_exists _ _ _ Hi) as [previous_row Hprev].
  unfold index. rewrite Hprev. res_simpl.
  pose proof (has_columns_lookup _ _ _ _ Hall Hi) as Hr.
  pose proof (has_columns_lookup _ _ _ _ Hall Hprev) as Hp.
  apply Forall_cons in Hr as [[fecha Hfecha] Hr]. apply Forall_cons in Hp as [_ Hp].
  apply has_columns_tail in Hall.
  destruct (row_is_outlier_total float_of_str all_rows i r previous_row cols false)
    as [b Hb]; [done..|].
  rewrite Hb. res_simpl.
  pose proof (row_is_outlier_true_iff float_of_str _ _ _ _ _ _ Hb) as Hiff.
  assert (Hjump : b = true <-> isolated_jump float_of_str all_rows cols i).
  { rewrite Hiff. split.
    - intros (col & Hcol & Hout).
      apply column_is_outlier_true_iff in Hout as (cur & prev & Hcur & Hpr & Hgt & Hs).
      apply sustained_change_false_iff in Hs as [H1 H2];
        [|intros j nr; by apply (has_columns_ahead cols)].
      exists r, previous_row, col, cur, prev. repeat split; try done. lia.
    - intros (r' & p' & col & cur & prev & _ & Hr' & Hp' & Hcol & Hcur & Hpr & Hgt & H1 & H2).
      rewrite Hi in Hr'. injection Hr' as <-. rewrite Hprev in Hp'. injection Hp' as <-.
      exists col. split; [done|]. apply column_is_outlier_true_iff.
      exists cur, prev. repeat split; try done.
      apply sustained_change_false_iff; [|done].
      intros j nr; by apply (has_columns_ahead cols). }
  destruct b.
  - unfold getitem. rewrite Hfecha. res_simpl. split; [intros _; by apply Hjump|done].
  - split; [done|]. intros H. by apply Hjump in H.
Qed.

Lemma select_all (rows : list row) : select (replicate (length rows) true) rows = rows.
Proof. induction rows as [|r rows IH]; simpl; [done|]. by rewrite IH. Qed.

Lemma keep_flags_from_all (all_rows : list row) (cols : list string) (i : nat)
    (todo : list row) :
  (forall k r, todo !! k = Some r ->
     row_is_kept float_of_str all_rows cols (i + k) r = Ok true) ->
  keep_flags_from float_of_str all_rows cols i todo = Ok (replicate (length todo) true).
Proof.
  revert i. induction todo as [|r todo IH]; intros i Hall; simpl; [done|].
  rewrite <- (Nat.add_0_r i) at 1. rewrite (Hall 0 r eq_refl). res_simpl.
  rewrite IH; [done|]. intros k r' Hk. rewrite Nat.add_succ_comm. by apply (Hall (S k)).
Qed.

(** The exceptions that leave the checks of one row. *)
Lemma column_is_outlier_raises (all_rows : list row) (i : nat) (r previous_row : row)
    (col : string) (e : exn) :
  column_is_outlier float_of_str all_rows i r previous_row col = Raise e -> e = KeyError.
Proof.
  unfold column_is_outlier.
  destruct (float_at float_of_str r col) as [cur|e1] eqn:Hcur; res_simpl.
  - destruct (float_at float_of_str previous_row col) as [prev|e2] eqn:Hprev; res_simpl.
    + destruct (float_gt _ _); res_simpl; [|done].
      destruct (sustained_change _ _ _ _ _ _ _) as [b|e3] eqn:Hs; res_simpl; [done|].
      apply sustained_change_raises in Hs as ->. by intros [= <-].
    + destruct (float_at_raises _ _ _ _ Hprev) as [->|[->| ->]]; [by intros [= <-]|done..].
  - destruct (float_at_raises _ _ _ _ Hcur) as [->|[->| ->]]; [by intros [= <-]|done..].
Qed.

Lemma row_is_outlier_raises (all_rows : list row) (i : nat) (r previous_row : row)
    (cols : list string) (flag : bool) (e : exn) :
  row_is_outlier float_of_str all_rows i r previous_row cols flag = Raise e -> e = KeyError.
Proof.
  revert flag. induction cols as [|col cols IH]; intros flag; simpl; [done|].
  destruct (column_is_outlier _ _ _ _ _ col) as [o|e'] eqn:Hcol; res_simpl; [apply IH|].
  apply column_is_outlier_raises in Hcol as ->. by intros [= <-].
Qed.

Lemma row_is_kept_raises (all_rows : list row) (cols : list string) (i : nat) (r : row)
    (e : exn) :
  all_rows !! i = Some r ->
  row_is_kept float_of_str all_rows cols i r = Raise e -> e = KeyError.
Proof.
  intros Hi. unfold row_is_kept. case_decide; [done|].
  destruct (previous_row_exists _ _ _ Hi) as [previous_row Hprev].
  unfold index. rewrite Hprev. res_simpl.
  destruct (row_is_outlier _ _ _ _ _ _ _) as [[|]|e'] eqn:Hout; res_simpl; [|done|].
  - unfold getitem. destruct (r !! "fecha"); res_simpl; [done|]. by intros [= <-].
  - apply row_is_outlier_raises in Hout as ->. by intros [= <-].
Qed.

Lemma keep_flags_from_raises (all_rows : list row) (cols : list string) (i : nat)
    (todo : list row) (e : exn) :
  todo = drop i all_rows ->
  keep_flags_from float_of_str all_rows cols i todo = Raise e -> e = KeyError.
Proof.
  revert i. induction todo as [|r todo IH]; intros i Hdrop; simpl; [done|].
  assert (Hi : all_rows !! i = Some r).
  { rewrite <- (Nat.add_0_r i), <- lookup_drop, <- Hdrop. done. }
  destruct (row_is_kept _ _ _ _ r) as [keep|e'] eqn:Hkeep; res_simpl.
  - destruct (keep_flags_from _ _ _ _ _) as [flags|e'] eqn:Hrest; res_simpl; [done|].
    intros [= <-]. apply (IH (S i)); [|done].
    rewrite (drop_S _ _ _ Hi) in Hdrop. congruence.
  - intros [= <-]. by eapply row_is_kept_raises.
Qed.

Lemma row_is_kept_false_fecha (all_rows : list row) (cols : list string) (i : nat)
    (r : row) :
  row_is_kept float_of_str all_rows cols i r = Ok false -> is_Some (r !! "fecha").
Proof.
  unfold row_is_kept. case_decide; [done|].
  destruct (index all_rows (i - 1)) as [previous_row|e]; res_simpl; [|done].
  destruct (row_is_outlier _ _ _ _ _ _ _) as [[|]|e]; res_simpl; [|done..].
  unfold getitem. destruct (r !! "fecha"); [eauto|done].
Qed.

Lemma keep_flags_from_undated (all_rows : list row) (cols : list string) (i : nat)
    (todo : list row) (flags : list bool) :
  Forall (fun r : row => r !! "fecha" = None) todo ->
  keep_flags_from float_of_str all_rows cols i todo = Ok flags ->
  flags = replicate (length todo) true.
Proof.
  intros Hno. revert i flags. induction Hno as [|r todo Hr Hno IH]; intros i flags; simpl.
  - by intros [= <-].
  - destruct (row_is_kept _ _ _ _ r) as [keep|e] eqn:Hkeep; res_simpl; [|done].
    destruct (keep_flags_from _ _ _ _ _) as [flags'|e] eqn:Hrest; res_simpl; [|done].
    intros [= <-]. rewrite (IH _ _ Hrest). destruct keep; [done|].
    apply row_is_kept_false_fecha in Hkeep as [c Hc]. congruence.
Qed.

#[local] Instance has_columns_dec (cols : list string) (rows : list row) :
  Decision (has_columns cols rows).
Proof. unfold has_columns. apply _. Defined.


(** [X10] On rows that have a cell for the date and for every numeric column,
    the rows the run leaves out are exactly those with an isolated jump:
    some numeric column reads a number in the row and in the row before
    it, the two differ by more than the threshold, and neither of the two
    rows after it holds a number in that column that is no farther from
    the row's value than from the value before. The first row is never
    left out. *)
Theorem discarded_rows_are_isolated_jumps (fieldnames : list string) (all_rows : list row) :
  has_columns (columns_read fieldnames) all_rows ->
  exists flags,
    sanitize_csv float_of_str (Some fieldnames) all_rows
    = Ok (fieldnames, select flags all_rows)
    /\ length flags = length all_rows
    /\ flags !! 0 <> Some false
    /\ forall i,
         flags !! i = Some false
         <-> isolated_jump float_of_str all_rows
               (List.filter is_numeric_column fieldnames) i.
Proof.
  intros Hall. rewrite sanitize_csv_flags.
  destruct (keep_flags_from_total float_of_str all_rows _ 0 all_rows Hall eq_refl)
    as [flags Hflags].
  rewrite Hflags. res_simpl. exists flags. split; [done|].
  pose proof (keep_flags_from_length float_of_str _ _ _ _ _ Hflags) as Hlen.
  split; [done|].
  assert (Hiff : forall i,
    flags !! i = Some false
    <-> isolated_jump float_of_str all_rows (List.filter is_numeric_column fieldnames) i).
  { intros i. destruct (all_rows !! i) as [r|] eqn:Hi.
    - destruct (keep_flags_from_lookup float_of_str _ _ _ _ _ _ _ Hflags Hi)
        as (b & Hb & Hkept).
      simpl in Hkept. rewrite Hb, <- (row_is_kept_false_iff _ _ _ _ Hall Hi), Hkept.
      split; congruence.
    - split.
      + intros Hb. apply lookup_lt_Some in Hb. apply lookup_ge_None in Hi. lia.
      + intros (r & ? & ? & ? & ? & _ & Hr & _). congruence. }
  split; [|done]. rewrite Hiff. intros (? & ? & ? & ? & ? & Hpos & _). lia.
Qed.

(** [X11] A table in which no number differs by more than the threshold from
    the number above it comes out as it went in. The date column is not
    needed for that. *)
Theorem table_without_jumps_is_unchanged (fieldnames : list string) (all_rows : list row) :
  has_columns (List.filter is_numeric_column fieldnames) all_rows ->
  (forall i r previous_row col cur prev,
     all_rows !! S i = Some r -> all_rows !! i = Some previous_row ->
     col ∈ List.filter is_numeric_column fieldnames ->
     float_at float_of_str r col = Ok cur ->
     float_at float_of_str previous_row col = Ok prev ->
     float_gt (calculate_percentage_difference cur prev) OUTLIER_THRESHOLD_PERCENTAGE
     = false) ->
  sanitize_csv float_of_str (Some fieldnames) all_rows = Ok (fieldnames, all_rows).
Proof.
  intros Hall Hcalm. rewrite sanitize_csv_flags.
  rewrite keep_flags_from_all; [res_simpl; by rewrite select_all|].
  intros i r Hi. simpl. unfold row_is_kept. case_decide as Hzero; [done|].
  destruct (previous_row_exists _ _ _ Hi) as [previous_row Hprev].
  unfold index. rewrite Hprev. res_simpl.
  destruct (row_is_outlier_total float_of_str all_rows i r previous_row
              (List.filter is_numeric_column fieldnames) false) as [b Hb];
    [by eapply has_columns_lookup..|done|].
  rewrite Hb. res_simpl. destruct b; [|done].
  destruct (row_is_outlier_true_iff float_of_str _ _ _ _ _ _ Hb) as [Hcol _].
  destruct (Hcol eq_refl) as (col & Hin & Hout).
  apply column_is_outlier_true_iff in Hout as (cur & prev & Hcur & Hpr & Hgt & _).
  destruct i as [|i]; [done|]. simpl in Hprev. rewrite Nat.sub_0_r in Hprev.
  by rewrite (Hcalm i r previous_row col cur prev) in Hgt.
Qed.

(** [X12] A table whose rows have no date cell is never sanitized: the run
    either discards nothing and writes the table as it is, or stops with
    [KeyError], at the latest at the first isolated jump, where the
    warning reads the date. *)
Theorem undated_table_is_not_sanitized (fieldnames : list string) (all_rows : list row) :
  Forall (fun r : row => r !! "fecha" = None) all_rows ->
  sanitize_csv float_of_str (Some fieldnames) all_rows = Ok (fieldnames, all_rows)
  \/ sanitize_csv float_of_str (Some fieldnames) all_rows = Raise KeyError.
Proof.
  intros Hno. rewrite sanitize_csv_flags.
  destruct (keep_flags_from _ _ _ _ _) as [flags|e] eqn:Hflags; res_simpl.
  - left. rewrite (keep_flags_from_undated _ _ _ _ _ Hno Hflags). by rewrite select_all.
  - right. by apply keep_flags_from_raises in Hflags as ->.
Qed.


(** [X14] A file with a date column in its header, and no line longer than the
    header, is sanitized without an exception, whatever its cells hold:
    [csv.DictReader] gives every row a cell for every column, [None] on a
    short line, and skips the lines without cells. (A longer line gets a
    key that [csv.DictWriter] refuses; the rows modelled are those
    without.) *)
Theorem file_with_a_date_column_is_sanitized (fieldnames : list string)
    (lines : list (list string)) :
  "fecha" ∈ fieldnames ->
  Forall (fun cells : list string => length cells <= length fieldnames) lines ->
  exists flags,
    sanitize_csv float_of_str (Some fieldnames) (dict_rows fieldnames lines)
    = Ok (fieldnames, select flags (dict_rows fieldnames lines))
    /\ length flags
       = length (List.filter (fun cells => negb (Nat.eqb (length cells) 0)) lines).
Proof.
  intros Hfecha _. rewrite sanitize_csv_flags.
  destruct (keep_flags_from_total float_of_str (dict_rows fieldnames lines)
              (List.filter is_numeric_column fieldnames) 0 (dict_rows fieldnames lines))
    as [flags Hflags]; [|done|].
  - apply dict_rows_have_columns. intros c Hc.
    apply elem_of_cons in Hc as [->|Hc]; [done|].
    by apply list_elem_of_In, filter_In in Hc as [Hc%list_elem_of_In _].
  - rewrite Hflags. res_simpl. exists flags. split; [done|].
    rewrite (keep_flags_from_length float_of_str _ _ _ _ _ Hflags).
    unfold dict_rows. by rewrite length_map.
Qed.

(** *** The date column *)

Lemma numeric_columns_not_fecha (fieldnames : list string) :
  Forall (fun c => c <> "fecha") (List.filter is_numeric_column fieldnames).
Proof.
  apply Forall_forall. intros c Hc. apply list_elem_of_In, filter_In in Hc as [_ Hc].
  unfold is_numeric_column in Hc. intros ->. by rewrite String.eqb_refl in Hc.
Qed.

Lemma float_at_dates (r1 r2 : row) (col : string) :
  same_but_dates r1 r2 -> col <> "fecha" ->
  float_at float_of_str r1 col = float_at float_of_str r2 col.
Proof. intros [Hsame _] Hcol. unfold float_at, getitem. by rewrite (Hsame col Hcol). Qed.

Lemma lookup_dates (rows1 rows2 : list row) (k : nat) :
  Forall2 same_but_dates rows1 rows2 ->
  match rows1 !! k, rows2 !! k with
  | Some r1, Some r2 => same_but_dates r1 r2
  | None, None => True
  | _, _ => False
  end.
Proof.
  intros Hrows. revert k. induction Hrows as [|r1 r2 rows1 rows2 Hr Hrows IH]; intros k.
  - done.
  - destruct k as [|k]; simpl; [done|apply IH].
Qed.

Lemma sustained_change_dates (rows1 rows2 : list row) (i : nat) (col : string)
    (cur prev : float) (js : list nat) :
  Forall2 same_but_dates rows1 rows2 -> col <> "fecha" ->
  sustained_change float_of_str rows1 i col cur prev js
  = sustained_change float_of_str rows2 i col cur prev js.
Proof.
  intros Hrows Hcol. induction js as [|j js IH]; simpl; [done|].
  pose proof (lookup_dates rows1 rows2 (i + j) Hrows) as Hj.
  destruct (rows1 !! (i + j)) as [n1|], (rows2 !! (i + j)) as [n2|]; try done.
  unfold stays_near_current. by rewrite (float_at_dates n1 n2 col Hj Hcol), IH.
Qed.

Lemma column_is_outlier_dates (rows1 rows2 : list row) (i : nat)
    (r1 r2 p1 p2 : row) (col : string) :
  Forall2 same_but_dates rows1 rows2 -> same_but_dates r1 r2 -> same_but_dates p1 p2 ->
  col <> "fecha" ->
  column_is_outlier float_of_str rows1 i r1 p1 col
  = column_is_outlier float_of_str rows2 i r2 p2 col.
Proof.
  intros Hrows Hr Hp Hcol. unfold column_is_outlier.
  rewrite (float_at_dates r1 r2 col Hr Hcol), (float_at_dates p1 p2 col Hp Hcol).
  destruct (float_at float_of_str r2 col) as [cur|e]; res_simpl; [|done].
  destruct (float_at float_of_str p2 col) as [prev|e]; res_simpl; [|done].
  by rewrite (sustained_change_dates rows1 rows2 i col cur prev _ Hrows Hcol).
Qed.

Lemma row_is_outlier_dates (rows1 rows2 : list row) (i : nat)
    (r1 r2 p1 p2 : row) (cols : list string) (flag : bool) :
  Forall2 same_but_dates rows1 rows2 -> same_but_dates r1 r2 -> same_but_dates p1 p2 ->
  Forall (fun c => c <> "fecha") cols ->
  row_is_outlier float_of_str rows1 i r1 p1 cols flag
  = row_is_outlier float_of_str rows2 i r2 p2 cols flag.
Proof.
  intros Hrows Hr Hp Hcols. revert flag.
  induction Hcols as [|col cols Hcol Hcols IH]; intros flag; simpl; [done|].
  rewrite (column_is_outlier_dates rows1 rows2 i r1 r2 p1 p2 col Hrows Hr Hp Hcol).
  destruct (column_is_outlier _ _ _ _ _ _) as [o|e]; res_simpl; [apply IH|done].
Qed.

Lemma row_is_kept_dates (rows1 rows2 : list row) (cols : list string) (i : nat)
    (r1 r2 : row) :
  Forall2 same_but_dates rows1 rows2 -> same_but_dates r1 r2 ->
  Forall (fun c => c <> "fecha") cols ->
  row_is_kept float_of_str rows1 cols i r1 = row_is_kept float_of_str rows2 cols i r2.
Proof.
  intros Hrows Hr Hcols. unfold row_is_kept. case_decide; [done|].
  pose proof (lookup_dates rows1 rows2 (i - 1) Hrows) as Hp. unfold index.
  destruct (rows1 !! (i - 1)) as [p1|], (rows2 !! (i - 1)) as [p2|]; try done.
  res_simpl. rewrite (row_is_outlier_dates rows1 rows2 i r1 r2 p1 p2 cols _ Hrows Hr Hp Hcols).
  destruct (row_is_outlier _ _ _ _ _ _ _) as [[|]|e]; res_simpl; try done.
  destruct Hr as [_ Hfecha]. unfold getitem.
  destruct (r1 !! "fecha") as [c1|] eqn:H1, (r2 !! "fecha") as [c2|] eqn:H2; try done.
  - destruct Hfecha as [Hfecha _]. destruct Hfecha as [? ?]; [eauto|done].
  - destruct Hfecha as [_ Hfecha]. destruct Hfecha as [? ?]; [eauto|done].
Qed.

Lemma keep_flags_from_dates (rows1 rows2 : list row) (cols : list string) (i : nat)
    (todo1 todo2 : list row) :
  Forall2 same_but_dates rows1 rows2 -> Forall (fun c => c <> "fecha") cols ->
  Forall2 same_but_dates todo1 todo2 ->
  keep_flags_from float_of_str rows1 cols i todo1
  = keep_flags_from float_of_str rows2 cols i todo2.
Proof.
  intros Hrows Hcols Htodo. revert i.
  induction Htodo as [|r1 r2 todo1 todo2 Hr Htodo IH]; intros i; simpl; [done|].
  by rewrite (row_is_kept_dates rows1 rows2 cols i r1 r2 Hrows Hr Hcols), IH.
Qed.

(** [X15] The dates are not compared: two tables with the same cells but for the
    dates, which may be any text, lose the rows at the same places, or
    stop with the same exception. A row is judged against the row above
    it however many days lie between them. *)
Theorem dates_are_not_compared (fieldnames : list string) (rows1 rows2 : list row) :
  Forall2 same_but_dates rows1 rows2 ->
  match sanitize_csv float_of_str (Some fieldnames) rows1 with
  | Ok (header, rows_to_keep) =>
      exists flags,
        rows_to_keep = select flags rows1
        /\ sanitize_csv float_of_str (Some fieldnames) rows2
           = Ok (header, select flags rows2)
  | Raise e => sanitize_csv float_of_str (Some fieldnames) rows2 = Raise e
  end.
Proof.
  intros Hrows. rewrite !sanitize_csv_flags.
  rewrite (keep_flags_from_dates rows1 rows2 _ 0 rows1 rows2 Hrows
             (numeric_columns_not_fecha fieldnames) Hrows).
  destruct (keep_flags_from _ _ _ _ _) as [flags|e]; res_simpl; [|done].
  by exists flags.
Qed.

(** *** Cells that read as not-a-number *)

Lemma is_nan_spec (x : float) : PrimFloat.is_nan x = true -> Prim2SF x = SpecFloat.S754_nan.
Proof.
  unfold PrimFloat.is_nan. rewrite FloatAxioms.eqb_spec.
  destruct (Prim2SF x) as [sg|sg| |sg m e]; try destruct sg; cbn;
    try discriminate; try reflexivity.
  all: rewrite Z.compare_refl, Pos.compare_cont_refl; discriminate.
Qed.

Lemma nan_sub_r (x y : float) :
  Prim2SF y = SpecFloat.S754_nan -> Prim2SF (x - y) = SpecFloat.S754_nan.
Proof.
  intros H. rewrite FloatAxioms.sub_spec, H. unfold SF64sub, SpecFloat.SFsub.
  destruct (Prim2SF x) as [sg|sg| |sg m e]; try destruct sg; reflexivity.
Qed.

Lemma nan_sub_l (x y : float) :
  Prim2SF x = SpecFloat.S754_nan -> Prim2SF (x - y) = SpecFloat.S754_nan.
Proof. intros H. rewrite FloatAxioms.sub_spec, H. reflexivity. Qed.

Lemma nan_div_r (x y : float) :
  Prim2SF y = SpecFloat.S754_nan -> Prim2SF (x / y) = SpecFloat.S754_nan.
Proof.
  intros H. rewrite FloatAxioms.div_spec, H. unfold SF64div, SpecFloat.SFdiv.
  destruct (Prim2SF x) as [sg|sg| |sg m e]; try destruct sg; reflexivity.
Qed.

Lemma nan_div_l (x y : float) :
  Prim2SF x = SpecFloat.S754_nan -> Prim2SF (x / y) = SpecFloat.S754_nan.
Proof. intros H. rewrite FloatAxioms.div_spec, H. reflexivity. Qed.

Lemma nan_abs (x : float) :
  Prim2SF x = SpecFloat.S754_nan -> Prim2SF (PrimFloat.abs x) = SpecFloat.S754_nan.
Proof. intros H. rewrite FloatAxioms.abs_spec, H. reflexivity. Qed.

Lemma nan_mul_l (x y : float) :
  Prim2SF x = SpecFloat.S754_nan -> Prim2SF (x * y) = SpecFloat.S754_nan.
Proof. intros H. rewrite FloatAxioms.mul_spec, H. reflexivity. Qed.

Lemma nan_ltb_r (x y : float) : Prim2SF y = SpecFloat.S754_nan -> PrimFloat.ltb x y = false.
Proof.
  intros H. rewrite FloatAxioms.ltb_spec, H. unfold SpecFloat.SFltb, SpecFloat.SFcompare.
  destruct (Prim2SF x) as [sg|sg| |sg m e]; try destruct sg; reflexivity.
Qed.

Lemma nan_leb_l (x y : float) : Prim2SF x = SpecFloat.S754_nan -> PrimFloat.leb x y = false.
Proof. intros H. rewrite FloatAxioms.leb_spec, H. reflexivity. Qed.

Lemma nan_eqb_l (x y : float) : Prim2SF x = SpecFloat.S754_nan -> PrimFloat.eqb x y = false.
Proof. intros H. rewrite FloatAxioms.eqb_spec, H. reflexivity. Qed.

Lemma sustained_change_nan (all_rows : list row) (i : nat) (col : string)
    (cur prev : float) (js : list nat) :
  Prim2SF cur = SpecFloat.S754_nan ->
  (forall j next_row, all_rows !! (i + j) = Some next_row -> is_Some (next_row !! col)) ->
  sustained_change float_of_str all_rows i col cur prev js = Ok false.
Proof.
  intros Hnan Hcol. induction js as [|j js IH]; simpl; [done|].
  destruct (all_rows !! (i + j)) as [next_row|] eqn:Hrow; [|done].
  unfold stays_near_current.
  destruct (float_at_caught float_of_str next_row col (Hcol _ _ Hrow))
    as [[next Hnext]|[Hnext|Hnext]]; rewrite Hnext; res_simpl; [|done..].
  unfold float_le. by rewrite (nan_leb_l _ _ (nan_abs _ (nan_sub_l _ next Hnan))).
Qed.

(** [X16] A cell that [float] reads as not-a-number, as it does the text
    [nan], is a number to the run, and every comparison with it is false.
    A column does not flag a row whose value above is not-a-number, nor a
    row that is not-a-number itself under a value other than zero. Under
    a zero it does: the difference counts as infinite, and no row after
    can sustain it. *)
Theorem not_a_number_value (all_rows : list row) (i : nat) (r previous_row : row)
    (col : string) (cur prev : float) :
  float_at float_of_str r col = Ok cur ->
  float_at float_of_str previous_row col = Ok prev ->
  (PrimFloat.is_nan prev = true \/ (PrimFloat.is_nan cur = true /\ float_eq prev 0 = false) ->
   column_is_outlier float_of_str all_rows i r previous_row col = Ok false)
  /\ (PrimFloat.is_nan cur = true -> float_eq prev 0 = true ->
      (forall j next_row, all_rows !! (i + j) = Some next_row -> is_Some (next_row !! col)) ->
      column_is_outlier float_of_str all_rows i r previous_row col = Ok true).
Proof.
  intros Hcur Hprev. unfold column_is_outlier. rewrite Hcur, Hprev. res_simpl. split.
  - intros Hnan.
    assert (Hnz : float_eq prev 0 = false).
    { destruct Hnan as [Hp|[_ Hz]]; [|done]. apply nan_eqb_l. by apply is_nan_spec. }
    assert (Hq : Prim2SF ((cur - prev) / prev) = SpecFloat.S754_nan).
    { destruct Hnan as [Hp|[Hc _]]; apply is_nan_spec in Hp || apply is_nan_spec in Hc.
      - by apply nan_div_r.
      - by apply nan_div_l, nan_sub_l. }
    unfold calculate_percentage_difference. rewrite Hnz. unfold float_gt.
    by rewrite (nan_ltb_r _ _ (nan_mul_l _ 100 (nan_abs _ Hq))).
  - intros Hc Hz Hcol. apply is_nan_spec in Hc.
    unfold calculate_percentage_difference. rewrite Hz.
    unfold float_eq. rewrite (nan_eqb_l _ _ Hc). cbn [negb].
    replace (float_gt infinity OUTLIER_THRESHOLD_PERCENTAGE) with true by reflexivity.
    by rewrite (sustained_change_nan all_rows i col cur prev _ Hc Hcol).
Qed.

End Runs.

(** *** The example tables, run whole *)

Lemma price_row_same_but_dates (fecha1 fecha2 precio : string) :
  same_but_dates (price_row fecha1 precio) (price_row fecha2 precio).
Proof.
  unfold price_row. split.
  - intros c Hc. by rewrite !lookup_insert_ne.
  - by rewrite !lookup_insert_eq.
Qed.

Lemma discarded_rows_are_isolated_jumps_witness :
  exists flags,
    sanitize_csv float_of_decimal (Some fecha_precio) spike_series
    = Ok (fecha_precio, select flags spike_series)
    /\ length flags = length spike_series
    /\ flags !! 0 <> Some false
    /\ forall i,
         flags !! i = Some false
         <-> isolated_jump float_of_decimal spike_series
               (List.filter is_numeric_column fecha_precio) i.
Proof.
  apply (discarded_rows_are_isolated_jumps float_of_decimal fecha_precio spike_series).
  repeat (apply Forall_cons; split); try apply Forall_nil; by eexists.
Defined.

Lemma table_without_jumps_is_unchanged_witness :
  sanitize_csv float_of_decimal (Some fecha_precio) calm_series
  = Ok (fecha_precio, calm_series).
Proof.
  apply (table_without_jumps_is_unchanged float_of_decimal fecha_precio calm_series).
  - repeat (apply Forall_cons; split); try apply Forall_nil; by eexists.
  - intros i r previous_row col cur prev Hr Hp Hcol Hcur Hprev.
    apply list_elem_of_singleton in Hcol as ->.
    destruct i as [|[|i]]; [| |done];
      injection Hr as <-; injection Hp as <-;
      vm_compute in Hcur; vm_compute in Hprev;
      injection Hcur as <-; injection Hprev as <-; vm_compute; reflexivity.
Defined.

Lemma undated_table_is_not_sanitized_witness :
  sanitize_csv float_of_decimal (Some ["precio"]) undated_jump
  = Ok (["precio"], undated_jump)
  \/ sanitize_csv float_of_decimal (Some ["precio"]) undated_jump = Raise KeyError.
Proof.
  apply (undated_table_is_not_sanitized float_of_decimal ["precio"] undated_jump).
  repeat (apply Forall_cons; split); try apply Forall_nil; done.
Defined.


Lemma file_with_a_date_column_is_sanitized_witness :
  exists flags,
    sanitize_csv float_of_decimal (Some fecha_precio)
      (dict_rows fecha_precio
         [["2024-03-01"; "100"]; ["2024-03-04"; "n/a"]; []; ["2024-03-05"];
          ["2024-03-06"; "100"]])
    = Ok (fecha_precio,
          select flags
            (dict_rows fecha_precio
               [["2024-03-01"; "100"]; ["2024-03-04"; "n/a"]; []; ["2024-03-05"];
                ["2024-03-06"; "100"]]))
    /\ length flags = 4.
Proof.
  apply (file_with_a_date_column_is_sanitized float_of_decimal fecha_precio
           [["2024-03-01"; "100"]; ["2024-03-04"; "n/a"]; []; ["2024-03-05"];
            ["2024-03-06"; "100"]]).
  - apply list_elem_of_here.
  - repeat (apply Forall_cons; split; [simpl; lia|]). constructor.
Defined.

Lemma dates_are_not_compared_witness :
  match sanitize_csv float_of_decimal (Some fecha_precio) spike_series with
  | Ok (header, rows_to_keep) =>
      exists flags,
        rows_to_keep = select flags spike_series
        /\ sanitize_csv float_of_decimal (Some fecha_precio) spike_series_other_dates
           = Ok (header, select flags spike_series_other_dates)
  | Raise e =>
      sanitize_csv float_of_decimal (Some fecha_precio) spike_series_other_dates = Raise e
  end.
Proof.
  apply (dates_are_not_compared float_of_decimal fecha_precio spike_series
           spike_series_other_dates).
  repeat (apply Forall2_cons; split; [apply price_row_same_but_dates|]).
  apply Forall2_nil_2.
Defined.

Lemma not_a_number_value_witness :
  column_is_outlier float_of_text nan_series 1
    (price_row "2024-03-04" "nan") (price_row "2024-03-01" "100") "precio" = Ok false
  /\ column_is_outlier float_of_text nan_series 2
       (price_row "2024-03-05" "100") (price_row "2024-03-04" "nan") "precio" = Ok false.
Proof.
  split.
  - apply (not_a_number_value float_of_text nan_series 1
             (price_row "2024-03-04" "nan") (price_row "2024-03-01" "100") "precio"
             nan 100%float); [vm_compute; reflexivity..|].
    right. split; reflexivity.
  - apply (not_a_number_value float_of_text nan_series 2
             (price_row "2024-03-05" "100") (price_row "2024-03-04" "nan") "precio"
             100%float nan); [vm_compute; reflexivity..|].
    left. reflexivity.
Defined.

End SanitizeFacts.

(** ** Properties of the price table *)

Module BuildPricesFacts.

Import BuildPrices.

(** *** Properties of the order of strings *)

Lemma ascii_compare_lt_trans (a b c : ascii) :
  Ascii.compare a b = Lt -> Ascii.compare b c = Lt -> Ascii.compare a c = Lt.
Proof. unfold Ascii.compare. rewrite !N.compare_lt_iff. lia. Qed.

Lemma string_compare_lt_trans (a b c : string) :
  String.compare a b = Lt -> String.compare b c = Lt -> String.compare a c = Lt.
Proof.
  revert b c. induction a as [|x a IH]; intros [|y b] [|z c]; simpl; try done.
  destruct (Ascii.compare x y) eqn:Hxy; [|clear IH|done].
  - apply Ascii.compare_eq_iff in Hxy as ->.
    destruct (Ascii.compare y z); [apply IH|done..].
  - intros _. destruct (Ascii.compare y z) eqn:Hyz; [| |done].
    + apply Ascii.compare_eq_iff in Hyz as <-. by rewrite Hxy.
    + by rewrite (ascii_compare_lt_trans _ _ _ Hxy Hyz).
Qed.

#[global] Instance str_le_total : Total str_le.
Proof. intros a b. apply String.leb_total. Qed.

#[global] Instance str_le_antisym : AntiSymm (=) str_le.
Proof. intros a b. apply String.leb_antisym. Qed.

#[global] Instance str_le_trans : Transitive str_le.
Proof.
  intros a b c. unfold str_le, String.leb.
  destruct (String.compare a b) eqn:Hab; [| |done].
  - apply String.compare_eq_iff in Hab as ->. done.
  - destruct (String.compare b c) eqn:Hbc; [| |done].
    + apply String.compare_eq_iff in Hbc as <-. by rewrite Hab.
    + by rewrite (string_compare_lt_trans _ _ _ Hab Hbc).
Qed.

(** *** Zero-padded dates are ordered as their strings *)

Lemma digit_of_ascii_code (c : ascii) (v : Z) :
  digit_of_ascii c = Some v -> (Z.of_N (N_of_ascii c) = 48 + v /\ 0 <= v <= 9)%Z.
Proof.
  unfold digit_of_ascii.
  destruct (48 <=? Z.of_N (N_of_ascii c))%Z eqn:H1; [|done].
  destruct (Z.of_N (N_of_ascii c) <=? 57)%Z eqn:H2; [|done].
  simpl. intros [= <-]. lia.
Qed.

(** The shape of a zero-padded date. *)
Lemma parse_iso_inv (s : string) (dt : datetime) :
  parse_iso s = Some dt ->
  exists y1 y2 y3 y4 m1 m2 d1 d2 a b c d e f g h,
    s = String y1 (String y2 (String y3 (String y4 (String "-"
         (String m1 (String m2 (String "-" (String d1 (String d2 EmptyString)))))))))
    /\ digit_of_ascii y1 = Some a /\ digit_of_ascii y2 = Some b
    /\ digit_of_ascii y3 = Some c /\ digit_of_ascii y4 = Some d
    /\ digit_of_ascii m1 = Some e /\ digit_of_ascii m2 = Some f
    /\ digit_of_ascii d1 = Some g /\ digit_of_ascii d2 = Some h
    /\ dt = mk_date (1000 * a + 100 * b + 10 * c + d) (10 * e + f) (10 * g + h)
    /\ (1 <= year dt /\ 1 <= month dt <= 12
        /\ 1 <= day dt <= days_in_month (year dt) (month dt))%Z.
Proof.
  destruct s as [|y1 [|y2 [|y3 [|y4 [|h1 [|m1 [|m2 [|h2 [|d1 [|d2 [|? ?]]]]]]]]]]];
    try done.
  unfold parse_iso.
  destruct (Ascii.eqb h1 "-") eqn:Hh1; [|done].
  destruct (Ascii.eqb h2 "-") eqn:Hh2; [|done].
  apply Ascii.eqb_eq in Hh1 as ->. apply Ascii.eqb_eq in Hh2 as ->.
  cbn [andb].
  destruct (digit_of_ascii y1) as [a|] eqn:Hy1; [|done].
  destruct (digit_of_ascii y2) as [b|] eqn:Hy2; [|done].
  destruct (digit_of_ascii y3) as [c|] eqn:Hy3; [|done].
  destruct (digit_of_ascii y4) as [d|] eqn:Hy4; [|done].
  destruct (digit_of_ascii m1) as [e|] eqn:Hm1; [|done].
  destruct (digit_of_ascii m2) as [f|] eqn:Hm2; [|done].
  destruct (digit_of_ascii d1) as [g|] eqn:Hd1; [|done].
  destruct (digit_of_ascii d2) as [h|] eqn:Hd2; [|done].
  cbv zeta. destruct (_ && _) eqn:Hvalid; [|done]. intros [= <-].
  exists y1, y2, y3, y4, m1, m2, d1, d2, a, b, c, d, e, f, g, h.
  repeat (split; [done|]). cbn [year month day].
  repeat (apply andb_true_iff in Hvalid as [Hvalid ?]). lia.
Qed.

Ltac datetime_le_cases :=
  unfold datetime_le; cbn [year month day];
  repeat match goal with
         | |- context [(?x <? ?y)%Z] => destruct (Z.ltb_spec x y)
         | |- context [(?x =? ?y)%Z] => destruct (Z.eqb_spec x y)
         | |- context [(?x <=? ?y)%Z] => destruct (Z.leb_spec x y)
         end;
  cbn [orb andb]; first [reflexivity | exfalso; lia].

Lemma iso_leb (a b : string) (da db : datetime) :
  parse_iso a = Some da -> parse_iso b = Some db ->
  String.leb a b = datetime_le da db.
Proof.
  intros Ha Hb.
  apply parse_iso_inv in Ha
    as (y1 & y2 & y3 & y4 & m1 & m2 & d1 & d2 & a1 & a2 & a3 & a4 & a5 & a6 & a7 & a8
        & -> & Hy1 & Hy2 & Hy3 & Hy4 & Hm1 & Hm2 & Hd1 & Hd2 & -> & _).
  apply parse_iso_inv in Hb
    as (z1 & z2 & z3 & z4 & n1 & n2 & e1 & e2 & b1 & b2 & b3 & b4 & b5 & b6 & b7 & b8
        & -> & Hz1 & Hz2 & Hz3 & Hz4 & Hn1 & Hn2 & He1 & He2 & -> & _).
  repeat match goal with
         | H : digit_of_ascii _ = Some _ |- _ => apply digit_of_ascii_code in H
         end.
  unfold String.leb. cbn [String.compare].
  change (Ascii.compare "-" "-") with Eq. cbv iota.
  unfold Ascii.compare.
  repeat match goal with
         | |- context [N.compare (N_of_ascii ?x) (N_of_ascii ?y)] =>
             destruct (N.compare_spec (N_of_ascii x) (N_of_ascii y))
         end;
  datetime_le_cases.
Qed.

Lemma datetime_le_iff (a b : datetime) :
  datetime_le a b = true
  <-> (year a < year b
       \/ (year a = year b
           /\ (month a < month b \/ (month a = month b /\ day a <= day b))))%Z.
Proof.
  unfold datetime_le.
  repeat (rewrite orb_true_iff || rewrite andb_true_iff).
  rewrite !Z.ltb_lt, !Z.eqb_eq, Z.leb_le. reflexivity.
Qed.

Lemma datetime_le_refl (a : datetime) : datetime_le a a = true.
Proof. apply datetime_le_iff. lia. Qed.

Lemma datetime_le_total (a b : datetime) :
  datetime_le a b = false -> datetime_le b a = true.
Proof. rewrite <- not_true_iff_false, !datetime_le_iff. lia. Qed.

Lemma datetime_le_antisym (a b : datetime) :
  datetime_le a b = true -> datetime_le b a = true -> a = b.
Proof.
  rewrite !datetime_le_iff. destruct a as [y m d], b as [y' m' d']. cbn [year month day].
  intros H1 H2. assert (y = y' /\ m = m' /\ d = d')%Z as (-> & -> & ->) by lia. done.
Qed.

(** Two zero-padded strings that name the same date are the same. *)
Lemma parse_iso_inj (a b : string) (d : datetime) :
  parse_iso a = Some d -> parse_iso b = Some d -> a = b.
Proof.
  intros Ha Hb. apply String.leb_antisym.
  - by rewrite (iso_leb _ _ _ _ Ha Hb), datetime_le_refl.
  - by rewrite (iso_leb _ _ _ _ Hb Ha), datetime_le_refl.
Qed.

(** *** [strptime_ymd] reads zero-padded dates *)

Lemma digit_in_Some (lo hi : Z) (c : ascii) (v : Z) :
  digit_of_ascii c = Some v -> (lo <= v <= hi)%Z -> digit_in lo hi c = Some v.
Proof.
  intros Hc Hv. unfold digit_in. rewrite Hc.
  destruct (Z.leb_spec lo v), (Z.leb_spec v hi); simpl; [done|lia..].
Qed.

Lemma digit_in_None (lo hi : Z) (c : ascii) (v : Z) :
  digit_of_ascii c = Some v -> (v < lo \/ hi < v)%Z -> digit_in lo hi c = None.
Proof.
  intros Hc Hv. unfold digit_in. rewrite Hc.
  destruct (Z.leb_spec lo v), (Z.leb_spec v hi); simpl; [lia|done..].
Qed.

Lemma days_in_month_le_31 (y m : Z) : (days_in_month y m <= 31)%Z.
Proof.
  unfold days_in_month.
  destruct (m =? 2)%Z; [by destruct (is_leap y)|].
  by destruct (_ || _).
Qed.

Lemma read_month_iso (m1 m2 : ascii) (e f : Z) (rest : string) :
  digit_of_ascii m1 = Some e -> digit_of_ascii m2 = Some f ->
  (0 <= e <= 9)%Z -> (0 <= f <= 9)%Z -> (1 <= 10 * e + f <= 12)%Z ->
  read_month (String m1 (String m2 (String "-" rest))) = Some ((10 * e + f)%Z, rest).
Proof.
  intros Hm1 Hm2 He Hf Hm. unfold read_month.
  change (Ascii.eqb "-" "-") with true. cbv iota.
  assert ((e = 0 /\ 1 <= f) \/ (e = 1 /\ f <= 2))%Z as [[-> Hf']|[-> Hf']] by lia.
  - rewrite (digit_in_None 1 1 m1 0) by (done || lia).
    rewrite (digit_in_Some 0 0 m1 0), (digit_in_Some 1 9 m2 f) by (done || lia).
    done.
  - rewrite (digit_in_Some 1 1 m1 1), (digit_in_Some 0 2 m2 f) by (done || lia).
    done.
Qed.

Lemma read_day_iso (d1 d2 : ascii) (g h : Z) :
  digit_of_ascii d1 = Some g -> digit_of_ascii d2 = Some h ->
  (0 <= g <= 9)%Z -> (0 <= h <= 9)%Z -> (1 <= 10 * g + h <= 31)%Z ->
  read_day (String d1 (String d2 EmptyString)) = Some ((10 * g + h)%Z, EmptyString).
Proof.
  intros Hd1 Hd2 Hg Hh Hd. unfold read_day.
  assert ((g = 0 /\ 1 <= h) \/ (1 <= g <= 2) \/ (g = 3 /\ h <= 1))%Z
    as [[-> Hh']|[Hg'|[-> Hh']]] by lia.
  - rewrite (digit_in_None 3 3 d1 0), (digit_in_None 1 2 d1 0) by (done || lia).
    rewrite (digit_in_Some 0 0 d1 0), (digit_in_Some 1 9 d2 h) by (done || lia).
    by destruct (digit_in 0 1 d2), (digit_in 0 9 d2).
  - rewrite (digit_in_None 3 3 d1 g) by (done || lia).
    rewrite (digit_in_Some 1 2 d1 g), (digit_in_Some 0 9 d2 h) by (done || lia).
    by destruct (digit_in 0 1 d2).
  - rewrite (digit_in_Some 3 3 d1 3), (digit_in_Some 0 1 d2 h) by (done || lia).
    done.
Qed.

Lemma strptime_ymd_reads_iso_dates : reads_iso_dates strptime_ymd.
Proof.
  intros s dt Hs.
  apply parse_iso_inv in Hs
    as (y1 & y2 & y3 & y4 & m1 & m2 & d1 & d2 & a & b & c & d & e & f & g & h
        & -> & Hy1 & Hy2 & Hy3 & Hy4 & Hm1 & Hm2 & Hd1 & Hd2 & -> & Hy & Hm & Hd).
  cbn [year month day] in *.
  pose proof (days_in_month_le_31 (1000 * a + 100 * b + 10 * c + d) (10 * e + f)).
  unfold strptime_ymd. rewrite Hy1, Hy2, Hy3, Hy4.
  change (Ascii.eqb "-" "-") with true. cbv iota.
  apply digit_of_ascii_code in Hy1 as [_ ?], Hy2 as [_ ?], Hy3 as [_ ?], Hy4 as [_ ?].
  pose proof (digit_of_ascii_code _ _ Hm1) as [_ ?].
  pose proof (digit_of_ascii_code _ _ Hm2) as [_ ?].
  pose proof (digit_of_ascii_code _ _ Hd1) as [_ ?].
  pose proof (digit_of_ascii_code _ _ Hd2) as [_ ?].
  rewrite (read_month_iso m1 m2 e f) by (done || lia).
  rewrite (read_day_iso d1 d2 g h) by (done || lia).
  cbv zeta.
  destruct (Z.leb_spec 1 (1000 * a + 100 * b + 10 * c + d)); [|lia].
  destruct (Z.leb_spec (10 * g + h)
              (days_in_month (1000 * a + 100 * b + 10 * c + d) (10 * e + f))); [|lia].
  done.
Qed.

(** *** The sorted keys of a dict *)

Lemma sorted_keys_elem {V} (d : gmap string V) (k : string) :
  k ∈ sorted_keys d <-> is_Some (d !! k).
Proof.
  unfold sorted_keys. rewrite merge_sort_Permutation, list_elem_of_fmap. split.
  - intros ([k' v] & -> & Hkv). apply elem_of_map_to_list in Hkv. by exists v.
  - intros [v Hv]. exists (k, v). split; [done|]. by apply elem_of_map_to_list.
Qed.

Lemma sorted_keys_NoDup {V} (d : gmap string V) : NoDup (sorted_keys d).
Proof. unfold sorted_keys. rewrite merge_sort_Permutation. apply NoDup_fst_map_to_list. Qed.

Lemma sorted_keys_sorted {V} (d : gmap string V) : StronglySorted str_le (sorted_keys d).
Proof. apply StronglySorted_merge_sort; apply _. Qed.

(** *** The exchange rate of a date *)

Section FindRate.

Variable strptime : string -> option datetime.
Hypothesis strptime_iso : reads_iso_dates strptime.

Lemma py_strptime_iso (s : string) (d : datetime) :
  parse_iso s = Some d -> py_strptime strptime s = Ok d.
Proof. intros Hs. unfold py_strptime. by rewrite (strptime_iso _ _ Hs). Qed.

Lemma closest_previous_miss (R : gmap string float) (t : datetime) (dates : list string) :
  (forall k, k ∈ dates -> exists dk, parse_iso k = Some dk /\ datetime_le dk t = false) ->
  closest_previous strptime R t dates = Ok None.
Proof.
  induction dates as [|k dates IH]; intros Hall; simpl; [done|].
  destruct (Hall k) as (dk & Hk & Hle); [apply list_elem_of_here|].
  rewrite (py_strptime_iso _ _ Hk). res_simpl. rewrite Hle.
  apply IH. intros; by apply Hall, list_elem_of_further.
Qed.

Lemma closest_previous_hit (R : gmap string float) (t : datetime)
    (l1 l2 : list string) (k : string) (dk : datetime) (r : float) :
  (forall x, x ∈ l1 -> exists dx, parse_iso x = Some dx /\ datetime_le dx t = false) ->
  parse_iso k = Some dk -> datetime_le dk t = true -> R !! k = Some r ->
  closest_previous strptime R t (l1 ++ k :: l2) = Ok (Some r).
Proof.
  intros Hall Hk Hle Hr. induction l1 as [|x l1 IH]; simpl.
  - rewrite (py_strptime_iso _ _ Hk). res_simpl. rewrite Hle.
    unfold getitem. by rewrite Hr.
  - destruct (Hall x) as (dx & Hx & Hlex); [apply list_elem_of_here|].
    rewrite (py_strptime_iso _ _ Hx). res_simpl. rewrite Hlex.
    apply IH. intros; by apply Hall, list_elem_of_further.
Qed.

Lemma closest_previous_total (R : gmap string float) (t : datetime) (dates : list string) :
  (forall k, k ∈ dates -> is_Some (R !! k) /\ is_Some (parse_iso k)) ->
  exists o, closest_previous strptime R t dates = Ok o.
Proof.
  induction dates as [|k dates IH]; intros Hall; simpl; [eauto|].
  destruct (Hall k) as ([r Hr] & [dk Hk]); [apply list_elem_of_here|].
  rewrite (py_strptime_iso _ _ Hk). res_simpl.
  destruct (datetime_le dk t).
  - unfold getitem. rewrite Hr. res_simpl. eauto.
  - apply IH. intros; by apply Hall, list_elem_of_further.
Qed.

(** A key that is not the date asked for, and not earlier, is later. *)
Lemma key_not_earlier_is_later (R : gmap string float) (d k : string) (dd dk : datetime) :
  R !! d = None -> is_Some (R !! k) ->
  parse_iso d = Some dd -> parse_iso k = Some dk ->
  ~ earlier k d -> datetime_le dk dd = false.
Proof.
  intros Hd Hk Hpd Hpk Hnot.
  destruct (datetime_le dk dd) eqn:Hle; [|done].
  destruct Hnot. exists dk, dd. split; [done|]. split; [done|].
  destruct (datetime_le dd dk) eqn:Hge; [|done].
  assert (dk = dd) as -> by by apply datetime_le_antisym.
  assert (k = d) as -> by by eapply parse_iso_inj.
  rewrite Hd in Hk. by destruct Hk.
Qed.

(** [C6] With every key and the date asked for a zero-padded date, and a
    [strptime] that reads those: the rate of the date itself when it is a
    key; else the rate of the latest earlier key; else, when no key is
    earlier, [None]. No exception is raised. *)
Theorem find_exchange_rate_nearest_previous (d : string) (R : gmap string float) :
  is_Some (parse_iso d) ->
  (forall k, is_Some (R !! k) -> is_Some (parse_iso k)) ->
  (forall r, R !! d = Some r -> find_exchange_rate strptime d R = Ok (Some r))
  /\ (R !! d = None ->
      forall d' r',
        R !! d' = Some r' -> earlier d' d ->
        (forall k, is_Some (R !! k) -> earlier k d -> ~ earlier d' k) ->
        find_exchange_rate strptime d R = Ok (Some r'))
  /\ (R !! d = None ->
      (forall k, is_Some (R !! k) -> ~ earlier k d) ->
      find_exchange_rate strptime d R = Ok None)
  /\ exists o, find_exchange_rate strptime d R = Ok o.
Proof.
  intros [dd Hd] Hkeys. unfold find_exchange_rate. split; [|split; [|split]];
    [| | |destruct (R !! d) as [r|]; [eauto|];
          rewrite (py_strptime_iso _ _ Hd); res_simpl;
          apply closest_previous_total; intros k Hk;
          rewrite elem_of_reverse in Hk; apply sorted_keys_elem in Hk; auto].
  - by intros r ->.
  - intros Hnone d' r' Hd' (dd' & dd0 & Hpd' & Hpd & Hlt) Hmax.
    rewrite Hd in Hpd. injection Hpd as <-.
    rewrite Hnone, (py_strptime_iso _ _ Hd). res_simpl.
    assert (Hin : d' ∈ reverse (sorted_keys R)).
    { rewrite elem_of_reverse. apply sorted_keys_elem. eauto. }
    apply list_elem_of_split in Hin as (l1 & l2 & Hsplit). rewrite Hsplit.
    apply (closest_previous_hit R dd l1 l2 d' dd' r');
      [|done|by apply datetime_le_total|done].
    intros x Hx.
    assert (Hxkey : is_Some (R !! x)).
    { apply sorted_keys_elem. rewrite <- elem_of_reverse, Hsplit.
      apply elem_of_app. by left. }
    destruct (Hkeys x Hxkey) as [dx Hpx]. exists dx. split; [done|].
    eapply key_not_earlier_is_later; [done..|].
    intros Hearlier.
    assert (Hxd' : datetime_le dx dd' = true).
    { destruct (datetime_le dx dd') eqn:Hle; [done|].
      destruct (Hmax x Hxkey Hearlier). exists dd', dx. done. }
    assert (Hsorted : str_le d' x).
    { pose proof (sorted_keys_sorted R) as Hs.
      rewrite <- (reverse_involutive (sorted_keys R)), Hsplit in Hs.
      rewrite reverse_app, reverse_cons in Hs.
      apply (StronglySorted_app_1_elem_of _ _ _ d' x) in Hs; [done| |].
      - apply elem_of_app. right. apply list_elem_of_here.
      - by apply elem_of_reverse. }
    assert (x = d') as ->.
    { apply String.leb_antisym; [|done]. by rewrite (iso_leb _ _ _ _ Hpx Hpd'). }
    assert (Hnd : NoDup (l1 ++ d' :: l2)).
    { rewrite <- Hsplit, reverse_Permutation. apply sorted_keys_NoDup. }
    apply NoDup_app in Hnd as (_ & Hnd & _). apply (Hnd d' Hx), list_elem_of_here.
  - intros Hnone Hno.
    rewrite Hnone, (py_strptime_iso _ _ Hd). res_simpl.
    apply closest_previous_miss. intros k Hk.
    rewrite elem_of_reverse in Hk. apply sorted_keys_elem in Hk.
    destruct (Hkeys k Hk) as [dk Hpk]. exists dk. split; [done|].
    eapply key_not_earlier_is_later; [done..|]. by apply Hno.
Qed.

End FindRate.

(** Outside zero-padded dates the result above is lost. The keys are
    sorted as strings, so with months written without the zero the scan
    meets September before October and answers with the older rate. *)
Remark find_exchange_rate_unpadded_keys (strptime : string -> option datetime)
    (october september : float) :
  strptime "2018-11-01" = Some (mk_date 2018 11 1) ->
  strptime "2018-9-01" = Some (mk_date 2018 9 1) ->
  find_exchange_rate strptime "2018-11-01"
    {[ "2018-10-01" := october; "2018-9-01" := september ]}
  = Ok (Some september).
Proof.
  intros Hnov Hsep. unfold find_exchange_rate.
  rewrite lookup_insert_ne, lookup_singleton_ne by done.
  unfold py_strptime. rewrite Hnov. res_simpl.
  replace (sorted_keys _) with ["2018-10-01"; "2018-9-01"] by (vm_compute; reflexivity).
  cbn [reverse rev_append closest_previous]. unfold py_strptime. rewrite Hsep. res_simpl.
  cbn. unfold getitem.
  by rewrite lookup_insert_ne, lookup_singleton_eq by done.
Qed.

Example october_rate_is_missed :
  find_exchange_rate strptime_ymd "2018-11-01"
    {[ "2018-10-01" := 20%float; "2018-9-01" := 19%float ]}
  = Ok (Some 19%float).
Proof. by apply find_exchange_rate_unpadded_keys. Qed.

(** A key [strptime] does not read makes the search raise, unless the
    date asked for is itself a key. *)
Remark find_exchange_rate_unread_key (strptime : string -> option datetime)
    (d k : string) (t : datetime) (r : float) :
  strptime d = Some t -> strptime k = None -> d <> k ->
  find_exchange_rate strptime d {[ k := r ]} = Raise ValueError.
Proof.
  intros Hd Hk Hne. unfold find_exchange_rate.
  rewrite lookup_singleton_ne by done.
  unfold py_strptime. rewrite Hd. res_simpl.
  replace (sorted_keys _) with [k].
  - cbn [reverse rev_append closest_previous]. unfold py_strptime. by rewrite Hk.
  - unfold sorted_keys. by rewrite map_to_list_singleton.
Qed.


(** *** The rows of the table *)

Section Rows.

Variable float_of_str : string -> option float.
Variable strptime : string -> option datetime.

Lemma date_prices_loop_lookup (date_data : gmap string (gmap string json_value))
    (cereals : list string) (date_prices : gmap string float) (c : string) (x : float) :
  date_prices_loop float_of_str date_data cereals date_prices !! c = Some x ->
  date_prices !! c = Some x \/ priced float_of_str date_data c x.
Proof.
  revert date_prices. induction cereals as [|cereal cereals IH]; intros date_prices; simpl;
    [auto|].
  destruct (date_data !! cereal) as [cereal_data|] eqn:Hdata; [|apply IH].
  destruct (float_of_json float_of_str (price_str cereal_data)) as [price_ars|e] eqn:Hprice;
    [|apply IH].
  destruct (float_gt price_ars 0) eqn:Hgt; [|apply IH].
  intros Hc. apply IH in Hc as [Hc|Hc]; [|by right].
  rewrite lookup_insert in Hc. case_decide as Heq; [|by left].
  injection Hc as <-. subst c. right. exists cereal_data. done.
Qed.

Lemma extract_lookup
    (pizarra : option (gmap string (gmap string (gmap string json_value))))
    (cereals : list string) (date : string) (date_prices : gmap string float)
    (c : string) (x : float) :
  extract_cereal_prices_by_date float_of_str pizarra cereals !! date = Some date_prices ->
  date_prices !! c = Some x ->
  exists date_data,
    default ∅ pizarra !! date = Some date_data /\ priced float_of_str date_data c x.
Proof.
  unfold extract_cereal_prices_by_date. rewrite lookup_omap.
  destruct (default ∅ pizarra !! date) as [date_data|]; simpl; [|done].
  case_decide; [done|]. intros [= <-] Hc.
  apply date_prices_loop_lookup in Hc as [Hc|Hc]; [by rewrite lookup_empty in Hc|].
  eauto.
Qed.

Lemma float_eq_0_0 : float_eq 0 0 = true.
Proof. reflexivity. Qed.

Lemma row_for_Some (date_str : string) (date_prices : gmap string float)
    (exchange_rate : float) (r : price_row) :
  row_for date_str date_prices exchange_rate = Ok (Some r) ->
  fecha r = date_str /\ tipo_cambio_usd r = exchange_rate
  /\ float_eq exchange_rate 0 = false
  /\ date_prices !! "maiz" = Some (maiz_ars r)
  /\ date_prices !! "trigo" = Some (trigo_ars r)
  /\ date_prices !! "soja" = Some (soja_ars r)
  /\ maiz_usd r = round2 (maiz_ars r / exchange_rate)%float
  /\ trigo_usd r = round2 (trigo_ars r / exchange_rate)%float
  /\ soja_usd r = round2 (soja_ars r / exchange_rate)%float.
Proof.
  unfold row_for, round2_div, float_div.
  destruct (date_prices !! "maiz") as [m|]; cbn [default];
    [|by rewrite float_eq_0_0].
  destruct (date_prices !! "trigo") as [t|]; cbn [default];
    [|by rewrite float_eq_0_0, orb_true_r].
  destruct (date_prices !! "soja") as [so|]; cbn [default];
    [|by rewrite float_eq_0_0, !orb_true_r].
  destruct (_ || _); [done|].
  destruct (float_eq exchange_rate 0); res_simpl; [done|].
  intros [= <-]. done.
Qed.

Lemma write_rows_spec (P : gmap string (gmap string float)) (R : gmap string float)
    (dates : list string) (written rows : list price_row) (raised : option exn) :
  write_rows strptime P R dates written = (rows, raised) ->
  exists new, rows = written ++ new /\ Forall (row_from strptime P R) new.
Proof.
  revert written. induction dates as [|date_str dates IH]; intros written; simpl.
  - intros [= <- <-]. exists []. by rewrite app_nil_r.
  - destruct (String.ltb date_str START_DATE) eqn:Hcut; [apply IH|].
    destruct (find_exchange_rate strptime date_str R) as [[exchange_rate|]|e] eqn:Hrate;
      [| apply IH | intros [= <- <-]; exists []; by rewrite app_nil_r].
    unfold getitem.
    destruct (P !! date_str) as [date_prices|] eqn:Hprices; res_simpl;
      [| intros [= <- <-]; exists []; by rewrite app_nil_r].
    destruct (row_for date_str date_prices exchange_rate) as [[r|]|e] eqn:Hrow;
      [| apply IH | intros [= <- <-]; exists []; by rewrite app_nil_r].
    intros Hrest. apply IH in Hrest as (new & -> & Hnew).
    exists (r :: new). split; [by rewrite <- app_assoc|].
    apply Forall_cons. split; [|done].
    apply row_for_Some in Hrow as (<- & <- & Hnz & Hm & Ht & Hs & Hmu & Htu & Hsu).
    unfold row_from. repeat split; try done. exists date_prices. done.
Qed.

Lemma load_exchange_rates_loop_lookup (data : list (string * json_value))
    (acc R : gmap string float) (k : string) (x : float) :
  load_exchange_rates_loop float_of_str data acc = Ok R ->
  R !! k = Some x ->
  acc !! k = Some x
  \/ exists v, (k, v) ∈ data /\ float_of_json float_of_str v = Ok x.
Proof.
  revert acc. induction data as [|[date_str rate] data IH]; intros acc; simpl.
  - intros [= <-]. auto.
  - destruct (float_of_json float_of_str rate) as [f|e] eqn:Hrate; res_simpl; [|done].
    intros Hload Hk. destruct (IH _ Hload Hk) as [Hacc|(v & Hv & Hx)].
    + rewrite lookup_insert in Hacc. case_decide as Heq; [|by left].
      injection Hacc as <-. subst k. right. exists rate. split; [apply list_elem_of_here|done].
    + right. exists v. split; [by apply list_elem_of_further|done].
Qed.

Lemma closest_previous_value (R : gmap string float) (t : datetime)
    (dates : list string) (x : float) :
  closest_previous strptime R t dates = Ok (Some x) -> exists k, R !! k = Some x.
Proof.
  induction dates as [|k dates IH]; simpl; [done|].
  destruct (py_strptime strptime k) as [dk|e]; res_simpl; [|done].
  destruct (datetime_le dk t); [|done].
  unfold getitem. destruct (R !! k) as [r|] eqn:Hk; res_simpl; [|done].
  intros [= <-]. eauto.
Qed.

Lemma find_exchange_rate_value (d : string) (R : gmap string float) (x : float) :
  find_exchange_rate strptime d R = Ok (Some x) -> exists k, R !! k = Some x.
Proof.
  unfold find_exchange_rate. destruct (R !! d) as [r|] eqn:Hd.
  - intros [= <-]. eauto.
  - destruct (py_strptime strptime d) as [t|e]; res_simpl; [|done].
    apply closest_previous_value.
Qed.

(** The rows of a run that opened the output file. *)
Lemma build_prices_csv_rows
    (pizarra : option (gmap string (gmap string (gmap string json_value))))
    (exchange_data : list (string * json_value))
    (header : list string) (rows : list price_row) (raised : option exn) :
  build_prices_csv float_of_str strptime pizarra exchange_data = File header rows raised ->
  header = HEADER
  /\ exists exchange_rates,
       load_exchange_rates float_of_str exchange_data = Ok exchange_rates
       /\ Forall (row_from strptime
                    (extract_cereal_prices_by_date float_of_str pizarra CEREALS)
                    exchange_rates) rows.
Proof.
  unfold build_prices_csv.
  destruct (load_exchange_rates float_of_str exchange_data) as [exchange_rates|e]; [|done].
  destruct (write_rows _ _ _ _ _) as [rows' raised'] eqn:Hwrite.
  intros [= <- <- <-]. split; [done|]. exists exchange_rates. split; [done|].
  by apply write_rows_spec in Hwrite as (new & -> & Hnew).
Qed.

(** [C7] Every row written is for a date not before the cut-off (in the
    order of strings, which for a zero-padded date is the order of the
    calendar), with a rate found for it and, for each of the three
    cereals, a price read from the input that is above zero. So a date
    before the cut-off, or without a rate, or with a cereal that has no
    price above zero, has no row. *)
Theorem built_rows_are_complete
    (pizarra : option (gmap string (gmap string (gmap string json_value))))
    (exchange_data : list (string * json_value))
    (header : list string) (rows : list price_row) (raised : option exn) :
  build_prices_csv float_of_str strptime pizarra exchange_data = File header rows raised ->
  (forall r, r ∈ rows ->
     String.ltb (fecha r) START_DATE = false
     /\ (forall d, parse_iso (fecha r) = Some d -> datetime_le (mk_date 2018 7 1) d = true)
     /\ (exists exchange_rates,
           load_exchange_rates float_of_str exchange_data = Ok exchange_rates
           /\ find_exchange_rate strptime (fecha r) exchange_rates
              = Ok (Some (tipo_cambio_usd r)))
     /\ (exists date_data,
           default ∅ pizarra !! fecha r = Some date_data
           /\ priced float_of_str date_data "maiz" (maiz_ars r)
           /\ priced float_of_str date_data "trigo" (trigo_ars r)
           /\ priced float_of_str date_data "soja" (soja_ars r))
     /\ float_gt (maiz_ars r) 0 = true
     /\ float_gt (trigo_ars r) 0 = true
     /\ float_gt (soja_ars r) 0 = true)
  /\ (forall date,
        (String.ltb date START_DATE = true
         \/ (forall exchange_rates x,
               load_exchange_rates float_of_str exchange_data = Ok exchange_rates ->
               find_exchange_rate strptime date exchange_rates <> Ok (Some x))
         \/ (exists c, c ∈ CEREALS
               /\ forall date_data x,
                    default ∅ pizarra !! date = Some date_data ->
                    ~ priced float_of_str date_data c x)) ->
        forall r, r ∈ rows -> fecha r <> date).
Proof.
  intros Hrun. apply build_prices_csv_rows in Hrun as (-> & R & Hload & Hrows).
  rewrite Forall_forall in Hrows.
  assert (Hrow : forall r, r ∈ rows ->
    String.ltb (fecha r) START_DATE = false
    /\ find_exchange_rate strptime (fecha r) R = Ok (Some (tipo_cambio_usd r))
    /\ exists date_data,
         default ∅ pizarra !! fecha r = Some date_data
         /\ priced float_of_str date_data "maiz" (maiz_ars r)
         /\ priced float_of_str date_data "trigo" (trigo_ars r)
         /\ priced float_of_str date_data "soja" (soja_ars r)).
  { intros r Hr.
    destruct (Hrows r Hr) as (Hcut & Hrate & _ & (dp & Hdp & Hm & Ht & Hs) & _).
    split; [done|]. split; [done|].
    destruct (extract_lookup _ _ _ _ _ _ Hdp Hm) as (date_data & Hdata & Hpm).
    destruct (extract_lookup _ _ _ _ _ _ Hdp Ht) as (date_data' & Hdata' & Hpt).
    destruct (extract_lookup _ _ _ _ _ _ Hdp Hs) as (date_data'' & Hdata'' & Hps).
    rewrite Hdata in Hdata', Hdata''. injection Hdata' as <-. injection Hdata'' as <-.
    exists date_data. done. }
  split.
  - intros r Hr. destruct (Hrow r Hr) as (Hcut & Hrate & date_data & Hdata & Hm & Ht & Hs).
    split; [done|]. split.
    { intros d Hd.
      rewrite <- (iso_leb START_DATE (fecha r) (mk_date 2018 7 1) d eq_refl Hd).
      unfold String.leb. unfold String.ltb in Hcut.
      rewrite String.compare_antisym. by destruct (String.compare (fecha r) START_DATE). }
    split; [eauto|]. split; [eauto|].
    destruct Hm as (? & _ & _ & Hm), Ht as (? & _ & _ & Ht), Hs as (? & _ & _ & Hs). done.
  - intros date Hexcl r Hr <-.
    destruct (Hrow r Hr) as (Hcut & Hrate & date_data & Hdata & Hm & Ht & Hs).
    destruct Hexcl as [Hbefore|[Hnorate|(c & Hc & Hnoprice)]].
    + congruence.
    + by eapply Hnorate.
    + unfold CEREALS in Hc.
      repeat (apply elem_of_cons in Hc as [->|Hc]; [by eapply Hnoprice|]).
      by apply elem_of_nil in Hc.
Qed.

(** [C3], as the code has it. The three dollar prices of a row are
    [round(price / rate, 2)]. The peso prices and the rate are the floats
    the input gave, written as read: each peso price is what [float] read
    from the price of its cereal, and the rate is what [float] read from a
    rate of the exchange data. *)
Theorem only_dollar_prices_are_rounded
    (pizarra : option (gmap string (gmap string (gmap string json_value))))
    (exchange_data : list (string * json_value))
    (header : list string) (rows : list price_row) (raised : option exn) :
  build_prices_csv float_of_str strptime pizarra exchange_data = File header rows raised ->
  header = HEADER
  /\ forall r, r ∈ rows ->
       maiz_usd r = round2 (maiz_ars r / tipo_cambio_usd r)%float
       /\ trigo_usd r = round2 (trigo_ars r / tipo_cambio_usd r)%float
       /\ soja_usd r = round2 (soja_ars r / tipo_cambio_usd r)%float
       /\ (exists date_data,
             default ∅ pizarra !! fecha r = Some date_data
             /\ priced float_of_str date_data "maiz" (maiz_ars r)
             /\ priced float_of_str date_data "trigo" (trigo_ars r)
             /\ priced float_of_str date_data "soja" (soja_ars r))
       /\ (exists k v,
             (k, v) ∈ exchange_data
             /\ float_of_json float_of_str v = Ok (tipo_cambio_usd r)).
Proof.
  intros Hrun. apply build_prices_csv_rows in Hrun as (-> & R & Hload & Hrows).
  split; [done|]. intros r Hr. rewrite Forall_forall in Hrows.
  destruct (Hrows r Hr) as (_ & Hrate & _ & (dp & Hdp & Hm & Ht & Hs) & Hmu & Htu & Hsu).
  split; [done|]. split; [done|]. split; [done|]. split.
  - destruct (extract_lookup _ _ _ _ _ _ Hdp Hm) as (date_data & Hdata & Hpm).
    destruct (extract_lookup _ _ _ _ _ _ Hdp Ht) as (date_data' & Hdata' & Hpt).
    destruct (extract_lookup _ _ _ _ _ _ Hdp Hs) as (date_data'' & Hdata'' & Hps).
    rewrite Hdata in Hdata', Hdata''. injection Hdata' as <-. injection Hdata'' as <-.
    exists date_data. done.
  - apply find_exchange_rate_value in Hrate as (k & Hk).
    destruct (load_exchange_rates_loop_lookup _ _ _ _ _ Hload Hk) as [Hempty|(v & Hv & Hx)].
    + by rewrite lookup_empty in Hempty.
    + eauto.
Qed.

End Rows.

(** *** The example input *)

#[local] Set Warnings "-inexact-float".

Lemma example_table_built :
  build_prices_csv float_of_decimal strptime_ymd (Some pizarra_example) exchange_example
  = File HEADER table_example None.
Proof. vm_compute. reflexivity. Qed.

(** [C3], as stated, fails on the example input: the row written has the
    maize price 100.123 and the rate 7.125 as read, and rounding either to
    two decimals gives another number. *)
Lemma peso_price_and_rate_keep_their_decimals :
  build_prices_csv float_of_decimal strptime_ymd (Some pizarra_example) exchange_example
  = File HEADER [mk_row "2020-01-02" 100.123 200 300 7.125 14.05 28.07 42.11] None
  /\ round2 100.123 = 100.12%float /\ is_rounded2 100.123 = false
  /\ round2 7.125 = 7.12%float /\ is_rounded2 7.125 = false.
Proof. repeat split; vm_compute; reflexivity. Qed.

Lemma only_dollar_prices_are_rounded_witness :
  maiz_usd row_example = round2 (maiz_ars row_example / tipo_cambio_usd row_example)%float
  /\ trigo_usd row_example
     = round2 (trigo_ars row_example / tipo_cambio_usd row_example)%float
  /\ soja_usd row_example
     = round2 (soja_ars row_example / tipo_cambio_usd row_example)%float.
Proof.
  destruct (only_dollar_prices_are_rounded float_of_decimal strptime_ymd
              (Some pizarra_example) exchange_example HEADER table_example None
              example_table_built) as [_ Hrows].
  destruct (Hrows row_example) as (Hm & Ht & Hs & _); [apply list_elem_of_here|].
  done.
Defined.

Lemma built_rows_are_complete_witness :
  String.ltb (fecha row_example) START_DATE = false
  /\ float_gt (maiz_ars row_example) 0 = true
  /\ float_gt (trigo_ars row_example) 0 = true
  /\ float_gt (soja_ars row_example) 0 = true.
Proof.
  destruct (built_rows_are_complete float_of_decimal strptime_ymd
              (Some pizarra_example) exchange_example HEADER table_example None
              example_table_built) as [Hrows _].
  destruct (Hrows row_example) as (Hcut & _ & _ & _ & Hm & Ht & Hs);
    [apply list_elem_of_here|].
  done.
Defined.

Lemma find_exchange_rate_nearest_previous_witness :
  find_exchange_rate strptime_ymd "2020-01-04" rates_example = Ok (Some 60%float)
  /\ find_exchange_rate strptime_ymd "2020-01-06" rates_example = Ok (Some 61%float).
Proof.
  assert (Hkeys : forall k, is_Some (rates_example !! k) -> is_Some (parse_iso k)).
  { intros k [v Hk]. unfold rates_example in Hk.
    repeat (apply lookup_insert_Some in Hk as [[<- _]|[_ Hk]]; [by eexists|]).
    apply lookup_singleton_Some in Hk as [<- _]. by eexists. }
  split.
  - destruct (find_exchange_rate_nearest_previous strptime_ymd strptime_ymd_reads_iso_dates
                "2020-01-04" rates_example) as (_ & Hprev & _); [by eexists|done|].
    apply (Hprev eq_refl "2020-01-02" 60%float eq_refl).
    + eexists _, _. repeat split; reflexivity.
    + intros k [v Hk] (dk & dd & Hdk & Hdd & Hlt) (da & dk' & Hda & Hdk' & Hle).
      injection Hda as <-. injection Hdd as <-. rewrite Hdk in Hdk'. injection Hdk' as <-.
      unfold rates_example in Hk.
      repeat (apply lookup_insert_Some in Hk as [[<- _]|[_ Hk]];
              [vm_compute in Hdk; injection Hdk as <-;
               vm_compute in Hlt, Hle; discriminate|]).
      apply lookup_singleton_Some in Hk as [<- _].
      vm_compute in Hdk; injection Hdk as <-; vm_compute in Hlt, Hle; discriminate.
  - destruct (find_exchange_rate_nearest_previous strptime_ymd strptime_ymd_reads_iso_dates
                "2020-01-06" rates_example) as (Hkey & _); [by eexists|done|].
    by apply Hkey.
Defined.

(** *** The loaders, the search and the run, in full *)

Section WholeRun.

Variable float_of_str : string -> option float.
Variable strptime : string -> option datetime.

Lemma load_exchange_rates_loop_Ok (data : list (string * json_value))
    (acc R : gmap string float) (k : string) (x : float) :
  load_exchange_rates_loop float_of_str data acc = Ok R ->
  R !! k = Some x
  <-> (exists l1 v l2,
         data = l1 ++ (k, v) :: l2 /\ (k ∉ l2.*1)
         /\ float_of_json float_of_str v = Ok x)
      \/ ((k ∉ data.*1) /\ acc !! k = Some x).
Proof.
  revert acc. induction data as [|[k0 v0] data IH]; intros acc; simpl.
  - intros [= <-]. split.
    + intros Hk. right. split; [apply not_elem_of_nil|done].
    + intros [(l1 & v & l2 & Hnil & _)|[_ Hk]]; [by destruct l1|done].
  - destruct (float_of_json float_of_str v0) as [f|e] eqn:Hv0; res_simpl; [|done].
    intros Hload. rewrite (IH _ Hload). split.
    + intros [(l1 & v & l2 & -> & Hlast & Hv)|[Hnot Hacc]].
      * left. exists ((k0, v0) :: l1), v, l2. done.
      * rewrite lookup_insert in Hacc. case_decide as Heq.
        -- injection Hacc as <-. subst k0. left. exists [], v0, data. done.
        -- right. split; [|done]. rewrite not_elem_of_cons. done.
    + intros [(l1 & v & l2 & Hdata & Hlast & Hv)|[Hnot Hacc]].
      * destruct l1 as [|p l1]; simpl in Hdata.
        -- injection Hdata as <- <- <-. right. split; [done|].
           rewrite lookup_insert_eq. congruence.
        -- injection Hdata as <- ->. left. exists l1, v, l2. done.
      * apply not_elem_of_cons in Hnot as [Hne Hnot]. right. split; [done|].
        by rewrite lookup_insert_ne.
Qed.


(** [X1] The rate table has, for each date of the exchange data, the float of
    the last pair with that date, and nothing else. *)
Theorem load_exchange_rates_last_pair_wins (data : list (string * json_value))
    (R : gmap string float) :
  load_exchange_rates float_of_str data = Ok R ->
  forall k x,
    R !! k = Some x
    <-> exists l1 v l2,
          data = l1 ++ (k, v) :: l2 /\ (k ∉ l2.*1)
          /\ float_of_json float_of_str v = Ok x.
Proof.
  intros Hload k x. unfold load_exchange_rates in Hload.
  rewrite (load_exchange_rates_loop_Ok _ _ _ k x Hload). split; [|auto].
  intros [H|[_ Hempty]]; [done|]. by rewrite lookup_empty in Hempty.
Qed.


Lemma priced_fun (date_data : gmap string (gmap string json_value))
    (c : string) (x y : float) :
  priced float_of_str date_data c x -> priced float_of_str date_data c y -> x = y.
Proof.
  intros (cd & Hcd & Hx & _) (cd' & Hcd' & Hy & _). congruence.
Qed.

Lemma date_prices_loop_iff (date_data : gmap string (gmap string json_value))
    (cereals : list string) (date_prices : gmap string float) (c : string) (x : float) :
  (forall c x, date_prices !! c = Some x -> priced float_of_str date_data c x) ->
  date_prices_loop float_of_str date_data cereals date_prices !! c = Some x
  <-> date_prices !! c = Some x \/ (c ∈ cereals /\ priced float_of_str date_data c x).
Proof.
  revert date_prices. induction cereals as [|cereal cereals IH]; intros date_prices Hinv; simpl.
  - split; [auto|]. intros [H|[H _]]; [done|]. by apply elem_of_nil in H.
  - assert (Hskip :
      (forall y, ~ priced float_of_str date_data cereal y) ->
      date_prices_loop float_of_str date_data cereals date_prices !! c = Some x
      <-> date_prices !! c = Some x
          \/ (c ∈ cereal :: cereals /\ priced float_of_str date_data c x)).
    { intros Hnot. rewrite (IH _ Hinv). split.
      - intros [H|[H1 H2]]; [by left|]. right. split; [by apply list_elem_of_further|done].
      - intros [H|[H1 H2]]; [by left|]. right. split; [|done].
        apply elem_of_cons in H1 as [->|H1]; [|done]. by destruct (Hnot x). }
    destruct (date_data !! cereal) as [cereal_data|] eqn:Hdata;
      [|apply Hskip; intros y (cd & Hcd & _); congruence].
    destruct (float_of_json float_of_str (price_str cereal_data)) as [price_ars|e] eqn:Hprice;
      [|apply Hskip; intros y (cd & Hcd & Hy & _); congruence].
    destruct (float_gt price_ars 0) eqn:Hgt;
      [|apply Hskip; intros y (cd & Hcd & Hy & Hgty); congruence].
    assert (Hp : priced float_of_str date_data cereal price_ars) by by exists cereal_data.
    rewrite IH.
    + rewrite lookup_insert. case_decide as Heq.
      * subst c. split.
        -- intros [[= <-]|[H1 H2]]; right;
             (split; [apply list_elem_of_here || by apply list_elem_of_further|done]).
        -- intros [H|[_ H]]; left; f_equal; eapply priced_fun; eauto.
      * rewrite elem_of_cons. split; [|intros [H|[[H|H] H2]]; [by left|congruence|by right]].
        intros [H|[H1 H2]]; [by left|]. right. auto.
    + intros c' x'. rewrite lookup_insert. case_decide as Heq; [|apply Hinv].
      intros [= <-]. by subst c'.
Qed.


Lemma ltb_not_leb (a b : string) : String.ltb a b = true -> String.leb b a = false.
Proof.
  unfold String.ltb, String.leb. rewrite (String.compare_antisym a b).
  by destruct (String.compare b a).
Qed.

Lemma ltb_irrefl (a : string) : String.ltb a a = false.
Proof.
  unfold String.ltb. pose proof (String.compare_antisym a a) as H.
  destruct (String.compare a a); simpl in H; done.
Qed.

Lemma leb_ne_ltb (a b : string) : String.leb a b = true -> a <> b -> String.ltb a b = true.
Proof.
  unfold String.ltb, String.leb. destruct (String.compare a b) eqn:Hab; try done.
  apply String.compare_eq_iff in Hab. done.
Qed.

Lemma sorted_keys_ascending {V} (d : gmap string V) :
  StronglySorted (fun a b => String.ltb a b = true) (sorted_keys d).
Proof.
  pose proof (sorted_keys_sorted d) as Hs. pose proof (sorted_keys_NoDup d) as Hn.
  induction Hs as [|k l Hs IH Hall]; [constructor|].
  apply NoDup_cons in Hn as [Hk Hn]. constructor; [by apply IH|].
  rewrite Forall_forall in Hall |- *. intros k' Hk'.
  apply leb_ne_ltb; [by apply Hall|]. intros ->. done.
Qed.

(** The keys tried before a key of the reversed sorted list are the keys
    above it. *)
Lemma keys_tried_before {V} (d : gmap string V) (l1 l2 : list string) (k k' : string) :
  reverse (sorted_keys d) = l1 ++ k :: l2 ->
  is_Some (d !! k') -> String.ltb k k' = true -> k' ∈ l1.
Proof.
  intros Hrev Hk' Hlt.
  assert (Hsort : sorted_keys d = reverse l2 ++ k :: reverse l1).
  { rewrite <- (reverse_involutive (sorted_keys d)), Hrev.
    rewrite reverse_app, reverse_cons, <- app_assoc. done. }
  apply sorted_keys_elem in Hk'. rewrite Hsort in Hk'.
  pose proof (sorted_keys_ascending d) as Hasc. rewrite Hsort in Hasc.
  apply elem_of_app in Hk' as [Hk'|Hk'].
  - assert (String.ltb k' k = true) as Hgt.
    { apply (StronglySorted_app_1_elem_of _ _ _ _ _ Hasc Hk'), list_elem_of_here. }
    apply ltb_not_leb in Hgt. unfold String.ltb, String.leb in *.
    by destruct (String.compare k k').
  - apply elem_of_cons in Hk' as [->|Hk']; [|by apply elem_of_reverse].
    by rewrite ltb_irrefl in Hlt.
Qed.

(** The three ways the look-back loop ends. *)
Lemma closest_previous_result (R : gmap string float) (t : datetime) (dates : list string) :
  match closest_previous strptime R t dates with
  | Ok (Some x) =>
      exists l1 k l2 dk,
        dates = l1 ++ k :: l2
        /\ Forall (fun k' => exists dk', strptime k' = Some dk' /\ datetime_le dk' t = false) l1
        /\ strptime k = Some dk /\ datetime_le dk t = true /\ R !! k = Some x
  | Ok None =>
      Forall (fun k' => exists dk', strptime k' = Some dk' /\ datetime_le dk' t = false) dates
  | Raise e =>
      (e = ValueError /\ exists k, k ∈ dates /\ strptime k = None)
      \/ (e = KeyError /\ exists k, k ∈ dates /\ R !! k = None)
  end.
Proof.
  induction dates as [|k dates IH]; simpl; [constructor|].
  unfold py_strptime. destruct (strptime k) as [dk|] eqn:Hk; res_simpl.
  - destruct (datetime_le dk t) eqn:Hle.
    + unfold getitem. destruct (R !! k) as [x|] eqn:Hx; res_simpl.
      * exists [], k, dates, dk. done.
      * right. split; [done|]. exists k. split; [apply list_elem_of_here|done].
    + destruct (closest_previous strptime R t dates) as [[x|]|e].
      * destruct IH as (l1 & k0 & l2 & dk0 & -> & Hl1 & H).
        exists (k :: l1), k0, l2, dk0. split; [done|]. split; [|done].
        constructor; [by exists dk|done].
      * constructor; [by exists dk|done].
      * destruct IH as [[-> (k0 & Hin & H)]|[-> (k0 & Hin & H)]]; [left|right];
          (split; [done|]; exists k0; split; [by apply list_elem_of_further|done]).
  - left. split; [done|]. exists k. split; [apply list_elem_of_here|done].
Qed.

(** [X4] Whatever the strings are: a rate returned is that of the date itself,
    or else that of the highest key, in the order of strings, that
    [strptime] reads as a day not after the date, with every key above it
    read as a later day; [None] is returned only when the date is no key
    and every key is read as a later day; and the only exception is
    [ValueError], for a date that is no key when it or some key is not
    read. [KeyError] is never raised. *)
Theorem find_exchange_rate_result (date_str : string) (R : gmap string float) :
  match find_exchange_rate strptime date_str R with
  | Ok (Some x) =>
      R !! date_str = Some x
      \/ (R !! date_str = None
          /\ exists t k dk,
               strptime date_str = Some t /\ R !! k = Some x
               /\ strptime k = Some dk /\ datetime_le dk t = true
               /\ forall k', is_Some (R !! k') -> String.ltb k k' = true ->
                    exists dk', strptime k' = Some dk' /\ datetime_le dk' t = false)
  | Ok None =>
      R !! date_str = None
      /\ exists t,
           strptime date_str = Some t
           /\ forall k, is_Some (R !! k) ->
                exists dk, strptime k = Some dk /\ datetime_le dk t = false
  | Raise e =>
      e = ValueError /\ R !! date_str = None
      /\ (strptime date_str = None \/ exists k, is_Some (R !! k) /\ strptime k = None)
  end.
Proof.
  unfold find_exchange_rate. destruct (R !! date_str) as [x|] eqn:Hd; [by left|].
  unfold py_strptime. destruct (strptime date_str) as [t|] eqn:Ht; res_simpl; [|auto].
  pose proof (closest_previous_result R t (reverse (sorted_keys R))) as Hres.
  destruct (closest_previous strptime R t (reverse (sorted_keys R))) as [[x|]|e].
  - destruct Hres as (l1 & k & l2 & dk & Hrev & Hl1 & Hk & Hle & Hx).
    right. split; [done|]. exists t, k, dk. repeat split; try done.
    intros k' Hk' Hlt. rewrite Forall_forall in Hl1. apply Hl1.
    by apply (keys_tried_before R l1 l2 k k').
  - split; [done|]. exists t. split; [done|]. intros k Hk.
    rewrite Forall_forall in Hres. apply Hres, elem_of_reverse, sorted_keys_elem, Hk.
  - destruct Hres as [[-> (k & Hin & Hk)]|[-> (k & Hin & Hk)]].
    + split; [done|]. split; [done|]. right. exists k. split; [|done].
      by apply sorted_keys_elem, elem_of_reverse.
    + apply elem_of_reverse, sorted_keys_elem in Hin. rewrite Hk in Hin. by destruct Hin.
Qed.

Lemma float_gt_0_ne_0 (x : float) : float_gt x 0 = true -> float_eq x 0 = false.
Proof.
  unfold float_gt, float_eq. rewrite FloatAxioms.ltb_spec, FloatAxioms.eqb_spec.
  replace (Prim2SF 0) with (SpecFloat.S754_zero false) by reflexivity.
  destruct (Prim2SF x) as [sg|sg| |sg m e]; try destruct sg; cbn; congruence.
Qed.

Lemma find_exchange_rate_raises (date_str : string) (R : gmap string float) (e : exn) :
  find_exchange_rate strptime date_str R = Raise e ->
  e = ValueError
  /\ (strptime date_str = None \/ exists k, is_Some (R !! k) /\ strptime k = None).
Proof.
  unfold find_exchange_rate. destruct (R !! date_str) as [x|] eqn:Hd; [done|].
  unfold py_strptime. destruct (strptime date_str) as [t|] eqn:Ht; res_simpl;
    [|intros [= <-]; auto].
  pose proof (closest_previous_result R t (reverse (sorted_keys R))) as Hres.
  intros Hraise. rewrite Hraise in Hres.
  destruct Hres as [[-> (k & Hin & Hk)]|[-> (k & Hin & Hk)]].
  - split; [done|]. right. exists k. split; [|done].
    by apply sorted_keys_elem, elem_of_reverse.
  - apply elem_of_reverse, sorted_keys_elem in Hin. rewrite Hk in Hin. by destruct Hin.
Qed.


(** [row_for] with the three prices there and none of them zero. *)
Lemma row_for_priced (date_str : string) (date_prices : gmap string float)
    (rate m t so : float) :
  date_prices !! "maiz" = Some m -> date_prices !! "trigo" = Some t ->
  date_prices !! "soja" = Some so ->
  float_eq m 0 = false -> float_eq t 0 = false -> float_eq so 0 = false ->
  row_for date_str date_prices rate
  = if float_eq rate 0 then Raise ZeroDivisionError
    else Ok (Some (mk_row date_str m t so rate (round2 (m / rate)) (round2 (t / rate))
                     (round2 (so / rate)))).
Proof.
  intros Hm Ht Hs Hmz Htz Hsz. unfold row_for, round2_div, float_div.
  rewrite Hm, Ht, Hs. cbn [default id]. rewrite Hmz, Htz, Hsz. cbn [orb].
  destruct (float_eq rate 0); res_simpl; done.
Qed.

Lemma row_for_raises (date_str : string) (date_prices : gmap string float)
    (rate : float) (e : exn) :
  row_for date_str date_prices rate = Raise e ->
  e = ZeroDivisionError /\ float_eq rate 0 = true.
Proof.
  unfold row_for, round2_div, float_div. destruct (_ || _); [done|].
  destruct (float_eq rate 0); res_simpl; [|done]. by intros [= <-].
Qed.

Lemma write_rows_sorted (P : gmap string (gmap string float)) (R : gmap string float)
    (dates : list string) (written rows : list price_row) (raised : option exn) :
  StronglySorted (fun a b => String.ltb a b = true) dates ->
  write_rows strptime P R dates written = (rows, raised) ->
  exists new,
    rows = written ++ new /\ StronglySorted fecha_lt new
    /\ Forall (fun r => fecha r ∈ dates) new.
Proof.
  intros Hsorted. revert written.
  induction Hsorted as [|date_str dates Hsorted IH Hall]; intros written; simpl.
  - intros [= <- <-]. exists []. rewrite app_nil_r. repeat constructor.
  - assert (Hnext : forall w,
      write_rows strptime P R dates w = (rows, raised) ->
      exists new, rows = w ++ new /\ StronglySorted fecha_lt new
                  /\ Forall (fun r => fecha r ∈ date_str :: dates) new).
    { intros w Hw. destruct (IH _ Hw) as (new & -> & Hnew & Hin).
      exists new. repeat split; [done|].
      eapply Forall_impl; [exact Hin|]. intros r Hr. by apply list_elem_of_further. }
    assert (Hstop : (written, raised) = (rows, raised) ->
      exists new, rows = written ++ new /\ StronglySorted fecha_lt new
                  /\ Forall (fun r => fecha r ∈ date_str :: dates) new).
    { intros [= <-]. exists []. rewrite app_nil_r. repeat constructor. }
    destruct (String.ltb date_str START_DATE); [apply Hnext|].
    destruct (find_exchange_rate strptime date_str R) as [[exchange_rate|]|e];
      [| apply Hnext | intros [= <- <-]; by apply Hstop].
    unfold getitem.
    destruct (P !! date_str) as [date_prices|]; res_simpl;
      [| intros [= <- <-]; by apply Hstop].
    destruct (row_for date_str date_prices exchange_rate) as [[r|]|e] eqn:Hrow;
      [| apply Hnext | intros [= <- <-]; by apply Hstop].
    intros Hrest. apply IH in Hrest as (new & -> & Hnew & Hin).
    apply row_for_Some in Hrow as (Hfecha & _).
    exists (r :: new). split; [by rewrite <- app_assoc|]. split.
    + constructor; [done|]. rewrite Forall_forall in Hin. rewrite Forall_forall in Hall.
      rewrite Forall_forall.
      intros r' Hr'. unfold fecha_lt. rewrite Hfecha. by apply Hall, Hin.
    + constructor; [rewrite Hfecha; apply list_elem_of_here|].
      eapply Forall_impl; [exact Hin|]. intros r' Hr'. by apply list_elem_of_further.
Qed.

Lemma write_rows_raised (P : gmap string (gmap string float)) (R : gmap string float)
    (dates : list string) (written rows : list price_row) (e : exn) :
  (forall d, d ∈ dates -> is_Some (P !! d)) ->
  write_rows strptime P R dates written = (rows, Some e) ->
  (e = ValueError
   /\ exists s, (s ∈ dates \/ is_Some (R !! s)) /\ strptime s = None)
  \/ (e = ZeroDivisionError /\ exists k x, R !! k = Some x /\ float_eq x 0 = true).
Proof.
  revert written. induction dates as [|date_str dates IH]; intros written Hkeys; simpl;
    [done|].
  assert (Hnext : forall w,
    write_rows strptime P R dates w = (rows, Some e) ->
    (e = ValueError
     /\ exists s, (s ∈ date_str :: dates \/ is_Some (R !! s)) /\ strptime s = None)
    \/ (e = ZeroDivisionError /\ exists k x, R !! k = Some x /\ float_eq x 0 = true)).
  { intros w Hw. apply IH in Hw as [(-> & s & [Hs|Hs] & Hnone)|H];
      [left; split; [done|]; exists s; split; [left; by apply list_elem_of_further|done]
      |left; split; [done|]; exists s; auto
      |by right
      |intros; by apply Hkeys, list_elem_of_further]. }
  destruct (String.ltb date_str START_DATE); [apply Hnext|].
  destruct (find_exchange_rate strptime date_str R) as [[exchange_rate|]|e'] eqn:Hrate;
    [| apply Hnext |].
  - unfold getitem. destruct (Hkeys date_str) as [date_prices Hprices];
      [apply list_elem_of_here|]. rewrite Hprices. res_simpl.
    destruct (row_for date_str date_prices exchange_rate) as [[r|]|e'] eqn:Hrow;
      [apply Hnext..|].
    intros [= <- <-]. right. apply row_for_raises in Hrow as [-> Hzero]. split; [done|].
    apply find_exchange_rate_value in Hrate as [k Hk]. eauto.
  - intros [= <- <-]. apply find_exchange_rate_raises in Hrate as [-> [Hd|(k & Hk & Hnone)]];
      left; (split; [done|]).
    + exists date_str. split; [left; apply list_elem_of_here|done].
    + exists k. auto.
Qed.


Lemma write_rows_has_row (P : gmap string (gmap string float)) (R : gmap string float)
    (dates : list string) (written rows : list price_row)
    (date_str : string) (date_prices : gmap string float) (rate m t so : float) :
  write_rows strptime P R dates written = (rows, None) ->
  date_str ∈ dates -> String.ltb date_str START_DATE = false ->
  find_exchange_rate strptime date_str R = Ok (Some rate) ->
  P !! date_str = Some date_prices ->
  date_prices !! "maiz" = Some m -> date_prices !! "trigo" = Some t ->
  date_prices !! "soja" = Some so ->
  float_eq m 0 = false -> float_eq t 0 = false -> float_eq so 0 = false ->
  mk_row date_str m t so rate (round2 (m / rate)) (round2 (t / rate)) (round2 (so / rate))
  ∈ rows.
Proof.
  intros Hwrite Hin Hcut Hrate Hprices Hm Ht Hs Hmz Htz Hsz. revert written Hwrite.
  induction dates as [|d dates IH]; intros written; simpl;
    [by apply elem_of_nil in Hin|].
  destruct (decide (d = date_str)) as [->|Hne].
  - rewrite Hcut, Hrate. unfold getitem. rewrite Hprices. res_simpl.
    rewrite (row_for_priced _ _ _ _ _ _ Hm Ht Hs Hmz Htz Hsz).
    destruct (float_eq rate 0); [done|].
    intros Hrest. apply write_rows_spec in Hrest as (new & -> & _).
    apply elem_of_app. left. apply elem_of_app. right. apply list_elem_of_here.
  - apply elem_of_cons in Hin as [Heq|Hin]; [congruence|].
    destruct (String.ltb d START_DATE); [by apply IH|].
    destruct (find_exchange_rate strptime d R) as [[exchange_rate|]|e];
      [| by apply IH | done].
    destruct (_ ← getitem P d; row_for d _ exchange_rate) as [[r|]|e];
      [by apply IH..|done].
Qed.

Lemma extract_priced
    (pizarra : option (gmap string (gmap string (gmap string json_value))))
    (cereals : list string) (date : string)
    (date_data : gmap string (gmap string json_value)) (c : string) (x : float) :
  default ∅ pizarra !! date = Some date_data ->
  c ∈ cereals -> priced float_of_str date_data c x ->
  extract_cereal_prices_by_date float_of_str pizarra cereals !! date
  = Some (date_prices_loop float_of_str date_data cereals ∅)
  /\ date_prices_loop float_of_str date_data cereals ∅ !! c = Some x.
Proof.
  intros Hdate Hc Hp.
  assert (Hx : date_prices_loop float_of_str date_data cereals ∅ !! c = Some x).
  { apply date_prices_loop_iff; [|by right]. intros c' x'. by rewrite lookup_empty. }
  split; [|done]. unfold extract_cereal_prices_by_date. rewrite lookup_omap, Hdate.
  simpl. case_decide as Hempty; [|done]. by rewrite Hempty, lookup_empty in Hx.
Qed.

Lemma extract_keys
    (pizarra : option (gmap string (gmap string (gmap string json_value))))
    (cereals : list string) (date : string) :
  is_Some (extract_cereal_prices_by_date float_of_str pizarra cereals !! date) ->
  is_Some (default ∅ pizarra !! date).
Proof.
  unfold extract_cereal_prices_by_date. rewrite lookup_omap.
  destruct (default ∅ pizarra !! date); [eauto|]. simpl. by intros [? ?].
Qed.


(** [X5] The rows of the table are in strictly ascending order of date, as
    strings: no date has two rows. *)
Theorem built_rows_ascend
    (pizarra : option (gmap string (gmap string (gmap string json_value))))
    (exchange_data : list (string * json_value))
    (header : list string) (rows : list price_row) (raised : option exn) :
  build_prices_csv float_of_str strptime pizarra exchange_data = File header rows raised ->
  StronglySorted fecha_lt rows.
Proof.
  unfold build_prices_csv.
  destruct (load_exchange_rates float_of_str exchange_data) as [R|e]; [|done].
  destruct (write_rows _ _ _ _ _) as [rows' raised'] eqn:Hwrite.
  intros [= <- <- <-].
  apply write_rows_sorted in Hwrite as (new & -> & Hnew & _); [done|].
  apply sorted_keys_ascending.
Qed.

(** [X6] A run that opened the output file and then stopped with an exception
    stopped either with [ValueError], and then some date of the price
    data or of the exchange data is not read by [strptime], or with
    [ZeroDivisionError], and then some rate of the exchange data is zero.
    No other exception ends it. *)
Theorem build_prices_csv_stops
    (pizarra : option (gmap string (gmap string (gmap string json_value))))
    (exchange_data : list (string * json_value))
    (header : list string) (rows : list price_row) (e : exn) :
  build_prices_csv float_of_str strptime pizarra exchange_data = File header rows (Some e) ->
  (e = ValueError
   /\ exists s,
        (is_Some (default ∅ pizarra !! s) \/ s ∈ exchange_data.*1)
        /\ strptime s = None)
  \/ (e = ZeroDivisionError
      /\ exists k v x,
           (k, v) ∈ exchange_data /\ float_of_json float_of_str v = Ok x
           /\ float_eq x 0 = true).
Proof.
  unfold build_prices_csv.
  destruct (load_exchange_rates float_of_str exchange_data) as [R|e'] eqn:Hload; [|done].
  destruct (write_rows _ _ _ _ _) as [rows' raised'] eqn:Hwrite.
  intros [= <- <- ->].
  assert (HR : forall k x, R !! k = Some x ->
            exists v, (k, v) ∈ exchange_data /\ float_of_json float_of_str v = Ok x).
  { intros k x Hk.
    destruct (load_exchange_rates_loop_lookup float_of_str _ _ _ _ _ Hload Hk) as [H|H];
      [by rewrite lookup_empty in H|done]. }
  apply write_rows_raised in Hwrite as [(-> & s & Hs & Hnone)|(-> & k & x & Hk & Hzero)].
  - left. split; [done|]. exists s. split; [|done]. destruct Hs as [Hs|[x Hs]].
    + left. apply sorted_keys_elem in Hs. by apply extract_keys in Hs.
    + right. apply HR in Hs as (v & Hv & _). apply list_elem_of_fmap. by exists (s, v).
  - right. split; [done|]. apply HR in Hk as (v & Hv & Hx). by exists k, v, x.
  - intros d Hd. by apply sorted_keys_elem.
Qed.


(** [X8] In a run that raised nothing, every date not before the cut-off that
    has a rate found for it and a price above zero for each of the three
    cereals has its row in the table: the date, the three prices and the
    rate as read, and the three quotients rounded. *)
Theorem priced_dates_have_rows
    (pizarra : option (gmap string (gmap string (gmap string json_value))))
    (exchange_data : list (string * json_value))
    (header : list string) (rows : list price_row)
    (R : gmap string float) (date : string)
    (date_data : gmap string (gmap string json_value)) (rate m t so : float) :
  build_prices_csv float_of_str strptime pizarra exchange_data = File header rows None ->
  load_exchange_rates float_of_str exchange_data = Ok R ->
  String.ltb date START_DATE = false ->
  find_exchange_rate strptime date R = Ok (Some rate) ->
  default ∅ pizarra !! date = Some date_data ->
  priced float_of_str date_data "maiz" m ->
  priced float_of_str date_data "trigo" t ->
  priced float_of_str date_data "soja" so ->
  mk_row date m t so rate (round2 (m / rate)) (round2 (t / rate)) (round2 (so / rate))
  ∈ rows.
Proof.
  unfold build_prices_csv. intros Hbuild Hload Hcut Hrate Hdate Hm Ht Hs.
  rewrite Hload in Hbuild.
  destruct (write_rows _ _ _ _ _) as [rows' raised'] eqn:Hwrite.
  injection Hbuild as <- <- ->.
  assert (Hin : forall c, c ∈ CEREALS <-> c = "maiz" \/ c = "trigo" \/ c = "soja").
  { intros c. unfold CEREALS. rewrite !elem_of_cons, elem_of_nil. tauto. }
  destruct (extract_priced pizarra CEREALS date date_data "maiz" m Hdate) as [HP Hm'];
    [apply Hin; auto|done|].
  destruct (extract_priced pizarra CEREALS date date_data "trigo" t Hdate) as [_ Ht'];
    [apply Hin; auto|done|].
  destruct (extract_priced pizarra CEREALS date date_data "soja" so Hdate) as [_ Hs'];
    [apply Hin; auto|done|].
  eapply (write_rows_has_row _ _ _ _ _ _ _ _ _ _ _ Hwrite); try done.
  - apply sorted_keys_elem. by rewrite HP.
  - destruct Hm as (? & _ & _ & Hgt). by apply float_gt_0_ne_0.
  - destruct Ht as (? & _ & _ & Hgt). by apply float_gt_0_ne_0.
  - destruct Hs as (? & _ & _ & Hgt). by apply float_gt_0_ne_0.
Qed.

(** [X17] The estimate stands in for the price only when the price is
    absent or is the text [0.00]. A price that is there, is not that
    text, and does not read as a number above zero (the text [0], the
    number 0, a word) leaves the date without a row, whatever the
    estimate beside it holds. *)
Theorem estimate_needs_the_text_0_00
    (pizarra : option (gmap string (gmap string (gmap string json_value))))
    (exchange_data : list (string * json_value))
    (header : list string) (rows : list price_row) (raised : option exn)
    (date c : string) (date_data : gmap string (gmap string json_value))
    (cereal_data : gmap string json_value) (v : json_value) :
  build_prices_csv float_of_str strptime pizarra exchange_data = File header rows raised ->
  default ∅ pizarra !! date = Some date_data ->
  c ∈ CEREALS -> date_data !! c = Some cereal_data ->
  cereal_data !! "precio" = Some v -> is_text_0_00 v = false ->
  (forall x, float_of_json float_of_str v = Ok x -> float_gt x 0 = false) ->
  Forall (fun r => fecha r <> date) rows.
Proof.
  intros Hbuild Hdate Hc Hcereal Hprecio Htext Hlow.
  apply build_prices_csv_rows in Hbuild as (_ & R & _ & Hrows).
  eapply Forall_impl; [exact Hrows|]. intros r Hr Hfecha.
  destruct Hr as (_ & _ & _ & (date_prices & HP & Hm & Ht & Hs) & _).
  rewrite Hfecha in HP.
  assert (Hy : exists y, date_prices !! c = Some y).
  { unfold CEREALS in Hc. rewrite !elem_of_cons, elem_of_nil in Hc.
    destruct Hc as [->|[->|[->|[]]]]; eauto. }
  destruct Hy as [y Hy].
  destruct (extract_lookup float_of_str _ _ _ _ _ _ HP Hy) as (dd & Hdd & cd & Hcd & Hfloat & Hgt).
  rewrite Hdate in Hdd. injection Hdd as <-. rewrite Hcereal in Hcd. injection Hcd as <-.
  assert (Hv : price_str cereal_data = v).
  { unfold price_str. rewrite Hprecio. simpl. by rewrite Htext. }
  rewrite Hv in Hfloat. apply Hlow in Hfloat. congruence.
Qed.

End WholeRun.

(** *** The example inputs, run whole *)

Lemma load_exchange_rates_last_pair_wins_witness :
  exists R,
    load_exchange_rates float_of_decimal exchange_twice_example = Ok R
    /\ R !! "2020-01-02" = Some 62%float.
Proof.
  destruct (load_exchange_rates float_of_decimal exchange_twice_example) as [R|e] eqn:Hload;
    [|vm_compute in Hload; discriminate].
  exists R. split; [done|].
  apply (load_exchange_rates_last_pair_wins float_of_decimal _ _ Hload).
  exists [("2020-01-02", JNumber 60%float); ("2020-01-03", JString "61.5")],
         (JNumber 62%float), [].
  split; [reflexivity|]. split; [apply not_elem_of_nil|reflexivity].
Defined.

Lemma built_rows_ascend_witness :
  exists rows,
    build_prices_csv float_of_decimal strptime_ymd (Some pizarra_two_example) exchange_example
    = File HEADER rows None
    /\ length rows = 2 /\ StronglySorted fecha_lt rows.
Proof.
  destruct (build_prices_csv float_of_decimal strptime_ymd (Some pizarra_two_example)
              exchange_example) as [e|header rows raised] eqn:Hbuild;
    [vm_compute in Hbuild; discriminate|].
  pose proof (built_rows_ascend float_of_decimal strptime_ymd _ _ _ _ _ Hbuild) as Hsorted.
  vm_compute in Hbuild. injection Hbuild as <- <- <-.
  eexists. split; [reflexivity|]. split; [reflexivity|exact Hsorted].
Defined.

Lemma build_prices_csv_stops_witness :
  build_prices_csv float_of_decimal strptime_ymd (Some pizarra_example) exchange_zero_example
  = File HEADER [] (Some ZeroDivisionError)
  /\ ((ZeroDivisionError = ValueError
       /\ exists s,
            (is_Some (default ∅ (Some pizarra_example) !! s)
             \/ s ∈ exchange_zero_example.*1)
            /\ strptime_ymd s = None)
      \/ (ZeroDivisionError = ZeroDivisionError
          /\ exists k v x,
               (k, v) ∈ exchange_zero_example
               /\ float_of_json float_of_decimal v = Ok x /\ float_eq x 0 = true)).
Proof.
  assert (Hbuild : build_prices_csv float_of_decimal strptime_ymd (Some pizarra_example)
                     exchange_zero_example
                   = File HEADER [] (Some ZeroDivisionError)) by (vm_compute; reflexivity).
  split; [exact Hbuild|].
  exact (build_prices_csv_stops float_of_decimal strptime_ymd _ _ _ _ _ Hbuild).
Defined.


Lemma estimate_needs_the_text_0_00_witness :
  build_prices_csv float_of_decimal strptime_ymd (Some pizarra_estimate_example)
    exchange_example
  = File HEADER [mk_row "2020-01-03" 150 200 300 7.125 21.05 28.07 42.11] None
  /\ Forall (fun r => fecha r <> "2020-01-02")
       [mk_row "2020-01-03" 150 200 300 7.125 21.05 28.07 42.11].
Proof.
  assert (Hbuild : build_prices_csv float_of_decimal strptime_ymd
                     (Some pizarra_estimate_example) exchange_example
                   = File HEADER [mk_row "2020-01-03" 150 200 300 7.125 21.05 28.07 42.11]
                       None) by (vm_compute; reflexivity).
  split; [exact Hbuild|].
  apply (estimate_needs_the_text_0_00 float_of_decimal strptime_ymd _ _ _ _ _
           "2020-01-02" "maiz"
           {[ "maiz" := {[ "precio" := JString "0"; "estimativo" := JString "150" ]};
              "trigo" := precio "200"; "soja" := precio "300" ]}
           {[ "precio" := JString "0"; "estimativo" := JString "150" ]}
           (JString "0") Hbuild).
  - reflexivity.
  - apply list_elem_of_here.
  - reflexivity.
  - reflexivity.
  - reflexivity.
  - intros x Hx. vm_compute in Hx. injection Hx as <-. reflexivity.
Defined.

Lemma priced_dates_have_rows_witness :
  mk_row "2020-01-02" 100.123 200 300 7.125
    (round2 (100.123 / 7.125)) (round2 (200 / 7.125)) (round2 (300 / 7.125))
  ∈ table_example.
Proof.
  apply (priced_dates_have_rows float_of_decimal strptime_ymd
           (Some pizarra_example) exchange_example HEADER table_example
           {[ "2019-12-30" := 7.125%float ]} "2020-01-02"
           {[ "maiz" := precio "100.123"; "trigo" := precio "200";
              "soja" := precio "300" ]}).
  - apply example_table_built.
  - reflexivity.
  - reflexivity.
  - vm_compute. reflexivity.
  - reflexivity.
  - exists (precio "100.123"). repeat split; vm_compute; reflexivity.
  - exists (precio "200"). repeat split; vm_compute; reflexivity.
  - exists (precio "300"). repeat split; vm_compute; reflexivity.
Defined.

End BuildPricesFacts.
